(** * Regulatory-Assessment-Impact: the retrieval assistant, embedded and verified

    A shallow embedding of the Python sources [utils_ingest.py], [ingest.py],
    [vectorstore_faiss.py] and [rag.py], followed by the properties the
    specification states about them.

    Conventions of the embedding.
    - A Python [str] is a [string] holding its UTF-8 encoding; operations that
      Python performs per code point ([split], [strip], slicing, [len]) are
      written so that they act on whole encoded characters.
    - A Python [int] is a [Z].
    - A call that may raise returns a [result]; the exception class is kept.
    - The numeric and hashing libraries the sources call (hashlib,
      scikit-learn, FAISS, rank_bm25, numpy) are interfaces: type classes whose
      fields are the library calls, with the documented contracts kept apart
      as propositions. *)

From Stdlib Require Import ZArith List String Ascii Lia Bool Permutation DecimalString.
From Stdlib Require Import Floats.PrimFloat.
From stdpp Require Import base option list gmap strings.
From Equations Require Import Equations.

#[local] Set Warnings "-register-all".

Import ListNotations.
Local Open Scope string_scope.
Local Open Scope list_scope.
Local Open Scope Z_scope.

(* ===================================================================== *)
(** * Part I. The model *)
(* ===================================================================== *)

(** ** Python values: exceptions and results *)

Inductive exn : Type :=
| AttributeError | TypeError | KeyError | IndexError
| RuntimeError | ValueError | AssertionError
| BackendError.

Inductive result (A : Type) : Type :=
| Ok (a : A)
| Raise (e : exn).
Arguments Ok {A} a.
Arguments Raise {A} e.

#[global] Instance result_ret : MRet result := @Ok.

#[global] Instance result_bind : MBind result :=
  fun A B (k : A -> result B) (m : result A) =>
    match m with
    | Ok a => k a
    | Raise e => Raise e
    end.

(** [for x in xs: body] where the body may raise: the first exception ends
    the loop. *)
Fixpoint rmap {A B : Type} (f : A -> result B) (xs : list A) : result (list B) :=
  match xs with
  | [] => Ok []
  | x :: rest =>
      y ← f x;
      ys ← rmap f rest;
      Ok (y :: ys)
  end.

(** ** Python strings *)

Module PyStr.

(** The string with the given bytes. *)
Definition of_bytes (bs : list Z) : string :=
  string_of_list_ascii (map (fun b => ascii_of_N (Z.to_N b)) bs).

Definition byte_at (s : string) (i : nat) : N :=
  match String.get i s with
  | Some c => N_of_ascii c
  | None => 0%N
  end.

Definition between (lo x hi : N) : bool := ((lo <=? x) && (x <=? hi))%N.

(** Number of bytes of the whitespace character [s] starts with, [0%nat] when
    it starts with none. The characters are those of [str.isspace]:
    U+0009..U+000D, U+001C..U+0020, U+0085, U+00A0, U+1680, U+2000..U+200A,
    U+2028, U+2029, U+202F, U+205F and U+3000, in their UTF-8 encodings. *)
Definition ws_len (s : string) : nat :=
  let b0 := byte_at s 0 in
  let b1 := byte_at s 1 in
  let b2 := byte_at s 2 in
  if between 9 b0 13 || between 28 b0 32 then 1%nat
  else if (b0 =? 194)%N && ((b1 =? 133) || (b1 =? 160))%N then 2%nat
  else if (b0 =? 225)%N && (b1 =? 154)%N && (b2 =? 128)%N then 3%nat
  else if (b0 =? 226)%N && (b1 =? 128)%N
          && (between 128 b2 138 || (b2 =? 168) || (b2 =? 169) || (b2 =? 175))%N
       then 3%nat
  else if (b0 =? 226)%N && (b1 =? 129)%N && (b2 =? 159)%N then 3%nat
  else if (b0 =? 227)%N && (b1 =? 128)%N && (b2 =? 128)%N then 3%nat
  else 0%nat.

Definition flush (cur : string) (out : list string) : list string :=
  match cur with
  | EmptyString => out
  | _ => cur :: out
  end.

(** [split_from s skip cur]: [skip] bytes of a whitespace character are still
    to be passed over, [cur] is the token read so far. *)
Fixpoint split_from (s : string) (skip : nat) (cur : string) : list string :=
  match s with
  | EmptyString => flush cur []
  | String c rest =>
      match skip with
      | S k => split_from rest k cur
      | O =>
          match ws_len s with
          | O => split_from rest 0 (cur +:+ String c EmptyString)
          | S k => flush cur (split_from rest k EmptyString)
          end
      end
  end.

(** [s.split()]: the maximal runs of non-whitespace characters. *)
Definition split (s : string) : list string := split_from s 0 EmptyString.

(** [sep.join(parts)] *)
Fixpoint join (sep : string) (parts : list string) : string :=
  match parts with
  | [] => EmptyString
  | [p] => p
  | p :: rest => p +:+ sep +:+ join sep rest
  end.

Fixpoint lstrip_from (s : string) (skip : nat) : string :=
  match s with
  | EmptyString => EmptyString
  | String c rest =>
      match skip with
      | S k => lstrip_from rest k
      | O =>
          match ws_len s with
          | O => s
          | S k => lstrip_from rest k
          end
      end
  end.

(** [pending] holds the whitespace met since the last character kept: it is
    written out when another character follows and dropped at the end. *)
Fixpoint rstrip_from (s : string) (skip : nat) (pending : string) : string :=
  match s with
  | EmptyString => EmptyString
  | String c rest =>
      match skip with
      | S k => rstrip_from rest k (pending +:+ String c EmptyString)
      | O =>
          match ws_len s with
          | O => pending +:+ String c (rstrip_from rest 0 EmptyString)
          | S k => rstrip_from rest k (pending +:+ String c EmptyString)
          end
      end
  end.

(** [s.strip()] *)
Definition strip (s : string) : string :=
  rstrip_from (lstrip_from s 0) 0 EmptyString.

(** A byte that continues a multi-byte character (10xxxxxx). *)
Definition is_cont (c : ascii) : bool := between 128 (N_of_ascii c) 191.

(** [len(s)]: the number of characters. *)
Fixpoint len (s : string) : Z :=
  match s with
  | EmptyString => 0
  | String c rest => (if is_cont c then 0 else 1) + len rest
  end.

(** [s[:n]] for [n >= 0]: the first [n] characters. *)
Fixpoint take (n : nat) (s : string) : string :=
  match s with
  | EmptyString => EmptyString
  | String c rest =>
      if is_cont c then String c (take n rest)
      else match n with
           | O => EmptyString
           | S k => String c (take k rest)
           end
  end.

Definition lower_ascii (c : ascii) : ascii :=
  let n := N_of_ascii c in
  if between 65 n 90 then ascii_of_N (n + 32) else c.

(** [s.lower()] on the letters A..Z. Case mapping of other scripts is not
    modelled; the lower-cased text is only searched for the ASCII and
    en-dash keywords of the rule tables below. *)
Fixpoint lower (s : string) : string :=
  match s with
  | EmptyString => EmptyString
  | String c rest => String (lower_ascii c) (lower rest)
  end.

Fixpoint starts_with (p s : string) : bool :=
  match p, s with
  | EmptyString, _ => true
  | String a p', String b s' => Ascii.eqb a b && starts_with p' s'
  | String _ _, EmptyString => false
  end.

(** [k in s] *)
Fixpoint contains (k s : string) : bool :=
  starts_with k s ||
  match s with
  | EmptyString => false
  | String _ rest => contains k rest
  end.

(** [any(k in s for k in ks)] *)
Definition any_in (ks : list string) (s : string) : bool :=
  existsb (fun k => contains k s) ks.

(** [s.rsplit("/", 1)[-1]]: what follows the last slash. *)
Fixpoint after_last_slash (s : string) : string :=
  match s with
  | EmptyString => EmptyString
  | String c rest =>
      if contains "/" rest then after_last_slash rest
      else if Ascii.eqb c "/"%char then rest
      else s
  end.

End PyStr.

(** Python slicing [l[start:stop]] of a list: a negative bound counts from the
    end, and both bounds are clamped to the list. *)
Definition slice_bound {A : Type} (l : list A) (i : Z) : nat :=
  let n := Z.of_nat (length l) in
  Z.to_nat (Z.min n (Z.max 0 (if i <? 0 then i + n else i))).

Definition py_slice {A : Type} (l : list A) (start stop : Z) : list A :=
  drop (slice_bound l start) (firstn (slice_bound l stop) l).

(** ** utils_ingest.py, rag.py: the chunker *)

Definition chunk_step (max_tokens overlap : Z) : Z :=
  Z.max 1 (max_tokens - overlap).

(** The [while i < len(words)] loop, on its state [(chunks, i)]. *)
Equations? chunk_loop (words : list string) (max_tokens overlap : Z)
    (chunks : list string) (i : Z) : list string
    by wf (Z.to_nat (Z.of_nat (length words) - i)) lt :=
  chunk_loop words max_tokens overlap chunks i
    with Z_lt_dec i (Z.of_nat (length words)) => {
    | left _ =>
        let chunk := py_slice words i (i + max_tokens) in
        let chunks' :=
          match chunk with
          | [] => chunks
          | _ => chunks ++ [PyStr.join " " chunk]
          end in
        chunk_loop words max_tokens overlap chunks'
          (i + chunk_step max_tokens overlap);
    | right _ => chunks }.
Proof. unfold chunk_step. lia. Qed.

Definition split_into_chunks (text : string) (max_tokens overlap : Z)
  : list string :=
  chunk_loop (PyStr.split text) max_tokens overlap [] 0.

(** Word [j] of [words] is covered by [chunks]: some window of [max_tokens]
    words starting at an index [i] holds it, and the text of that window is
    one of the chunks. *)
Definition covered (words chunks : list string) (max_tokens : Z) (j : nat) : Prop :=
  exists i : Z,
    0 <= i <= Z.of_nat j /\ Z.of_nat j < i + max_tokens /\
    (py_slice words i (i + max_tokens) !! (j - Z.to_nat i)%nat = words !! j) /\
    In (PyStr.join " " (py_slice words i (i + max_tokens))) chunks.

(** ** Decoded JSON *)

(** What [json.loads] returns: [None], [bool], [int], [float], [str], [list]
    and [dict] (keys are strings; a dict keeps one value per key). *)
Inductive json : Type :=
| JNull
| JBool (b : bool)
| JInt (n : Z)
| JFloat (f : float)
| JStr (s : string)
| JList (items : list json)
| JDict (fields : gmap string json).

(** Python truth value: [None], [False], zero, and empty containers are
    false. *)
Definition truthy (v : json) : bool :=
  match v with
  | JNull => false
  | JBool b => b
  | JInt n => negb (n =? 0)
  | JFloat f => negb (PrimFloat.eqb f 0%float)
  | JStr s => negb (String.eqb s EmptyString)
  | JList items => match items with [] => false | _ => true end
  | JDict fields => negb (bool_decide (fields = ∅))
  end.

(** [d.get(k)]: a missing key reads as [None]. *)
Definition dict_get (d : gmap string json) (k : string) : json :=
  default JNull (d !! k).

(** [a or b] *)
Definition py_or (a b : json) : json := if truthy a then a else b.

(** ** Chunk records and the dense store's files *)

(** A chunk record as [ingest.py] writes it and [FAISSStore.build] documents
    it, with the two keys retrieval adds to its copies ([score] by
    [FAISSStore.search], [_bm25] by [RAGPipeline.retrieve]). *)
Record passage : Type := {
  doc_id : string;
  version_hash : string;
  page : Z;
  chunk_id : string;
  text : string;
  source : string;
  clause : option string;
  score : option float;
  _bm25 : option float;
}.

Definition with_score (m : passage) (sc : float) : passage :=
  {| doc_id := doc_id m; version_hash := version_hash m; page := page m;
     chunk_id := chunk_id m; text := text m; source := source m;
     clause := clause m; score := Some sc; _bm25 := _bm25 m |}.

Definition with_bm25 (m : passage) (sc : float) : passage :=
  {| doc_id := doc_id m; version_hash := version_hash m; page := page m;
     chunk_id := chunk_id m; text := text m; source := source m;
     clause := clause m; score := score m; _bm25 := Some sc |}.

(** The identity of a chunk. *)
Definition chunk_key (m : passage) : string * string * string :=
  (doc_id m, version_hash m, chunk_id m).

(** A numpy array of shape [(len rows, dim)]. *)
Record ndarray : Type := { rows : list (list float); dim : nat }.

(** [faiss.IndexFlatIP(d)] after [add]: the vectors, stored as given. *)
Record faiss_index : Type := { d : nat; xb : list (list float) }.

(** The fitted [TfidfVectorizer]: its vocabulary and idf weights. *)
Record vectorizer : Type := { vocabulary : gmap string nat; idf : list float }.

(** A line of [faiss_meta.jsonl], by what [_load_meta] makes of it: blank
    after [strip], rejected by [json.loads], or decoded to a record. *)
Inductive meta_line : Type :=
| Blank
| Unparseable (raw : string)
| Row (rec : passage).

(** [index.faiss] on disk. *)
Inductive index_file : Type :=
| IndexMissing
| IndexUnreadable
| IndexOnDisk (ix : faiss_index).

(** What the pipeline reads and writes: the two files of the index
    directory, the fields of the [FAISSStore] and of the [TFIDFEmbedder], and
    the prompts sent to the generation backend so far. *)
Record world : Type := {
  index_path : index_file;
  meta_path : option (list meta_line);
  index : option faiss_index;
  _meta_cache : option (list passage);
  vec : option vectorizer;
  prompts : list string;
}.

Definition set_index_path (f : index_file) (w : world) : world :=
  {| index_path := f; meta_path := meta_path w; index := index w;
     _meta_cache := _meta_cache w; vec := vec w; prompts := prompts w |}.

Definition set_meta_path (f : option (list meta_line)) (w : world) : world :=
  {| index_path := index_path w; meta_path := f; index := index w;
     _meta_cache := _meta_cache w; vec := vec w; prompts := prompts w |}.

Definition set_index (ix : option faiss_index) (w : world) : world :=
  {| index_path := index_path w; meta_path := meta_path w; index := ix;
     _meta_cache := _meta_cache w; vec := vec w; prompts := prompts w |}.

Definition set_meta_cache (m : option (list passage)) (w : world) : world :=
  {| index_path := index_path w; meta_path := meta_path w; index := index w;
     _meta_cache := m; vec := vec w; prompts := prompts w |}.

Definition add_prompt (p : string) (w : world) : world :=
  {| index_path := index_path w; meta_path := meta_path w; index := index w;
     _meta_cache := _meta_cache w; vec := vec w; prompts := prompts w ++ [p] |}.

(** ** Stateful, fallible computations *)

(** A method of the pipeline: it reads and updates the [world] and returns
    or raises. What was written before an exception stays written. *)
Definition M (A : Type) : Type := world -> world * result A.

#[global] Instance M_ret : MRet M := fun A a w => (w, Ok a).

#[global] Instance M_bind : MBind M :=
  fun A B (k : A -> M B) (m : M A) w =>
    match m w with
    | (w', Ok a) => k a w'
    | (w', Raise e) => (w', Raise e)
    end.

Definition raise {A : Type} (e : exn) : M A := fun w => (w, Raise e).
Definition get_world : M world := fun w => (w, Ok w).
Definition modify (f : world -> world) : M unit := fun w => (f w, Ok tt).
Definition lift {A : Type} (r : result A) : M A := fun w => (w, r).

(** ** The libraries *)

(** What [generate] returned, with what [json.loads] makes of it. *)
Inductive reply : Type :=
| Malformed (text : string)
| Parsed (text : string) (data : json).

(** The calls that leave the repository. Each field is one call, named after
    it; floating-point results are carried as values and never computed
    here. *)
Class Libs : Type := {
  (** numpy: [row / (norm(row) + 1e-12)] *)
  normalize_row : list float -> list float;
  (** scikit-learn: [vec.transform(texts).astype(float32).toarray()] *)
  tfidf_transform : vectorizer -> list string -> ndarray;
  (** FAISS: [index.search(q, k)] for one query row: [k] labels with their
      scores, best first, [-1] where the index has fewer than [k] rows *)
  flat_ip_search : faiss_index -> list float -> Z -> result (list (Z * float));
  (** rank_bm25: [BM25Okapi(tokenized).get_scores(query)] *)
  bm25_get_scores : list (list string) -> list string -> list float;
  (** numpy: [argsort(keys)] with the default sort kind *)
  argsort : list float -> list nat;
  (** Python: [str(v)] of a decoded value *)
  py_str : json -> string;
  (** llm.py: [generate(prompt)], which may raise *)
  generate : string -> result reply;
}.

(** ** vectorstore_faiss.py *)

Section Pipeline.
Context {L : Libs}.

Definition _l2_normalize (mat : ndarray) : ndarray :=
  {| rows := map normalize_row (rows mat); dim := dim mat |}.

(** [_save_meta]: one line per record. *)
Definition _save_meta (meta : list passage) : M unit :=
  modify (set_meta_path (Some (map Row meta))).

(** The loop of [_load_meta]: blank lines and rows that do not parse are
    skipped. *)
Fixpoint load_rows (lines : list meta_line) : list passage :=
  match lines with
  | [] => []
  | Blank :: rest => load_rows rest
  | Unparseable _ :: rest => load_rows rest
  | Row rec :: rest => rec :: load_rows rest
  end.

Definition _load_meta : M (list passage) :=
  w ← get_world;
  match meta_path w with
  | None => mret []
  | Some lines => mret (load_rows lines)
  end.

Definition _save_index (ix : faiss_index) : M unit :=
  modify (set_index_path (IndexOnDisk ix)).

Definition _load_index : M (option faiss_index) :=
  w ← get_world;
  match index_path w with
  | IndexMissing => mret None
  | IndexUnreadable => raise RuntimeError
  | IndexOnDisk ix => mret (Some ix)
  end.

Definition _ensure_loaded : M unit :=
  w ← get_world;
  _ ← match index w with
      | None => ix ← _load_index; modify (set_index ix)
      | Some _ => mret tt
      end;
  w ← get_world;
  match _meta_cache w with
  | None => m ← _load_meta; modify (set_meta_cache (Some m))
  | Some _ => mret tt
  end.

(** [FAISSStore.build] *)
Definition build (vectors : ndarray) (meta : list passage) : M unit :=
  if negb (length meta =? length (rows vectors))%nat then raise ValueError
  else
    let vecs := _l2_normalize vectors in
    let ix := {| d := dim vecs; xb := rows vecs |} in
    _ ← _save_index ix;
    _ ← _save_meta meta;
    _ ← modify (set_index (Some ix));
    modify (set_meta_cache (Some meta)).

(** The loop of [search] over the labels and scores FAISS returned: a
    negative label is skipped, a label past the metadata raises. *)
Fixpoint collect_hits (meta : list passage) (hits : list (Z * float))
  : result (list passage) :=
  match hits with
  | [] => Ok []
  | (i, sc) :: rest =>
      if i <? 0 then collect_hits meta rest
      else
        match meta !! Z.to_nat i with
        | None => Raise IndexError
        | Some m =>
            out ← collect_hits meta rest;
            Ok (with_score m sc :: out)
        end
  end.

(** [FAISSStore.search] *)
Definition search (qvec : ndarray) (top_k : Z) : M (list passage) :=
  _ ← _ensure_loaded;
  w ← get_world;
  match index w, _meta_cache w with
  | Some ix, Some (m :: ms) =>
      let q := _l2_normalize qvec in
      let k := Z.min top_k (Z.of_nat (length (m :: ms))) in
      match rows q with
      | [] => raise IndexError
      | q0 :: _ =>
          hits ← lift (flat_ip_search ix q0 k);
          lift (collect_hits (m :: ms) hits)
      end
  | _, _ => mret []
  end.

(** ** rag.py: retrieval *)

Definition _short_name (path : string) : string :=
  match path with
  | EmptyString => EmptyString
  | _ => PyStr.after_last_slash path
  end.

Definition _TEMP_SYNONYMS : list string :=
  ["2–8 °C"; "2 - 8 °C"; "2 to 8 °C"; "2-8 °C"; "2-8C";
   "refrigerated"; "cold chain"; "controlled temperature";
   "storage and transportation"; "transport"; "shipping"; "Section 24";
   "TGO 109"].

Definition _MALARIA_SYNONYMS : list string :=
  ["malaria"; "malaria-endemic"; "endemic region"; "ineligib"; "deferr";
   "period of ineligibility"].

Definition _DEFERRAL_SYNONYMS : list string :=
  ["deferral"; "period of ineligibility"; "ineligible"; "donor eligibility";
   "exclusion"; "contraindicated"].

(** [list(dict.fromkeys(xs))]: the first occurrence of each item, in order. *)
Fixpoint dedup_seen (seen xs : list string) : list string :=
  match xs with
  | [] => []
  | x :: rest =>
      if bool_decide (x ∈ seen) then dedup_seen seen rest
      else x :: dedup_seen (x :: seen) rest
  end.

Definition _expand_query (q : string) : string :=
  let ql := PyStr.lower q in
  let extra :=
    (if PyStr.any_in ["2–8"; "2-8"; "2 to 8"; "refriger"; "cold chain";
                      "transport"; "shipping"; "storage"] ql
     then _TEMP_SYNONYMS else [])
    ++ (if PyStr.contains "malaria" ql || PyStr.contains "endemic" ql
        then _MALARIA_SYNONYMS else [])
    ++ (if PyStr.any_in ["deferr"; "ineligib"; "exclusion"; "eligib"] ql
        then _DEFERRAL_SYNONYMS else []) in
  match extra with
  | [] => q
  | _ => q +:+ " " +:+ PyStr.join " " (firstn 12 (dedup_seen [] extra))
  end.

(** [TFIDFEmbedder.transform] *)
Definition transform (texts : list string) : M ndarray :=
  w ← get_world;
  match vec w with
  | None => raise RuntimeError
  | Some v => mret (tfidf_transform v texts)
  end.

(** [RAGPipeline.embed] *)
Definition embed (texts : list string) : M ndarray := transform texts.

(** [build_bm25(corpus)] followed by [get_scores(query)] *)
Definition build_bm25 (corpus : list string) (query : list string) : list float :=
  bm25_get_scores (map (fun doc => PyStr.split (PyStr.lower doc)) corpus) query.

(** [xs[i]] for an index numpy produced *)
Definition item {A : Type} (xs : list A) (i : nat) : result A :=
  match xs !! i with
  | Some x => Ok x
  | None => Raise IndexError
  end.

(** Stage 2 of [RAGPipeline.retrieve]: BM25 over the candidates only, then
    [order = np.argsort(-scores)[:top_k]] and the candidates picked in that
    order. *)
Definition rerank (q_expanded : string) (top_k : Z) (dense_hits : list passage)
  : result (list passage) :=
  let corpus := map text dense_hits in
  let scores := build_bm25 corpus (PyStr.split (PyStr.lower q_expanded)) in
  let order := py_slice (argsort (map PrimFloat.opp scores)) 0 top_k in
  rmap (fun i =>
          h ← item dense_hits i;
          s ← item scores i;
          Ok (with_bm25 h s)) order.

(** [RAGPipeline.retrieve] *)
Definition retrieve (question : string) (top_k : Z) : M (list passage) :=
  w ← get_world;
  match vec w with
  | None => mret []
  | Some _ =>
      let q_expanded := _expand_query question in
      qvec ← embed [q_expanded];
      dense_hits ← search qvec (top_k * 2);
      match dense_hits with
      | [] => mret []
      | _ => lift (rerank q_expanded top_k dense_hits)
      end
  end.

(** ** rag.py: the grounded answer *)

Definition dq : string := String (ascii_of_nat 34) EmptyString.
Definition nl : string := String (ascii_of_nat 10) EmptyString.
Definition qt (s : string) : string := dq +:+ s +:+ dq.

(** [str(n)] of an [int] *)
Definition str_of_int (n : Z) : string := NilZero.string_of_int (Z.to_int n).

Definition PROMPT_RULES : string :=
  PyStr.join nl
    ["You are a Regulatory Impact Assessment assistant for Australian Lifeblood.";
     "Answer strictly using ONLY the quoted passages.";
     "Include citations as [Document (page X)]. If unclear, say so and require human supervision.";
     "Return a JSON object in the exact schema shown."].

Definition PROMPT_SCHEMA : string :=
  PyStr.join nl
    ["Your response MUST be a single JSON object matching this schema and constraints:";
     "{";
     "  " +:+ qt "compliance_status" +:+ ": " +:+ qt "Compliant" +:+ " | "
       +:+ qt "Not Compliant" +:+ " | " +:+ qt "Unclear" +:+ ",";
     "  " +:+ qt "rationale" +:+ ": "
       +:+ qt "1–3 sentences grounded ONLY in the quotes" +:+ ",";
     "  " +:+ qt "citations" +:+ ": [";
     "    {" +:+ qt "source" +:+ ": " +:+ qt "filename.pdf" +:+ ", "
       +:+ qt "page" +:+ ": <int>, " +:+ qt "quote" +:+ ": "
       +:+ qt "verbatim clause" +:+ "}";
     "  ],";
     "  " +:+ qt "violations_or_risks" +:+ ": [";
     "    " +:+ qt "At least 1 specific risk or violated clause; if unclear, state the most likely risk.";
     "  ],";
     "  " +:+ qt "alternative_suggestions" +:+ ": [";
     "    " +:+ qt "At least 1 concrete mitigation (e.g., validated 2–8 °C shipper, temp logger).";
     "  ],";
     "  " +:+ qt "summary_proposal" +:+ ": "
       +:+ qt "Short summary referencing cited clauses." +:+ ",";
     "  " +:+ qt "human_supervision_required" +:+ ": true";
     "}";
     EmptyString;
     "Rules:";
     "- Do NOT invent citations; every assertion must be backed by the provided quotes.";
     "- If the user asks to LIST requirements (e.g., “what must/include/requirements”), DO NOT assess current compliance.";
     "  In that case: set " +:+ qt "compliance_status" +:+ " to " +:+ qt "Compliant"
       +:+ " to indicate the requirement extraction is complete,";
     "  provide the requirements and citations, and set "
       +:+ qt "human_supervision_required" +:+ " to false.";
     "- If evidence is insufficient, set " +:+ qt "Unclear"
       +:+ " BUT STILL provide at least one plausible risk and one mitigation suggestion.";
     "- Keep quotes short (1–3 lines) and include the page numbers.";
     EmptyString].

(** The numbered evidence quotes, [enumerate(passages, 1)]. *)
Fixpoint prompt_quotes (i : Z) (passages : list passage) : list string :=
  match passages with
  | [] => []
  | p :: rest =>
      ("[" +:+ str_of_int i +:+ "] " +:+ source p +:+ " (page "
         +:+ str_of_int (page p) +:+ ")" +:+ nl
         +:+ dq +:+ dq +:+ dq +:+ nl +:+ text p +:+ nl
         +:+ dq +:+ dq +:+ dq +:+ nl)
      :: prompt_quotes (i + 1) rest
  end.

Definition format_prompt (question : string) (passages : list passage) : string :=
  PROMPT_RULES +:+ nl +:+ nl
  +:+ "Question:" +:+ nl +:+ question +:+ nl +:+ nl
  +:+ "Evidence passages:" +:+ nl
  +:+ PyStr.join nl (prompt_quotes 1 passages) +:+ nl +:+ nl
  +:+ PROMPT_SCHEMA.

Record backfill : Type := { risks : list string; alts : list string }.

Definition _backfill_risks_suggestions (question : string) : backfill :=
  let q := PyStr.lower question in
  let cold :=
    PyStr.any_in ["2–8"; "2-8"; "2 to 8"; "refriger"; "cold chain";
                  "transport"; "shipping"] q in
  let malaria := PyStr.contains "malaria" q || PyStr.contains "endemic" q in
  let risks :=
    (if cold then
       ["Risk of temperature excursion during transport leading to product quality compromise.";
        "Potential non-compliance with storage/transport clauses if 2–8 °C cannot be maintained for full transit."]
     else [])
    ++ (if malaria then
          ["Risk of transfusion-transmitted malaria if deferral/eligibility rules are not applied."]
        else []) in
  let alts :=
    (if cold then
       ["Use a validated 2–8 °C shipper with lane qualification and pre-conditioned gel packs.";
        "Include a calibrated temperature logger and define acceptance criteria; review on receipt.";
        "Reduce transit time or split shipments; ensure monitored handover at each leg."]
     else [])
    ++ (if malaria then
          ["Apply the specified deferral period or require negative testing per the cited appendix before acceptance."]
        else []) in
  {| risks :=
       match risks with
       | [] => ["Evidence insufficient; risk of non-compliance if policy deviates from cited clauses."]
       | _ => risks
       end;
     alts :=
       match alts with
       | [] => ["Escalate for human review and obtain written confirmation against the cited standard/appendix."]
       | _ => alts
       end |}.

Definition str_list (xs : list string) : json := JList (map JStr xs).

(** A citation derived from a retrieved passage, its quote cut to [n]
    characters. *)
Definition passage_citation (n : nat) (p : passage) : json :=
  JDict (list_to_map
    [("source", JStr (_short_name (source p)));
     ("page", JInt (page p));
     ("quote", JStr (PyStr.take n (PyStr.join " " (PyStr.split (text p)))))]).

(** [for c in v]: a list gives its items, a string its characters, a dict
    its keys; other values are not iterable. *)
Definition py_iter (v : json) : result (list json) :=
  match v with
  | JList items => Ok items
  | JStr s => Ok (map (fun c => JStr (String c EmptyString)) (list_ascii_of_string s))
  | JDict fields => Ok (map (fun kv => JStr kv.1) (map_to_list fields))
  | JNull | JBool _ | JInt _ | JFloat _ => Raise TypeError
  end.

(** [src in ("doc", "", None)] *)
Definition is_placeholder (src : json) : bool :=
  match src with
  | JNull => true
  | JStr s => String.eqb s "doc" || String.eqb s EmptyString
  | _ => false
  end.

(** [_short_name(src)] on a decoded value: only a [str] has [rsplit]. *)
Definition _short_name_of (src : json) : result string :=
  if negb (truthy src) then Ok EmptyString
  else match src with
       | JStr s => Ok (PyStr.after_last_slash s)
       | _ => Raise AttributeError
       end.

(** [str(c["quote"])] *)
Definition quote_text (q : json) : string :=
  match q with
  | JStr s => s
  | _ => py_str q
  end.

(** The body of the loop over the model's citations. *)
Definition normalise_citation (first_src : string) (first_page : Z) (c : json)
  : result json :=
  match c with
  | JDict c =>
      let src := py_or (dict_get c "source") (JStr first_src) in
      let src := if is_placeholder src then JStr first_src else src in
      name ← _short_name_of src;
      let c := <["source" := JStr name]> c in
      let c :=
        match c !! "page" with
        | Some pg => if truthy pg then c else <["page" := JInt first_page]> c
        | None => <["page" := JInt first_page]> c
        end in
      let c :=
        if truthy (dict_get c "quote")
        then <["quote" :=
                 JStr (PyStr.take 400
                         (PyStr.join " " (PyStr.split (quote_text (dict_get c "quote")))))]> c
        else c in
      Ok (JDict c)
  | _ => Raise AttributeError
  end.

(** [(data.get("compliance_status") or "Unclear").strip()] *)
Definition final_status (data : gmap string json) : result string :=
  match py_or (dict_get data "compliance_status") (JStr "Unclear") with
  | JStr s => Ok (PyStr.strip s)
  | _ => Raise AttributeError
  end.

(** The record [answer] returns when retrieval found nothing. *)
Definition no_evidence_record (question : string) : gmap string json :=
  let rf := _backfill_risks_suggestions question in
  list_to_map
    [("compliance_status", JStr "Unclear");
     ("rationale", JStr "No index or no matches. Ingest documents first.");
     ("citations", JList []);
     ("violations_or_risks", str_list (risks rf));
     ("alternative_suggestions", str_list (alts rf));
     ("summary_proposal",
      JStr "Ingest relevant documents and retry; see suggested mitigations.");
     ("human_supervision_required", JBool true)].

(** The record [answer] falls back to when the reply does not parse. *)
Definition fallback_record (reply_text : string) (passages : list passage)
  : gmap string json :=
  list_to_map
    [("compliance_status", JStr "Unclear");
     ("rationale", JStr (PyStr.take 600 reply_text));
     ("citations", JList (map (passage_citation 300) (firstn 4 passages)));
     ("violations_or_risks", JList []);
     ("alternative_suggestions", JList []);
     ("summary_proposal",
      JStr "See grounded excerpts and consult a human reviewer.");
     ("human_supervision_required", JBool true)].

(** [RAGPipeline.answer] from the reply on: parse or fall back, normalise
    the citations, backfill, recompute the supervision flag. *)
Definition assemble (question : string) (passages : list passage) (r : reply)
  : result (gmap string json) :=
  let data :=
    match r with
    | Parsed _ data => data
    | Malformed text => JDict (fallback_record text passages)
    end in
  match data with
  | JDict data =>
      data ←
        (if negb (truthy (dict_get data "citations")) then
           Ok (<["citations" := JList (map (passage_citation 300) (firstn 3 passages))]> data)
         else
           let '(first_src, first_page) :=
             match passages with
             | p :: _ => (_short_name (source p), page p)
             | [] => (EmptyString, 1)
             end in
           cs ← py_iter (dict_get data "citations");
           cs' ← rmap (normalise_citation first_src first_page) cs;
           Ok (match dict_get data "citations" with
               | JList _ => <["citations" := JList cs']> data
               | _ => data
               end));
      let rf := _backfill_risks_suggestions question in
      let data :=
        if negb (truthy (dict_get data "violations_or_risks"))
        then <["violations_or_risks" := str_list (risks rf)]> data else data in
      let data :=
        if negb (truthy (dict_get data "alternative_suggestions"))
        then <["alternative_suggestions" := str_list (alts rf)]> data else data in
      status ← final_status data;
      Ok (<["human_supervision_required" :=
              JBool (negb (String.eqb status "Compliant"))]> data)
  | _ => Raise AttributeError
  end.

(** [RAGPipeline.answer] *)
Definition answer (question : string) (top_k : Z) : M (gmap string json) :=
  passages ← retrieve question top_k;
  match passages with
  | [] => mret (no_evidence_record question)
  | _ =>
      let prompt := format_prompt question passages in
      _ ← modify (add_prompt prompt);
      r ← lift (generate prompt);
      lift (assemble question passages r)
  end.

(** *** What a reload serves *)

(** The index and the metadata rows [_ensure_loaded] leaves in the store:
    the cached ones, else the ones on disk. *)
Definition live_index (w : world) : option faiss_index :=
  match index w with
  | Some ix => Some ix
  | None =>
      match index_path w with
      | IndexOnDisk ix => Some ix
      | _ => None
      end
  end.

Definition live_meta (w : world) : list passage :=
  match _meta_cache w with
  | Some m => m
  | None =>
      match meta_path w with
      | Some lines => load_rows lines
      | None => []
      end
  end.

Definition loaded (w : world) : world :=
  set_meta_cache (Some (live_meta w)) (set_index (live_index w) w).

(** The index file cannot be read and no index is cached. *)
Definition unreadable (w : world) : bool :=
  match index w, index_path w with
  | None, IndexUnreadable => true
  | _, _ => false
  end.

(** The dense store holds no vectors: there is no index to load, or the
    index loaded has none. *)
Definition no_vectors (w : world) : Prop :=
  unreadable w = false /\
  match live_index w with
  | Some ix => xb ix = []
  | None => True
  end.

(** The index and its metadata are row-aligned, as [build] leaves them. *)
Definition aligned (w : world) : Prop :=
  match live_index w with
  | Some ix => length (xb ix) = length (live_meta w)
  | None => True
  end.

(** *** The contracts of the libraries *)




(** rank_bm25 scores every document of the corpus. *)
Definition scores_every_document : Prop :=
  forall (corpus : list (list string)) (query : list string),
    length (bm25_get_scores corpus query) = length corpus.








End Pipeline.

(** ** utils_ingest.py, ingest.py: versions and the manifest *)

(** A line of the manifest [meta.jsonl], by what [_load_manifest] makes of
    it: blank after [strip], rejected by [json.loads], decoded to an
    object, or decoded to a value that is no object (a list, a number, a
    string, [true], [false] or [null]). The objects are those with string
    values: the rows [ingest.py] writes and the legacy shapes
    [_load_manifest] recovers. [MJoined first rec] is a line [first] that was
    left without its newline and had the row [rec] written after it: where
    [first] is not blank the two together are rejected by [json.loads]. *)
Inductive manifest_line : Type :=
| MBlank
| MUnparseable (raw : string)
| MRow (rec : gmap string string)
| MOther (raw : string)
| MJoined (first : manifest_line) (rec : gmap string string).

(** A manifest record in the normalised shape of [_load_manifest]. *)
Record version : Type := {
  v_doc_id : string;
  v_version_hash : string;
  v_created_at : string;
  v_source_kind : string;
  v_path : string;
  v_url : string;
}.

(** An item of [_iter_sources]. *)
Inductive source_item : Type :=
| FileItem (path : string)
| UrlItem (url : string).

(** What ingestion reads from outside: the readers (taken to return), the
    SHA-256 hex digest, and the clock behind [now_iso], read by tick. *)
Class Env : Type := {
  _read_local_file : string -> list (Z * string);
  read_web : string -> list (Z * string);
  sha256_bytes : string -> string;
  now_iso_at : nat -> string;
}.

(** The manifest file ([None]: it does not exist) by its lines, whether its
    last line lacks the newline, the clock, and the counter
    [scan_and_index] reports. *)
Record ingest_state : Type := {
  manifest_file : option (list manifest_line);
  unterminated : bool;
  clock : nat;
  added_versions : Z;
}.

Section Ingest.
Context {E : Env}.

(** [t.encode("utf-8", errors="ignore")] is the string itself here. *)
Definition sha256_text (t : string) : string := sha256_bytes t.

(** Truth value of [rec.get(k)] for a string-valued object. *)
Definition present (v : option string) : bool :=
  match v with
  | Some s => negb (String.eqb s EmptyString)
  | None => false
  end.

(** [a or b] on such values *)
Definition or_else (a b : option string) : option string :=
  if present a then a else b.

(** [d[k] = v] on a dict that keeps insertion order. *)
Fixpoint odict_set {V : Type} (k : string) (v : V) (d : list (string * V))
  : list (string * V) :=
  match d with
  | [] => [(k, v)]
  | (k', v') :: rest =>
      if String.eqb k k' then (k, v) :: rest
      else (k', v') :: odict_set k v rest
  end.

(** [k in d] *)
Definition odict_mem {V : Type} (k : string) (d : list (string * V)) : bool :=
  existsb (fun kv => String.eqb k kv.1) d.

(** The document id [_load_manifest] recovers from a row, new or legacy:
    [rec.get("doc_id") or rec.get("source") or rec.get("id") or
    rec.get("path") or rec.get("url")]. *)
Definition row_doc_id (rec : gmap string string) : option string :=
  or_else (rec !! "doc_id")
    (or_else (rec !! "source")
       (or_else (rec !! "id")
          (or_else (rec !! "path") (rec !! "url")))).

(** [rec.get("version_hash") or rec.get("hash") or rec.get("sha256")] *)
Definition row_version_hash (rec : gmap string string) : option string :=
  or_else (rec !! "version_hash")
    (or_else (rec !! "hash") (rec !! "sha256")).

(** The loop of [_load_manifest] over the lines, threading the clock. On a
    line that decodes to no object, [rec.get] raises [AttributeError]. *)
Fixpoint load_manifest_lines (lines : list manifest_line)
    (d : gmap string (list (string * version))) (tick : nat)
  : result (gmap string (list (string * version)) * nat) :=
  match lines with
  | [] => Ok (d, tick)
  | MBlank :: rest => load_manifest_lines rest d tick
  | MUnparseable _ :: rest => load_manifest_lines rest d tick
  | MJoined _ _ :: rest => load_manifest_lines rest d tick
  | MOther _ :: rest => Raise AttributeError
  | MRow rec :: rest =>
      let doc_id := row_doc_id rec in
      if negb (present doc_id) then load_manifest_lines rest d tick
      else
        let vhash := row_version_hash rec in
        if negb (present vhash) then load_manifest_lines rest d tick
        else
          let doc_id := default EmptyString doc_id in
          let vhash := default EmptyString vhash in
          let stamped := or_else (rec !! "created_at") (rec !! "timestamp") in
          let '(created_at, tick') :=
            if present stamped then (default EmptyString stamped, tick)
            else (now_iso_at tick, S tick) in
          let norm :=
            {| v_doc_id := doc_id;
               v_version_hash := vhash;
               v_created_at := created_at;
               v_source_kind :=
                 if present (rec !! "source_kind")
                 then default EmptyString (rec !! "source_kind")
                 else match rec !! "url" with
                      | Some _ => "url"
                      | None => "file"
                      end;
               v_path := default EmptyString (rec !! "path");
               v_url := default EmptyString (rec !! "url") |} in
          load_manifest_lines rest
            (<[doc_id := odict_set vhash norm (default [] (d !! doc_id))]> d)
            tick'
  end.

Definition _load_manifest (st : ingest_state)
  : result (gmap string (list (string * version)) * ingest_state) :=
  match manifest_file st with
  | None => Ok (∅, st)
  | Some lines =>
      '(d, tick) ← load_manifest_lines lines ∅ (clock st);
      Ok (d, {| manifest_file := manifest_file st;
                unterminated := unterminated st; clock := tick;
                added_versions := added_versions st |})
  end.

(** A row written after a line without newline: after blanks it is read as
    the row, after anything else the line is rejected. *)
Definition joined (first : manifest_line) (rec : gmap string string)
  : manifest_line :=
  match first with
  | MBlank => MRow rec
  | _ => MJoined first rec
  end.

(** The lines after [f.write(json.dumps(rec) + "\n")] in append mode. *)
Definition appended (lines : list manifest_line) (open_end : bool)
    (rec : gmap string string) : list manifest_line :=
  if open_end then
    match last lines with
    | Some l => removelast lines ++ [joined l rec]
    | None => [MRow rec]
    end
  else lines ++ [MRow rec].

(** [_append_manifest(rec)]: the file is created when missing, and it ends
    with a newline afterwards. *)
Definition _append_manifest (rec : gmap string string) (st : ingest_state)
  : ingest_state :=
  {| manifest_file :=
       Some (appended (default [] (manifest_file st)) (unterminated st) rec);
     unterminated := false;
     clock := clock st;
     added_versions := added_versions st |}.

(** [os.path.basename(path)] *)
Definition basename (path : string) : string := PyStr.after_last_slash path.

Definition item_id (s : source_item) : string :=
  match s with
  | FileItem path => basename path
  | UrlItem url => url
  end.

Definition item_pages (s : source_item) : list (Z * string) :=
  match s with
  | FileItem path => _read_local_file path
  | UrlItem url => read_web url
  end.

(** [full_text = "\n\n".join(t for _, t in pages)] *)
Definition full_text (pages : list (Z * string)) : string :=
  PyStr.join (nl +:+ nl) (map snd pages).

(** The version hash [scan_and_index] computes for a source. *)
Definition item_hash (s : source_item) : string :=
  sha256_text (full_text (item_pages s)).

(** The manifest entry [rec_meta] of a source. *)
Definition rec_meta (s : source_item) (vhash created_at : string)
  : gmap string string :=
  match s with
  | FileItem path =>
      list_to_map
        [("doc_id", basename path); ("version_hash", vhash);
         ("created_at", created_at); ("source_kind", "file");
         ("path", path)]
  | UrlItem url =>
      list_to_map
        [("doc_id", url); ("version_hash", vhash);
         ("created_at", created_at); ("source_kind", "url");
         ("url", url)]
  end.

(** One turn of the loop of [scan_and_index] over the sources, as far as
    the manifest goes: hash the text read, look the hash up among the
    versions loaded for the document, append a row when it is not there. *)
Definition register (manifest : gmap string (list (string * version)))
    (s : source_item) (st : ingest_state) : ingest_state :=
  let pages := item_pages s in
  let vhash := sha256_text (full_text pages) in
  let old := default [] (manifest !! item_id s) in
  let is_new := negb (odict_mem vhash old) in
  let created_at := now_iso_at (clock st) in
  let st :=
    {| manifest_file := manifest_file st; unterminated := unterminated st;
       clock := S (clock st); added_versions := added_versions st |} in
  if is_new then
    let st := _append_manifest (rec_meta s vhash created_at) st in
    {| manifest_file := manifest_file st; unterminated := unterminated st;
       clock := clock st; added_versions := added_versions st + 1 |}
  else st.

(** The manifest side of [scan_and_index]: the manifest is loaded once, then
    every source is registered against what was loaded. *)
Definition scan_and_index (sources : list source_item) (st : ingest_state)
  : result ingest_state :=
  '(manifest, st) ← _load_manifest st;
  let st :=
    {| manifest_file := manifest_file st; unterminated := unterminated st;
       clock := clock st; added_versions := 0 |} in
  Ok (fold_left (fun st s => register manifest s st) sources st).

(** Rows of the manifest file. *)
Definition manifest_rows (st : ingest_state) : nat :=
  length (default [] (manifest_file st)).


(** The loaded manifest holds version [vhash] of document [doc]. *)
Definition holds (manifest : gmap string (list (string * version)))
    (doc vhash : string) : Prop :=
  odict_mem vhash (default [] (manifest !! doc)) = true.

(** The source is unchanged: the hash of the text read from it is among the
    versions the loaded manifest holds for its document. *)
Definition known (manifest : gmap string (list (string * version)))
    (s : source_item) : Prop :=
  holds manifest (item_id s) (item_hash s).


(** The lines of the manifest file that end with a newline. *)
Definition complete_lines (st : ingest_state) : list manifest_line :=
  if unterminated st then removelast (default [] (manifest_file st))
  else default [] (manifest_file st).

End Ingest.

(** ** Library behaviours for closed runs *)

(** The model runs on closed inputs once the library calls are given values.
    In [Lab.libs order reply] the stored vectors are unit vectors of the
    plane and every query is [[1; 0]], so that the inner product of a row
    is its first coordinate; FAISS answers as its flat inner-product index
    does for one query (see [Lab.flat_ip]); no query token occurs in a
    candidate (all BM25 scores are 0); [argsort] returns [order]; and the
    backend answers [reply]. *)
Module Lab.

(** The inner product. *)
Fixpoint dot (a b : list float) : float :=
  match a, b with
  | x :: a, y :: b => (x * y + dot a b)%float
  | _, _ => 0%float
  end.

(** The order of the results: by score, equal scores by label. *)
Definition below (a b : Z * float) : bool :=
  PrimFloat.ltb a.2 b.2 || (PrimFloat.eqb a.2 b.2 && (a.1 <? b.1)).

(** [h] put in its place in a list that descends in that order. *)
Fixpoint place (h : Z * float) (ranked : list (Z * float))
  : list (Z * float) :=
  match ranked with
  | [] => [h]
  | r :: rest => if below h r then r :: place h rest else h :: r :: rest
  end.

(** One row offered to the [k] best so far: it is taken while there is
    room, and afterwards only when its score is strictly greater than the
    least score kept, whose entry it replaces. *)
Definition offer (k : nat) (kept : list (Z * float)) (h : Z * float)
  : list (Z * float) :=
  if PrimFloat.ltb PrimFloat.neg_infinity h.2 then
    if (length kept <? k)%nat then place h kept
    else match last kept with
         | Some l =>
             if PrimFloat.ltb l.2 h.2 then place h (removelast kept)
             else kept
         | None => kept
         end
  else kept.

(** [IndexFlatIP.search] for one query: the rows are offered in index
    order, the [k] kept come out best first, rows of equal score the later
    one first, and the result is padded with the label [-1]. *)
Definition flat_ip (ix : faiss_index) (q : list float) (k : Z)
  : list (Z * float) :=
  let found :=
    fold_left (offer (Z.to_nat k))
      (imap (fun (i : nat) (v : list float) => (Z.of_nat i, dot q v)) (xb ix))
      [] in
  found ++ replicate (Z.to_nat k - length found)%nat (-1, PrimFloat.neg_infinity).

Definition libs (order : list float -> list nat) (reply : result reply)
  : Libs :=
  {| normalize_row := fun row => row;
     tfidf_transform := fun _ texts =>
       {| rows := map (fun _ => [1%float; 0%float]) texts; dim := 2 |};
     flat_ip_search := fun ix q k =>
       if k <=? 0 then Raise AssertionError
       else Ok (flat_ip ix q k);
     bm25_get_scores := fun corpus _ => map (fun _ => 0%float) corpus;
     argsort := order;
     py_str := fun _ => "None";
     generate := fun _ => reply |}.

(** [argsort] on keys that are all equal and at most 17 in number: the
    default kind then sorts by insertion, which moves nothing. *)
Definition in_order (keys : list float) : list nat := seq 0 (length keys).

(** *** numpy's [argsort] of the default kind

    The default kind is an introsort on the array of positions: ranges of
    more than 17 positions are partitioned around the median of their
    first, middle and last key, shorter ranges are sorted by insertion.
    (The fall-back to heapsort on deep recursion is left out: it is not
    reached on the arrays sorted here.) *)


(** The key at position [i] of the array of positions. *)
Definition key (v : list float) (t : list nat) (i : nat) : float :=
  nth (nth i t 0%nat) v PrimFloat.nan.










Definition chunk (id : string) (body : string) : passage :=
  {| doc_id := "tgo109.pdf"; version_hash := "9f2c"; page := 1;
     chunk_id := id; text := body; source := "tgo109.pdf";
     clause := Some "Section 5"; score := None; _bm25 := None |}.

Definition p0 : passage := chunk "1-0" "Section 5 requires storage at 2-8 C.".
Definition p1 : passage := chunk "1-1" "Records are kept for ten years.".

(** The unit vector whose inner product with the query is [a]. *)
Definition ray (a : float) : list float :=
  [a; PrimFloat.sqrt (1 - a * a)]%float.

(** An index of the unit vectors with the given inner products. *)
Definition rays (scores : list float) : faiss_index :=
  {| d := 2; xb := map ray scores |}.

(** [n] times the vector of the query, as when one chunk is indexed [n]
    times. *)
Definition unit_index (n : nat) : faiss_index := rays (replicate n 1%float).

Definition fitted : vectorizer := {| vocabulary := ∅; idf := [] |}.

(** A process that has loaded nothing yet, over the given files. *)
Definition fresh (ix : index_file) (meta : option (list meta_line))
    (v : option vectorizer) : world :=
  {| index_path := ix; meta_path := meta; index := None;
     _meta_cache := None; vec := v; prompts := [] |}.

Definition query : ndarray := {| rows := [[1%float; 0%float]]; dim := 2 |}.

End Lab.

Module LabRuns.

(** A fitted pipeline over an index of one vector and its metadata row, the
    backend answering [reply]. *)
Definition one_row : world :=
  Lab.fresh (IndexOnDisk (Lab.unit_index 1)) (Some [Row Lab.p0])
    (Some Lab.fitted).

Definition libs_replying (text : string) (data : json) : Libs :=
  Lab.libs Lab.in_order (Ok (Parsed text data)).

(** The reply [{"compliance_status": " Compliant"}], the status padded with
    a blank. *)
Definition padded_status_text : string :=
  "{" +:+ qt "compliance_status" +:+ ": " +:+ qt " Compliant" +:+ "}".
Definition padded_status : json :=
  JDict (list_to_map [("compliance_status", JStr " Compliant")]).

(** The reply [{"compliance_status": "Compliant"}]. *)
Definition compliant_text : string :=
  "{" +:+ qt "compliance_status" +:+ ": " +:+ qt "Compliant" +:+ "}".
Definition compliant : json :=
  JDict (list_to_map [("compliance_status", JStr "Compliant")]).

(** The reply [{"citations": ["TGO 109 p.3"]}]: citations given as strings. *)
Definition string_citations_text : string :=
  "{" +:+ qt "citations" +:+ ": [" +:+ qt "TGO 109 p.3" +:+ "]}".
Definition string_citations : json :=
  JDict (list_to_map [("citations", JList [JStr "TGO 109 p.3"])]).

(** A backend that answers with text that is no JSON. *)
Definition libs_rambling : Libs :=
  Lab.libs Lab.in_order (Ok (Malformed "I cannot answer that."))%string.

(** What a run returned, [∅] standing for an exception. *)
Definition returned (r : world * result (gmap string json))
  : gmap string json :=
  match r.2 with
  | Ok data => data
  | Raise _ => ∅
  end.

End LabRuns.

Module LabStores.


(** Two chunks of one document. *)
Definition two_rows : world :=
  Lab.fresh (IndexOnDisk (Lab.rays [1%float; 0.5%float]))
    (Some [Row Lab.p0; Row Lab.p1]) (Some Lab.fitted).




(** A directory in which nothing was ever built. *)
Definition never_built : world := Lab.fresh IndexMissing None (Some Lab.fitted).

Definition quiet : Libs := Lab.libs Lab.in_order (Raise BackendError).

End LabStores.

Module LabIngest.

(** One text file under [data/raw], a digest that stands for SHA-256, and a
    clock that always reads the same instant. *)
Definition env : Env :=
  {| _read_local_file := fun _ => [(1, "Section 5 requires storage at 2-8 C.")];
     read_web := fun _ => [];
     sha256_bytes := fun t => "sha256:" +:+ t;
     now_iso_at := fun _ => "2025-01-01T00:00:00+00:00" |}.

Definition sources : list source_item := [FileItem "data/raw/tgo109.txt"].

(** Before the first ingestion, and after it. *)
Definition before : ingest_state :=
  {| manifest_file := None; unterminated := false; clock := 0;
     added_versions := 0 |}.

Definition after : ingest_state :=
  match scan_and_index (E := env) sources before with
  | Ok st => st
  | Raise _ => before
  end.

End LabIngest.

(* ===================================================================== *)
(** * Part I, continued. The rest of the cited files *)
(* ===================================================================== *)

From Stdlib Require DecimalPos DecimalZ.

(** ** The chunker: windows *)

(** A chunk the loop adds is the text of a window: it starts at a multiple
    of the step from where the loop started, inside the text, and holds at
    least one word. *)
Definition window_chunk (words : list string) (max_tokens overlap : Z)
    (from : Z) (c : string) : Prop :=
  exists k : nat,
    let i := from + Z.of_nat k * chunk_step max_tokens overlap in
    i < Z.of_nat (length words) /\
    py_slice words i (i + max_tokens) <> [] /\
    c = PyStr.join " " (py_slice words i (i + max_tokens)).


(** ** vectorstore_faiss.py: what the store reads and writes *)

(** [FAISSStore(index_dir)] over the directory of [w]: a store that has
    loaded nothing yet. *)
Definition new_store (w : world) : world :=
  set_meta_cache None (set_index None w).

(** The two files of the index directory and the vectorizer are those of
    [w]. *)
Definition same_files (w w' : world) : Prop :=
  index_path w' = index_path w /\
  meta_path w' = meta_path w /\
  vec w' = vec w.

(** What the store had cached in [w] it still has in [w']. *)
Definition keeps_cache (w w' : world) : Prop :=
  (forall ix, index w = Some ix -> index w' = Some ix) /\
  (forall m, _meta_cache w = Some m -> _meta_cache w' = Some m).

(** The hits FAISS reported that are no padding. *)
Definition found (hits : list (Z * float)) : list (Z * float) :=
  List.filter (fun h => 0 <=? h.1) hits.

Section Contracts.
Context {L : Libs}.

(** FAISS labels rows by their position: a label is [-1] or less than the
    number of vectors of the index. *)
Definition labels_in_range : Prop :=
  forall (ix : faiss_index) (q : list float) (k : Z) (hits : list (Z * float)),
    flat_ip_search ix q k = Ok hits ->
    Forall (fun h => h.1 < Z.of_nat (length (xb ix))) hits.



End Contracts.

Module LabCache.


(** A store that loaded one vector and its row, after which the index
    directory was emptied. *)
Definition warm : world :=
  {| index_path := IndexOnDisk (Lab.unit_index 1);
     meta_path := Some [Row Lab.p0];
     index := Some (Lab.unit_index 1);
     _meta_cache := Some [Lab.p0];
     vec := Some Lab.fitted;
     prompts := [] |}.

Definition emptied : world := set_index_path IndexMissing (set_meta_path None warm).

(** The store that built an index of two vectors in an empty directory. *)
Definition built : world :=
  (build (L := LabStores.quiet)
     {| rows := [Lab.ray 1; Lab.ray 0.5]; dim := 2 |} [Lab.p0; Lab.p1]
     LabStores.never_built).1.

End LabCache.

(** ** ingest.py: the sources a run registers *)

Section IngestMore.
Context {E : Env}.


End IngestMore.

(** ** ingest.py: the chunk records of a run *)

(** A decimal digit. *)
Definition digit (c : ascii) : Prop :=
  In c (list_ascii_of_string "0123456789").

Section ChunkRecords.
Context {E : Env}.

(** [guess_clause_label] searches the chunk with a compiled regular
    expression; it is taken as given. *)
Variable guess_clause_label : string -> option string.

(** The records written for one page: chunk [i] of the page gets the id
    [f"{page_num}-{i}"]. *)
Definition page_records (doc vhash : string) (pg : Z * string)
  : list passage :=
  imap (fun (i : nat) (chunk : string) =>
          {| doc_id := doc;
             version_hash := vhash;
             page := pg.1;
             chunk_id := str_of_int pg.1 +:+ "-" +:+ str_of_int (Z.of_nat i);
             text := chunk;
             source := doc;
             clause := guess_clause_label chunk;
             score := None;
             _bm25 := None |})
       (split_into_chunks pg.2 420 60).

(** [rec_meta] as a version. A file entry has no [url] key and a URL entry
    no [path] key; neither is read from it. *)
Definition rec_version (s : source_item) (vhash created_at : string)
  : version :=
  match s with
  | FileItem path =>
      {| v_doc_id := basename path; v_version_hash := vhash;
         v_created_at := created_at; v_source_kind := "file";
         v_path := path; v_url := EmptyString |}
  | UrlItem url =>
      {| v_doc_id := url; v_version_hash := vhash;
         v_created_at := created_at; v_source_kind := "url";
         v_path := EmptyString; v_url := url |}
  end.

(** The first of [best :: rest] among those with the greatest
    [created_at]. *)
Fixpoint newest (best : version) (rest : list version) : version :=
  match rest with
  | [] => best
  | v :: rest =>
      if String.ltb (v_created_at best) (v_created_at v)
      then newest v rest
      else newest best rest
  end.

(** [sorted(versions, key=lambda r: r["created_at"], reverse=True)[0]]: the
    sort is stable, in reverse too, so versions with equal [created_at] keep
    their order. *)
Definition latest (versions : list version) : result version :=
  match versions with
  | [] => Raise IndexError
  | v :: rest => Ok (newest v rest)
  end.

(** The pages read again for a version that is not the current one. *)
Definition reread (s : source_item) (v : version) : list (Z * string) :=
  match s with
  | FileItem _ => _read_local_file (v_path v)
  | UrlItem _ => read_web (v_url v)
  end.

(** One turn of the loop of [scan_and_index] over the sources, as far as
    the chunks go; [now] is what [now_iso()] returned for [rec_meta]. *)
Definition source_records (manifest : gmap string (list (string * version)))
    (s : source_item) (now : string) : result (list passage) :=
  let pages := item_pages s in
  let vhash := sha256_text (full_text pages) in
  let old := default [] (manifest !! item_id s) in
  let is_new := negb (odict_mem vhash old) in
  let versions :=
    map snd old ++ (if is_new then [rec_version s vhash now] else []) in
  latest ← latest versions;
  let pages :=
    if negb (String.eqb (v_version_hash latest) vhash)
    then reread s latest else pages in
  Ok (flat_map (page_records (item_id s) (v_version_hash latest)) pages).

(** The chunk records of the whole loop, in the order they are appended to
    [chunks.jsonl]. *)
Fixpoint scan_records (manifest : gmap string (list (string * version)))
    (sources : list source_item) (st : ingest_state)
  : result (list passage) :=
  match sources with
  | [] => Ok []
  | s :: rest =>
      recs ← source_records manifest s (now_iso_at (clock st));
      more ← scan_records manifest rest (register manifest s st);
      Ok (recs ++ more)
  end.

(** The readers number the pages of a document without repetition:
    [read_pdf] counts them from 1, the others return one page. *)
Definition pages_numbered_once : Prop :=
  (forall path, NoDup (map fst (_read_local_file path))) /\
  (forall url, NoDup (map fst (read_web url))).

End ChunkRecords.

Module LabRecords.

(** The manifest of a file that was changed and then changed back: the
    version read now was registered first, another one after it. *)
Definition first_version : version :=
  {| v_doc_id := "tgo109.txt";
     v_version_hash := "sha256:Section 5 requires storage at 2-8 C.";
     v_created_at := "2025-01-01T00:00:00+00:00";
     v_source_kind := "file";
     v_path := "data/raw/tgo109.txt"; v_url := EmptyString |}.

Definition second_version : version :=
  {| v_doc_id := "tgo109.txt";
     v_version_hash := "sha256:Section 5 requires storage at 2-6 C.";
     v_created_at := "2025-02-01T00:00:00+00:00";
     v_source_kind := "file";
     v_path := "data/raw/tgo109.txt"; v_url := EmptyString |}.

Definition reverted : gmap string (list (string * version)) :=
  {[ "tgo109.txt" :=
       [(v_version_hash first_version, first_version);
        (v_version_hash second_version, second_version)] ]}.

(** The manifest before the file was changed back. *)
Definition changed_once : gmap string (list (string * version)) :=
  {[ "tgo109.txt" :=
       [(v_version_hash second_version, second_version)] ]}.

Definition no_clause (chunk : string) : option string := None.

(** A text of [n] tokens. *)
Fixpoint tokens (n : nat) : string :=
  match n with
  | O => EmptyString
  | S n => "w " +:+ tokens n
  end.

(** Two files under [data/raw]: one of two pages, the first of them 400
    tokens long, and one of a single short page. *)
Definition shelf : Env :=
  {| _read_local_file := fun path =>
       if String.eqb path "data/raw/a.txt"
       then [(1, tokens 400); (2, "Second page.")]
       else [(1, "Another file.")];
     read_web := fun _ => [];
     sha256_bytes := fun t => "sha256:" +:+ t;
     now_iso_at := fun _ => "2025-01-01T00:00:00+00:00" |}.

Definition shelf_sources : list source_item :=
  [FileItem "data/raw/a.txt"; FileItem "data/raw/b.txt"].

End LabRecords.

(** ** rag.py: the answers that use no model *)

(** [s.rstrip(chars)] for a set of ASCII characters. *)
Fixpoint str_rstrip (chars : list ascii) (s : string) : string :=
  match s with
  | EmptyString => EmptyString
  | String c rest =>
      match str_rstrip chars rest with
      | EmptyString =>
          if existsb (Ascii.eqb c) chars then EmptyString
          else String c EmptyString
      | r => String c r
      end
  end.

(** [skip] bytes of an occurrence just replaced are still to be passed
    over. *)
Fixpoint str_replace_from (old new s : string) (skip : nat) : string :=
  match s with
  | EmptyString => EmptyString
  | String c rest =>
      match skip with
      | S k => str_replace_from old new rest k
      | O =>
          if PyStr.starts_with old s
          then new +:+ str_replace_from old new rest (String.length old - 1)
          else String c (str_replace_from old new rest 0)
      end
  end.

(** [s.replace(old, new)] for a non-empty [old]: the occurrences are
    replaced from left to right, without overlap. *)
Definition str_replace (old new s : string) : string :=
  str_replace_from old new s 0.

(** [RAGPipeline._short(s, n)], for [n >= 0] *)
Definition _short (s : string) (n : nat) : string :=
  let s := PyStr.join " " (PyStr.split s) in
  if PyStr.len s <=? Z.of_nat n then s
  else str_rstrip (list_ascii_of_string " ,;:.") (PyStr.take n s) +:+ " …".

(** [RAGPipeline._cite_label(rec)] *)
Definition _cite_label (rec : passage) : string :=
  let base := str_replace ".pdf" EmptyString (_short_name (source rec)) in
  match clause rec with
  | Some (String c cl) =>
      base +:+ " (" +:+ String c cl +:+ ", p." +:+ str_of_int (page rec) +:+ ")"
  | Some EmptyString | None =>
      base +:+ " (p." +:+ str_of_int (page rec) +:+ ")"
  end.

(** The loop of [answer_exact]: the pairs [(txt, cite)] kept, each once, in
    the order of the passages. *)
Fixpoint exact_keys (seen : list (string * string)) (passages : list passage)
  : list (string * string) :=
  match passages with
  | [] => []
  | p :: rest =>
      let key := (_short (text p) 360, _cite_label p) in
      if bool_decide (key ∈ seen) then exact_keys seen rest
      else key :: exact_keys (key :: seen) rest
  end.

(** [f"• {txt}  [{cite}]"] *)
Definition bullet (key : string * string) : string :=
  "• " +:+ key.1 +:+ "  [" +:+ key.2 +:+ "]".

Definition EXACT_NOTHING : string :=
  "No matching clauses found. Refine the question or ingest more docs. [Human supervision required]".

Definition exact_text (passages : list passage) : string :=
  "Exact clauses & citations (review before use):" +:+ nl +:+ nl
  +:+ PyStr.join nl (py_slice (map bullet (exact_keys [] passages)) 0 8)
  +:+ nl +:+ nl +:+ "Human supervision required.".

(** The snippet of a passage in [answer_concise]. *)
Definition snippet (p : passage) : string :=
  str_rstrip (list_ascii_of_string " ,;:")
    (PyStr.take 180 (PyStr.join " " (PyStr.split (text p)))) +:+ ".".

(** The loop of [answer_concise] over [passages[:4]]. *)
Fixpoint concise_loop (snippets cites : list string) (passages : list passage)
  : list string * list string :=
  match passages with
  | [] => (snippets, cites)
  | p :: rest =>
      let t := snippet p in
      let snippets :=
        if bool_decide (t ∈ snippets) then snippets else snippets ++ [t] in
      concise_loop snippets (cites ++ [_cite_label p]) rest
  end.

Definition verdict (first : string) : string :=
  if PyStr.any_in ["must not"; "not permitted"; "ineligible";
                   "contraindicated"] first
  then "Not compliant (likely)"
  else if PyStr.any_in ["must "; "required"; "shall "] first
  then "Possibly compliant (depends on specifics)"
  else "Unclear".

Definition CONCISE_NOTHING : string :=
  "Unclear — no matching clauses found in the local index. "
  +:+ "Refine the question or ingest more docs. [Human review required]".

Definition concise_text (p0 : passage) (passages : list passage) : string :=
  let '(snippets, cites) := concise_loop [] [] (py_slice passages 0 4) in
  let body := PyStr.join " " (py_slice snippets 0 2) in
  let cite_str := PyStr.join "; " (dedup_seen [] cites) in
  let first := PyStr.join " " (PyStr.split (PyStr.lower (text p0))) in
  verdict first +:+ ": " +:+ body +:+ " [Citations: " +:+ cite_str
  +:+ "]. Human supervision required.".

Section Deterministic.
Context {L : Libs}.

(** [RAGPipeline.answer_exact] *)
Definition answer_exact (question : string) (top_k : Z) : M string :=
  passages ← retrieve question top_k;
  match passages with
  | [] => mret EXACT_NOTHING
  | _ => mret (exact_text passages)
  end.

(** [RAGPipeline.answer_concise] *)
Definition answer_concise (question : string) (top_k : Z) : M string :=
  passages ← retrieve question top_k;
  match passages with
  | [] => mret CONCISE_NOTHING
  | p0 :: _ => mret (concise_text p0 passages)
  end.

End Deterministic.

(** ** llm.py: the request loop behind [generate] *)

Module Llm.

(** What one request does: a well-formed 2xx reply with its content; one of
    [ReadTimeout], [ConnectTimeout], [RemoteProtocolError]; the
    [HTTPStatusError] of [raise_for_status] with the status of the
    response; or any other exception. *)
Inductive outcome : Type :=
| Replied (content : string)
| TimedOut
| Status (code : Z)
| Broke (e : exn).

(** What [_post_chat] raises. *)
Inductive error : Type :=
| NoKey             (* RuntimeError("OPENAI_API_KEY not set") *)
| Timeout
| HTTPStatus (code : Z)
| Other (e : exn)
| RequestFailed.    (* RuntimeError("OpenAI request failed") *)

Inductive post_result : Type :=
| Content (text : string)
| Failure (e : error).

(** The requests sent so far and the attempts after which the loop
    slept. *)
Record trace : Type := { requests : nat; sleeps : list nat }.

Definition requested (tr : trace) : trace :=
  {| requests := S (requests tr); sleeps := sleeps tr |}.

Definition slept (attempt : nat) (tr : trace) : trace :=
  {| requests := requests tr; sleeps := sleeps tr ++ [attempt] |}.

(** [status_code in (429, 500, 502, 503, 504)] *)
Definition retried_status (code : Z) : bool :=
  existsb (Z.eqb code) [429; 500; 502; 503; 504].

(** The outcome is one the loop goes on after. *)
Definition retried (o : outcome) : bool :=
  match o with
  | TimedOut => true
  | Status code => retried_status code
  | Replied _ | Broke _ => false
  end.

(** The error kept in [last_err] for an outcome. *)
Definition error_of (o : outcome) : error :=
  match o with
  | TimedOut => Timeout
  | Status code => HTTPStatus code
  | Broke e => Other e
  | Replied _ => RequestFailed
  end.

(** [for attempt in range(retries)], with [remaining] turns to go; [net]
    gives the outcome of each request. *)
Fixpoint attempts (net : nat -> outcome) (remaining attempt : nat)
    (last_err : option error) (tr : trace) : trace * post_result :=
  match remaining with
  | O => (tr, Failure (default RequestFailed last_err))
  | S remaining =>
      let tr := requested tr in
      match net attempt with
      | Replied content => (tr, Content (PyStr.strip content))
      | Broke e => (tr, Failure (Other e))
      | TimedOut =>
          attempts net remaining (S attempt) (Some Timeout) (slept attempt tr)
      | Status code =>
          if retried_status code
          then attempts net remaining (S attempt) (Some (HTTPStatus code))
                 (slept attempt tr)
          else (tr, Failure (HTTPStatus code))
      end
  end.

(** [_post_chat(messages, retries=retries)] with [OPENAI_KEY = key] *)
Definition _post_chat (key : string) (net : nat -> outcome) (retries : nat)
  : trace * post_result :=
  match key with
  | EmptyString => ({| requests := 0; sleeps := [] |}, Failure NoKey)
  | _ => attempts net retries 0 None {| requests := 0; sleeps := [] |}
  end.

(** [generate(prompt)] *)
Definition generate (key : string) (net : nat -> outcome)
  : trace * post_result :=
  _post_chat key net 3.

(** A backend that is busy twice and then replies. *)
Definition busy_twice (attempt : nat) : outcome :=
  match attempt with
  | 0%nat => Status 429
  | 1%nat => TimedOut
  | _ => Replied " {} "
  end.

Definition always_busy (attempt : nat) : outcome := Status 503.

End Llm.

(** ** utils_ingest.py: the readers *)

(** [read_pdf]: [texts] is what [extract_text] gives for each page of the
    reader, [None] included. *)
Definition read_pdf (texts : list (option string)) : list (Z * string) :=
  imap (fun (i : nat) (txt : option string) =>
          (Z.of_nat i + 1, PyStr.strip (default EmptyString txt)))
       texts.

(** [read_docx]: [paragraphs] are the texts of the paragraphs. *)
Definition read_docx (paragraphs : list string) : list (Z * string) :=
  [(1, PyStr.strip (PyStr.join nl paragraphs))].

(** [read_txt]: [t] is the decoded file. *)
Definition read_txt (t : string) : list (Z * string) :=
  [(1, PyStr.strip t)].

(** [read_web], once the page is fetched and parsed: [body] is
    [soup.get_text("\n")] after the navigation tags are dropped. *)
Definition read_web_text (body : string) : list (Z * string) :=
  [(1, PyStr.strip (PyStr.join " " (PyStr.split body)))].

(** ** server.py: reindexing *)

(** [reindex], as far as the pipeline goes: [scan_and_index] has left the
    files [f] and [g] in the index directory, and the store of the pipeline
    is replaced by a new one; the embedder is not touched. *)
Definition reindex (f : index_file) (g : option (list meta_line)) (w : world)
  : world :=
  new_store (set_index_path f (set_meta_path g w)).

(* ===================================================================== *)
(** * Part II. Properties *)
(* ===================================================================== *)

(** ** The string operations, run on Python's own answers *)

Example split_blanks_tabs_newlines :
  PyStr.split (PyStr.of_bytes [32; 32; 97; 9; 98; 10]) = ["a"; "b"].
Proof. reflexivity. Qed.

(** U+00A0, a blank, [Compliant], U+2003 *)
Example strip_unicode_blanks :
  PyStr.strip
    (PyStr.of_bytes [194; 160; 32; 67; 111; 109; 112; 108; 105; 97; 110; 116;
                     226; 128; 131])
  = "Compliant".
Proof. reflexivity. Qed.

Example strip_keeps_inner_blanks :
  PyStr.strip (PyStr.of_bytes [32; 32; 97; 9; 98; 10])
  = PyStr.of_bytes [97; 9; 98].
Proof. reflexivity. Qed.

(** [x], U+3000, [y] *)
Example split_ideographic_space :
  PyStr.split (PyStr.of_bytes [120; 227; 128; 128; 121]) = ["x"; "y"].
Proof. reflexivity. Qed.

(** U+1680 alone *)
Example split_only_blank :
  PyStr.split (PyStr.of_bytes [225; 154; 128]) = [] /\
  PyStr.strip (PyStr.of_bytes [225; 154; 128]) = EmptyString.
Proof. split; reflexivity. Qed.

(** [a], U+2028, [b], U+2029, [c] *)
Example split_line_separators :
  PyStr.split (PyStr.of_bytes [97; 226; 128; 168; 98; 226; 128; 169; 99])
  = ["a"; "b"; "c"].
Proof. reflexivity. Qed.

Example strip_control_separators :
  PyStr.strip (PyStr.of_bytes [28; 31; 122]) = "z".
Proof. reflexivity. Qed.

(** [cafe au lait] with an acute accent: 12 characters in 13 bytes *)
Example characters_not_bytes :
  let s := PyStr.of_bytes [99; 97; 102; 195; 169; 32; 97; 117; 32; 108; 97;
                           105; 116] in
  PyStr.len s = 12 /\
  PyStr.take 3 s = "caf" /\
  PyStr.take 4 s = PyStr.of_bytes [99; 97; 102; 195; 169] /\
  PyStr.split s
  = [PyStr.of_bytes [99; 97; 102; 195; 169]; "au"; "lait"].
Proof. repeat split; reflexivity. Qed.

Example short_names :
  _short_name "data/raw/a.b/c.pdf" = "c.pdf" /\
  _short_name "noslash" = "noslash" /\
  _short_name "dir/" = EmptyString.
Proof. repeat split; reflexivity. Qed.

Example dedup_keeps_first :
  dedup_seen [] ["a"; "b"; "a"; "c"; "b"] = ["a"; "b"; "c"].
Proof. reflexivity. Qed.

Example expand_query_cold_chain :
  _expand_query "Storage?"
  = "Storage? 2–8 °C 2 - 8 °C 2 to 8 °C 2-8 °C 2-8C refrigerated cold chain controlled temperature storage and transportation transport shipping Section 24" /\
  _expand_query "Is plasma export permitted?" = "Is plasma export permitted?".
Proof. split; reflexivity. Qed.

Example prompt_numbers_and_pages :
  str_of_int 12 = "12" /\ str_of_int 0 = "0" /\ str_of_int (-3) = "-3" /\
  prompt_quotes 1 [Lab.p0]
  = ["[1] tgo109.pdf (page 1)" +:+ nl +:+ dq +:+ dq +:+ dq +:+ nl
     +:+ "Section 5 requires storage at 2-8 C." +:+ nl
     +:+ dq +:+ dq +:+ dq +:+ nl].
Proof. repeat split; reflexivity. Qed.

(** ** The chunker *)

Example split_into_chunks_runs :
  split_into_chunks "a b  c d e" 3 1 = ["a b c"; "c d e"; "e"] /\
  split_into_chunks "a b c d e f g" 3 1 = ["a b c"; "c d e"; "e f g"; "g"] /\
  split_into_chunks "a b c d e f g" 2 5
  = ["a b"; "b c"; "c d"; "d e"; "e f"; "f g"; "g"] /\
  split_into_chunks "a b c d e" (-1) 0 = ["a b c d"] /\
  split_into_chunks "a b c d e" (-2) (-4) = ["a b c"].
Proof. repeat split; reflexivity. Qed.

Section Chunker.

Lemma slice_bound_nonneg {A : Type} (l : list A) (i : Z) :
  0 <= i -> slice_bound l i = Nat.min (length l) (Z.to_nat i).
Proof.
  intros Hi. unfold slice_bound.
  destruct (Z.ltb_spec i 0); lia.
Qed.

Lemma py_slice_lookup {A : Type} (l : list A) (i m : Z) (j : nat) :
  0 <= i -> i <= Z.of_nat j < i + m ->
  py_slice l i (i + m) !! (j - Z.to_nat i)%nat = l !! j.
Proof.
  intros Hi Hj. unfold py_slice.
  rewrite !slice_bound_nonneg by lia.
  destruct (le_lt_dec (length l) j) as [Hge|Hlt].
  - rewrite (lookup_ge_None_2 l j) by lia.
    apply lookup_ge_None_2. rewrite length_drop, length_firstn. lia.
  - rewrite lookup_drop.
    replace (Nat.min (length l) (Z.to_nat i) + (j - Z.to_nat i))%nat with j by lia.
    apply lookup_take_lt. lia.
Qed.

(** One turn of the loop, as an equation on the state. *)
Lemma chunk_loop_eq (words : list string) (max_tokens overlap : Z)
    (chunks : list string) (i : Z) :
  chunk_loop words max_tokens overlap chunks i =
  if Z_lt_dec i (Z.of_nat (length words)) then
    chunk_loop words max_tokens overlap
      (match py_slice words i (i + max_tokens) with
       | [] => chunks
       | _ => chunks ++ [PyStr.join " " (py_slice words i (i + max_tokens))]
       end)
      (i + chunk_step max_tokens overlap)
  else chunks.
Proof.
  rewrite chunk_loop_equation_1.
  destruct (Z_lt_dec i (Z.of_nat (length words))); reflexivity.
Qed.

(** The loop is run by induction on the number of words left. *)
Lemma chunk_loop_ind (P : list string -> Z -> Prop)
    (words : list string) (max_tokens overlap : Z) :
  (forall chunks i,
     (forall chunks' i', i < i' -> i < Z.of_nat (length words) -> P chunks' i') ->
     P chunks i) ->
  forall chunks i, P chunks i.
Proof.
  intros Hstep chunks i.
  remember (Z.to_nat (Z.of_nat (length words) - i)) as n eqn:Hn.
  revert chunks i Hn.
  induction n as [n IH] using lt_wf_ind.
  intros chunks i Hn. apply Hstep.
  intros chunks' i' Hlt Hin.
  apply (IH (Z.to_nat (Z.of_nat (length words) - i'))); [lia | reflexivity].
Qed.

Lemma chunk_step_pos (max_tokens overlap : Z) : 1 <= chunk_step max_tokens overlap.
Proof. unfold chunk_step. lia. Qed.

Lemma chunk_loop_length (words : list string) (max_tokens overlap : Z) :
  forall chunks i,
    (length (chunk_loop words max_tokens overlap chunks i)
     <= length chunks + Z.to_nat (Z.of_nat (length words) - i))%nat.
Proof.
  apply (chunk_loop_ind _ words max_tokens overlap).
  intros chunks i IH.
  rewrite chunk_loop_eq.
  destruct (Z_lt_dec i (Z.of_nat (length words))) as [Hlt|Hge]; [|lia].
  pose proof (chunk_step_pos max_tokens overlap) as Hs.
  etransitivity; [apply IH; lia|].
  destruct (py_slice words i (i + max_tokens)); [lia|].
  rewrite length_app. simpl. lia.
Qed.

Lemma chunk_loop_keeps (words : list string) (max_tokens overlap : Z) (c : string) :
  forall chunks i,
    In c chunks -> In c (chunk_loop words max_tokens overlap chunks i).
Proof.
  apply (chunk_loop_ind (fun chunks i => In c chunks -> In c _) words max_tokens overlap).
  intros chunks i IH Hc.
  rewrite chunk_loop_eq.
  destruct (Z_lt_dec i (Z.of_nat (length words))) as [Hlt|Hge]; [|exact Hc].
  pose proof (chunk_step_pos max_tokens overlap) as Hs.
  apply IH; [lia | lia |].
  destruct (py_slice words i (i + max_tokens)); [exact Hc|].
  apply in_or_app. left. exact Hc.
Qed.

Lemma chunk_loop_covers (words : list string) (max_tokens overlap : Z) :
  0 <= overlap < max_tokens ->
  forall chunks i (j : nat),
    0 <= i <= Z.of_nat j -> (j < length words)%nat ->
    covered words (chunk_loop words max_tokens overlap chunks i) max_tokens j.
Proof.
  intros Hov.
  apply (chunk_loop_ind
           (fun chunks i => forall j : nat, 0 <= i <= Z.of_nat j -> (j < length words)%nat ->
                            covered words (chunk_loop words max_tokens overlap chunks i) max_tokens j)
           words max_tokens overlap).
  intros chunks i IH j Hij Hj.
  rewrite chunk_loop_eq.
  destruct (Z_lt_dec i (Z.of_nat (length words))) as [Hlt|Hge]; [|lia].
  assert (Hs : chunk_step max_tokens overlap = max_tokens - overlap)
    by (unfold chunk_step; lia).
  destruct (Z_lt_dec (Z.of_nat j) (i + chunk_step max_tokens overlap)) as [Hin|Hout].
  - exists i. split; [lia|]. split; [lia|].
    assert (Hlk : py_slice words i (i + max_tokens) !! (j - Z.to_nat i)%nat = words !! j)
      by (apply py_slice_lookup; lia).
    split; [exact Hlk|].
    apply chunk_loop_keeps.
    destruct (py_slice words i (i + max_tokens)) as [|w ws] eqn:Hsl.
    + rewrite lookup_nil in Hlk. symmetry in Hlk.
      apply lookup_ge_None_1 in Hlk. lia.
    + apply in_or_app. right. left. reflexivity.
  - apply IH; lia.
Qed.

Lemma split_empty : PyStr.split EmptyString = [].
Proof. reflexivity. Qed.

(** C5, as stated, fails: with a negative overlap (which is below
    [max_tokens]) the step exceeds the window. On the text [a b] with
    [max_tokens = 1] and [overlap = -1] the loop steps by 2 and returns the
    single chunk [a]; the token [b] is in no window. *)
Lemma split_into_chunks_negative_overlap_gap :
  -1 < 1 /\
  PyStr.split "a b" = ["a"; "b"] /\
  chunk_step 1 (-1) = 2 /\
  split_into_chunks "a b" 1 (-1) = ["a"].
Proof. repeat split; reflexivity. Qed.

(** C5 (amended): [split_into_chunks] is a total function for all
    parameters, the loop advancing by [chunk_step >= 1] words per turn, so it
    returns at most one chunk per word of the text, also when
    [overlap >= max_tokens]; the empty text gives no chunk; and when
    [0 <= overlap < max_tokens] every token of [text.split()] lies in a window
    whose text is one of the returned chunks. *)
Theorem split_into_chunks_total_and_covering
    (text : string) (max_tokens overlap : Z) :
  1 <= chunk_step max_tokens overlap /\
  (length (split_into_chunks text max_tokens overlap)
   <= length (PyStr.split text))%nat /\
  split_into_chunks EmptyString max_tokens overlap = [] /\
  (0 <= overlap < max_tokens ->
   forall (j : nat) (w : string),
     PyStr.split text !! j = Some w ->
     covered (PyStr.split text)
       (split_into_chunks text max_tokens overlap) max_tokens j).
Proof.
  split; [apply chunk_step_pos|].
  split.
  { unfold split_into_chunks.
    pose proof (chunk_loop_length (PyStr.split text) max_tokens overlap [] 0) as H.
    simpl in H. lia. }
  split.
  { unfold split_into_chunks. rewrite split_empty, chunk_loop_eq. reflexivity. }
  intros Hov j w Hw.
  apply chunk_loop_covers; [exact Hov | lia |].
  apply lookup_lt_Some in Hw. exact Hw.
Qed.

Lemma split_into_chunks_total_and_covering_witness :
  covered (PyStr.split "a b  c d e") (split_into_chunks "a b  c d e" 3 1) 3 4.
Proof.
  refine (proj2 (proj2 (proj2
    (split_into_chunks_total_and_covering "a b  c d e" 3 1))) _ 4%nat "e" _).
  - lia.
  - reflexivity.
Defined.

End Chunker.

(** ** The dense store *)

(** Unfolds the operations of [M]. *)
Ltac run_M :=
  unfold mbind, M_bind, mret, M_ret, get_world, modify, lift, raise; cbn.

Section Store.
Context {L : Libs}.

Lemma ensure_loaded_eq (w : world) :
  _ensure_loaded w =
  if unreadable w then (w, Raise RuntimeError) else (loaded w, Ok tt).
Proof.
  destruct w as [ip mp ix mc v ps].
  unfold _ensure_loaded, unreadable, loaded, live_index, live_meta.
  destruct ix as [ix|], ip as [| |ix'], mc as [mc|], mp as [mp|];
    reflexivity.
Qed.

Lemma search_eq (qvec : ndarray) (top_k : Z) (w : world) :
  search qvec top_k w =
  if unreadable w then (w, Raise RuntimeError)
  else
    match live_index w, live_meta w with
    | Some ix, m :: ms =>
        match rows (_l2_normalize qvec) with
        | [] => (loaded w, Raise IndexError)
        | q0 :: _ =>
            (loaded w,
             hits ← flat_ip_search ix q0
                      (Z.min top_k (Z.of_nat (length (m :: ms))));
             collect_hits (m :: ms) hits)
        end
    | _, _ => (loaded w, Ok [])
    end.
Proof.
  unfold search.
  unfold mbind at 1. unfold M_bind.
  rewrite ensure_loaded_eq.
  destruct (unreadable w); [reflexivity|].
  run_M.
  destruct (live_index w) as [ix|]; [|reflexivity].
  destruct (live_meta w) as [|m ms]; [reflexivity|].
  destruct (map normalize_row (rows qvec)) as [|q0 qs]; [reflexivity|].
  destruct (flat_ip_search ix q0 _) as [hits|e]; reflexivity.
Qed.

Lemma load_rows_map_Row (meta : list passage) : load_rows (map Row meta) = meta.
Proof. induction meta as [|m meta IH]; simpl; congruence. Qed.

Lemma load_rows_length (lines : list meta_line) :
  (length (load_rows lines) <= length lines)%nat.
Proof.
  induction lines as [|[| |r] lines IH]; simpl; lia.
Qed.

Lemma collect_hits_in_range (meta : list passage) (hits : list (Z * float)) :
  Forall (fun h => h.1 < Z.of_nat (length meta)) hits ->
  exists out : list passage,
    collect_hits meta hits = Ok out /\
    Forall2 (fun (h : Z * float) (p : passage) =>
               exists m : passage,
                 meta !! Z.to_nat h.1 = Some m /\ p = with_score m h.2)
      (found hits) out.
Proof.
  induction 1 as [|[i sc] hits Hi _ IH]; [exists []; split; constructor|].
  destruct IH as (out & Hc & Hf). cbn [collect_hits found List.filter fst].
  cbn [fst] in Hi.
  destruct (Z.ltb_spec i 0) as [Hneg|Hpos].
  - destruct (Z.leb_spec 0 i); [lia|]. exists out. split; assumption.
  - destruct (Z.leb_spec 0 i); [|lia].
    destruct (lookup_lt_is_Some_2 meta (Z.to_nat i)) as [m Hm]; [lia|].
    rewrite Hm, Hc. exists (with_score m sc :: out).
    split; [reflexivity|]. constructor; [|exact Hf].
    exists m. split; [exact Hm | reflexivity].
Qed.


End Store.

Section StoreClaims.
Context {L : Libs}.

(** C10: [build] raises [ValueError] exactly when the metadata list and the
    vector rows differ in number, and then leaves the two files and the two
    cached fields as they were; otherwise it returns, having written an index
    and a metadata log of the same number of rows (which reload to the
    metadata given) and cached both. *)
Theorem build_checks_row_alignment
    (vectors : ndarray) (meta : list passage) (w : world) :
  (build vectors meta w = (w, Raise ValueError) <->
   length meta <> length (rows vectors)) /\
  (snd (build vectors meta w) = Raise ValueError <->
   length meta <> length (rows vectors)) /\
  (length meta = length (rows vectors) ->
   exists (w' : world) (ix : faiss_index),
     build vectors meta w = (w', Ok tt) /\
     index_path w' = IndexOnDisk ix /\
     meta_path w' = Some (map Row meta) /\
     length (xb ix) = length (map Row meta) /\
     load_rows (map Row meta) = meta /\
     index w' = Some ix /\
     _meta_cache w' = Some meta).
Proof.
  unfold build.
  destruct (Nat.eqb_spec (length meta) (length (rows vectors))) as [Heq|Hne];
    cbn [negb].
  - split; [|split].
    + split; [|tauto]. run_M. intros H. inversion H.
    + split; [|tauto]. run_M. intros H. inversion H.
    + intros _. eexists _, _. split; [run_M; reflexivity|].
      repeat split; cbn; rewrite ?length_map; auto using load_rows_map_Row.
  - split; [|split].
    + split; [intros _; exact Hne | reflexivity].
    + split; [intros _; exact Hne | reflexivity].
    + intros Heq. contradiction.
Qed.


End StoreClaims.


(** ** Retrieval *)

Section Retrieval.
Context {L : Libs}.

Lemma retrieve_eq (question : string) (top_k : Z) (w : world) :
  retrieve question top_k w =
  match vec w with
  | None => (w, Ok [])
  | Some v =>
      match search (tfidf_transform v [_expand_query question]) (top_k * 2) w with
      | (w', Ok []) => (w', Ok [])
      | (w', Ok (h :: hs)) =>
          (w', rerank (_expand_query question) top_k (h :: hs))
      | (w', Raise e) => (w', Raise e)
      end
  end.
Proof.
  unfold retrieve, embed, transform. run_M.
  destruct (vec w) as [v|] eqn:Hv; [|reflexivity].
  cbn. rewrite Hv.
  destruct (search _ _ w) as [w' [[|h hs]|e]]; reflexivity.
Qed.

Lemma search_prompts (qvec : ndarray) (top_k : Z) (w : world) :
  prompts (fst (search qvec top_k w)) = prompts w.
Proof.
  rewrite search_eq.
  destruct (unreadable w); [reflexivity|].
  destruct (live_index w), (live_meta w); try reflexivity.
  destruct (rows _); reflexivity.
Qed.

Lemma retrieve_prompts (question : string) (top_k : Z) (w : world) :
  prompts (fst (retrieve question top_k w)) = prompts w.
Proof.
  rewrite retrieve_eq.
  destruct (vec w) as [v|]; [|reflexivity].
  pose proof (search_prompts (tfidf_transform v [_expand_query question])
                (top_k * 2) w) as H.
  destruct (search _ _ w) as [w' [[|h hs]|e]]; exact H.
Qed.

(** C8 (amended): with no fitted vectorizer, [transform] (and [embed])
    raise [RuntimeError], but [retrieve] tests for the missing vectorizer
    first and returns the empty list, and [answer] turns that into the
    no-evidence record; neither raises and nothing else is touched. *)
Theorem unfitted_vectorizer_retrieves_nothing
    (question : string) (top_k : Z) (texts : list string) (w : world) :
  vec w = None ->
  transform texts w = (w, Raise RuntimeError) /\
  embed texts w = (w, Raise RuntimeError) /\
  retrieve question top_k w = (w, Ok []) /\
  answer question top_k w = (w, Ok (no_evidence_record question)).
Proof.
  intros Hv.
  assert (Hr : retrieve question top_k w = (w, Ok []))
    by (rewrite retrieve_eq, Hv; reflexivity).
  repeat split.
  - unfold transform. run_M. rewrite Hv. reflexivity.
  - unfold embed, transform. run_M. rewrite Hv. reflexivity.
  - exact Hr.
  - unfold answer. unfold mbind at 1. unfold M_bind. rewrite Hr. reflexivity.
Qed.

End Retrieval.

(** C8, as stated, fails: on an index directory with an index and its
    metadata but no vectorizer file, [retrieve] returns the empty list; no
    error is raised. *)
Lemma retrieve_without_vectorizer_is_silent :
  vec (Lab.fresh (IndexOnDisk (Lab.unit_index 1)) (Some [Row Lab.p0]) None)
  = None /\
  retrieve (L := Lab.libs Lab.in_order (Raise BackendError))
    "What temperature must product be stored at?" 6
    (Lab.fresh (IndexOnDisk (Lab.unit_index 1)) (Some [Row Lab.p0]) None)
  = (Lab.fresh (IndexOnDisk (Lab.unit_index 1)) (Some [Row Lab.p0]) None,
     Ok []).
Proof. split; reflexivity. Qed.

Lemma unfitted_vectorizer_retrieves_nothing_witness :
  answer (L := Lab.libs Lab.in_order (Raise BackendError))
    "What temperature must product be stored at?" 6
    (Lab.fresh (IndexOnDisk (Lab.unit_index 1)) (Some [Row Lab.p0]) None)
  = (Lab.fresh (IndexOnDisk (Lab.unit_index 1)) (Some [Row Lab.p0]) None,
     Ok (no_evidence_record "What temperature must product be stored at?")).
Proof.
  refine (proj2 (proj2 (proj2
    (unfitted_vectorizer_retrieves_nothing
       (L := Lab.libs Lab.in_order (Raise BackendError))
       "What temperature must product be stored at?" 6 []
       (Lab.fresh (IndexOnDisk (Lab.unit_index 1)) (Some [Row Lab.p0]) None)
       _)))).
  reflexivity.
Defined.

(** ** The grounded answer *)

Section Assembler.
Context {L : Libs}.

Lemma rmap_length {A B : Type} (f : A -> result B) (xs : list A) (ys : list B) :
  rmap f xs = Ok ys -> length ys = length xs.
Proof.
  revert ys. induction xs as [|x xs IH]; intros ys H; simpl in H.
  - inversion H. reflexivity.
  - destruct (f x) as [y|e]; [|discriminate]. cbn in H.
    destruct (rmap f xs) as [ys'|e]; [|discriminate]. cbn in H.
    inversion H. simpl. f_equal. apply IH. reflexivity.
Qed.

Lemma backfill_nonempty (question : string) :
  risks (_backfill_risks_suggestions question) <> [] /\
  alts (_backfill_risks_suggestions question) <> [].
Proof.
  unfold _backfill_risks_suggestions. cbn [risks alts].
  split.
  - destruct (PyStr.any_in _ _), (_ || _); discriminate.
  - destruct (PyStr.any_in _ _), (_ || _); discriminate.
Qed.

(** The two backfills and the supervision flag leave the citations alone. *)
Lemma assemble_tail (question : string) (data1 out : gmap string json) :
  (let rf := _backfill_risks_suggestions question in
   let data :=
     if negb (truthy (dict_get data1 "violations_or_risks"))
     then <["violations_or_risks" := str_list (risks rf)]> data1 else data1 in
   let data :=
     if negb (truthy (dict_get data "alternative_suggestions"))
     then <["alternative_suggestions" := str_list (alts rf)]> data else data in
   status ← final_status data;
   Ok (<["human_supervision_required" :=
           JBool (negb (String.eqb status "Compliant"))]> data)) = Ok out ->
  out !! "citations" = data1 !! "citations" /\
  exists status : string,
    final_status out = Ok status /\
    out !! "human_supervision_required"
    = Some (JBool (negb (String.eqb status "Compliant"))).
Proof.
  cbn zeta.
  set (d2 := if negb (truthy (dict_get data1 "violations_or_risks")) then _ else _).
  set (d3 := if negb (truthy (dict_get d2 "alternative_suggestions")) then _ else _).
  intros H.
  destruct (final_status d3) as [status|e] eqn:Hst; [|discriminate].
  cbn in H. inversion H; subst out; clear H.
  split.
  - rewrite lookup_insert_ne by done.
    subst d3 d2.
    repeat match goal with
           | |- context [if ?b then _ else _] => destruct b
           end;
      rewrite ?lookup_insert_ne by done; reflexivity.
  - exists status. split.
    + unfold final_status, dict_get in *.
      rewrite lookup_insert_ne by done. exact Hst.
    + apply lookup_insert_eq.
Qed.

Lemma normalise_rejects_str (first_src : string) (first_page : Z) (s : string) :
  normalise_citation first_src first_page (JStr s) = Raise AttributeError.
Proof. reflexivity. Qed.

(** The citations an answer from evidence ends with. *)
Lemma assemble_citations
    (question : string) (p : passage) (ps : list passage) (r : reply)
    (out : gmap string json) :
  assemble question (p :: ps) r = Ok out ->
  exists (c : json) (cs : list json), out !! "citations" = Some (JList (c :: cs)).
Proof.
  unfold assemble.
  destruct (match r with Parsed _ data => data | Malformed t => _ end)
    as [| | | | |items|data]; try discriminate.
  intros H.
  destruct (negb (truthy (dict_get data "citations"))) eqn:Hc.
  - cbn [mbind result_bind] in H.
    apply assemble_tail in H as [Hcit _].
    rewrite lookup_insert_eq in Hcit. rewrite Hcit. cbn. eauto.
  - apply negb_false_iff in Hc.
    destruct (py_iter (dict_get data "citations")) as [cs|e] eqn:Hit;
      [|discriminate].
    cbn [mbind result_bind] in H.
    destruct (rmap _ cs) as [cs'|e] eqn:Hmap; [|discriminate].
    cbn [mbind result_bind] in H.
    destruct (dict_get data "citations") as [| | | | s |items|fields] eqn:Hd;
      try discriminate.
    + (* a string: its first character is no dict *)
      cbn in Hit. inversion Hit; subst cs; clear Hit.
      destruct s as [|ch s]; [discriminate|]. cbn in Hmap. discriminate.
    + cbn in Hit. inversion Hit; subst cs; clear Hit.
      apply assemble_tail in H as [Hcit _].
      rewrite lookup_insert_eq in Hcit. rewrite Hcit.
      apply rmap_length in Hmap.
      destruct items as [|i items]; [discriminate|].
      destruct cs' as [|c' cs']; [discriminate|]. eauto.
    + (* a dict: its first key is no dict *)
      cbn in Hit. inversion Hit; subst cs; clear Hit.
      destruct (map_to_list fields) as [|kv kvs] eqn:Hl.
      * apply map_to_list_empty_iff in Hl. subst fields.
        cbn in Hc. discriminate.
      * cbn in Hmap. discriminate.
Qed.

Lemma assemble_supervision
    (question : string) (passages : list passage) (r : reply)
    (out : gmap string json) :
  assemble question passages r = Ok out ->
  exists status : string,
    final_status out = Ok status /\
    out !! "human_supervision_required"
    = Some (JBool (negb (String.eqb status "Compliant"))).
Proof.
  unfold assemble.
  destruct (match r with Parsed _ data => data | Malformed t => _ end)
    as [| | | | |items|data]; try discriminate.
  intros H.
  match type of H with
  | (mbind _ ?m) = _ => destruct m as [data1|e]; [|discriminate]
  end.
  cbn [mbind result_bind] in H.
  apply assemble_tail in H as [_ H]. exact H.
Qed.

End Assembler.

Section AnswerClaims.
Context {L : Libs}.

Lemma answer_eq (question : string) (top_k : Z) (w : world) :
  answer question top_k w =
  match retrieve question top_k w with
  | (w', Ok []) => (w', Ok (no_evidence_record question))
  | (w', Ok (p :: ps)) =>
      (add_prompt (format_prompt question (p :: ps)) w',
       r ← generate (format_prompt question (p :: ps));
       assemble question (p :: ps) r)
  | (w', Raise e) => (w', Raise e)
  end.
Proof.
  unfold answer. unfold mbind at 1. unfold M_bind.
  destruct (retrieve question top_k w) as [w' [[|p ps]|e]]; try reflexivity.
  run_M. destruct (generate _) as [r|e]; [|reflexivity].
  cbn. destruct (assemble _ _ r); reflexivity.
Qed.

(** C3: when retrieval returns the empty list, [answer] sends nothing to the
    generation backend and returns the record that depends on the question
    alone: status [Unclear], no citations, supervision required, and the risk
    and mitigation lists of the keyword rule table. A question that names a
    temperature keyword gets the two transport risks and the three transport
    mitigations, one that names malaria or an endemic region gets the malaria
    risk and the deferral mitigation, one that names both gets both in that
    order, and any other question gets the generic risk and the generic
    mitigation; so neither list is ever empty. *)
Theorem answer_without_evidence
    (question : string) (top_k : Z) (w w' : world) :
  retrieve question top_k w = (w', Ok []) ->
  let q := PyStr.lower question in
  let cold :=
    PyStr.any_in ["2–8"; "2-8"; "2 to 8"; "refriger"; "cold chain";
                  "transport"; "shipping"] q in
  let malaria := PyStr.contains "malaria" q || PyStr.contains "endemic" q in
  let cold_risks :=
    ["Risk of temperature excursion during transport leading to product quality compromise.";
     "Potential non-compliance with storage/transport clauses if 2–8 °C cannot be maintained for full transit."] in
  let malaria_risks :=
    ["Risk of transfusion-transmitted malaria if deferral/eligibility rules are not applied."] in
  let cold_alts :=
    ["Use a validated 2–8 °C shipper with lane qualification and pre-conditioned gel packs.";
     "Include a calibrated temperature logger and define acceptance criteria; review on receipt.";
     "Reduce transit time or split shipments; ensure monitored handover at each leg."] in
  let malaria_alts :=
    ["Apply the specified deferral period or require negative testing per the cited appendix before acceptance."] in
  answer question top_k w = (w', Ok (no_evidence_record question)) /\
  prompts w' = prompts w /\
  no_evidence_record question !! "compliance_status" = Some (JStr "Unclear") /\
  no_evidence_record question !! "citations" = Some (JList []) /\
  no_evidence_record question !! "human_supervision_required"
  = Some (JBool true) /\
  no_evidence_record question !! "violations_or_risks"
  = Some (str_list
            (match cold, malaria with
             | true, true => cold_risks ++ malaria_risks
             | true, false => cold_risks
             | false, true => malaria_risks
             | false, false =>
                 ["Evidence insufficient; risk of non-compliance if policy deviates from cited clauses."]
             end)) /\
  no_evidence_record question !! "alternative_suggestions"
  = Some (str_list
            (match cold, malaria with
             | true, true => cold_alts ++ malaria_alts
             | true, false => cold_alts
             | false, true => malaria_alts
             | false, false =>
                 ["Escalate for human review and obtain written confirmation against the cited standard/appendix."]
             end)) /\
  no_evidence_record question !! "violations_or_risks"
  = Some (str_list (risks (_backfill_risks_suggestions question))) /\
  no_evidence_record question !! "alternative_suggestions"
  = Some (str_list (alts (_backfill_risks_suggestions question))) /\
  risks (_backfill_risks_suggestions question) <> [] /\
  alts (_backfill_risks_suggestions question) <> [].
Proof.
  intros Hr q cold malaria cold_risks malaria_risks cold_alts malaria_alts.
  split; [rewrite answer_eq, Hr; reflexivity|].
  split.
  { pose proof (retrieve_prompts question top_k w) as H.
    rewrite Hr in H. exact H. }
  split; [reflexivity|]. split; [reflexivity|]. split; [reflexivity|].
  assert (Hrisks : risks (_backfill_risks_suggestions question)
                   = match cold, malaria with
                     | true, true => cold_risks ++ malaria_risks
                     | true, false => cold_risks
                     | false, true => malaria_risks
                     | false, false =>
                         ["Evidence insufficient; risk of non-compliance if policy deviates from cited clauses."]
                     end).
  { unfold _backfill_risks_suggestions. cbn [risks].
    fold q. fold cold. fold malaria.
    destruct cold, malaria; reflexivity. }
  assert (Halts : alts (_backfill_risks_suggestions question)
                  = match cold, malaria with
                    | true, true => cold_alts ++ malaria_alts
                    | true, false => cold_alts
                    | false, true => malaria_alts
                    | false, false =>
                        ["Escalate for human review and obtain written confirmation against the cited standard/appendix."]
                    end).
  { unfold _backfill_risks_suggestions. cbn [alts].
    fold q. fold cold. fold malaria.
    destruct cold, malaria; reflexivity. }
  split; [rewrite <- Hrisks; reflexivity|].
  split; [rewrite <- Halts; reflexivity|].
  split; [reflexivity|]. split; [reflexivity|].
  apply backfill_nonempty.
Qed.

Lemma final_status_exact (data : gmap string json) (st : string) :
  dict_get data "compliance_status" = JStr st ->
  st = "Compliant" \/ st = "Not Compliant" \/ st = "Unclear" ->
  final_status data = Ok st.
Proof.
  intros Hd Hst. unfold final_status. rewrite Hd.
  destruct Hst as [->|[->| ->]]; reflexivity.
Qed.

(** C1 (amended): the record [answer] returns has
    [human_supervision_required] equal to [status != "Compliant"], where
    [status] is the record's [compliance_status] (or [Unclear] when that is
    missing or empty) with surrounding whitespace stripped: the flag the
    model sent is overwritten. For each of the three schema values of
    [compliance_status] this is [compliance_status != "Compliant"]. *)
Theorem answer_supervision_follows_stripped_status
    (question : string) (top_k : Z) (w w' : world) (data : gmap string json) :
  answer question top_k w = (w', Ok data) ->
  (exists status : string,
     final_status data = Ok status /\
     data !! "human_supervision_required"
     = Some (JBool (negb (String.eqb status "Compliant")))) /\
  (forall st : string,
     dict_get data "compliance_status" = JStr st ->
     st = "Compliant" \/ st = "Not Compliant" \/ st = "Unclear" ->
     data !! "human_supervision_required"
     = Some (JBool (negb (String.eqb st "Compliant")))).
Proof.
  intros Ha.
  assert (Hs : exists status : string,
             final_status data = Ok status /\
             data !! "human_supervision_required"
             = Some (JBool (negb (String.eqb status "Compliant")))).
  { rewrite answer_eq in Ha.
    destruct (retrieve question top_k w) as [w1 [[|p ps]|e]].
    - inversion Ha; subst. exists "Unclear". split; reflexivity.
    - inversion Ha as [[Hw Hd]]. clear Ha.
      destruct (generate _) as [r|e]; [|discriminate].
      cbn in Hd. eapply assemble_supervision. exact Hd.
    - discriminate. }
  split; [exact Hs|].
  intros st Hd Hst.
  destruct Hs as (status & Hfin & Hflag).
  rewrite (final_status_exact data st Hd Hst) in Hfin.
  inversion Hfin; subst status. exact Hflag.
Qed.

(** Extra: whenever [answer] returns a record after a non-empty retrieval,
    whatever the backend replied, the citations of the record are a
    non-empty list. *)
Theorem answer_citations_when_it_returns
    (question : string) (top_k : Z) (w w1 w' : world)
    (p : passage) (ps : list passage) (data : gmap string json) :
  retrieve question top_k w = (w1, Ok (p :: ps)) ->
  answer question top_k w = (w', Ok data) ->
  exists (c : json) (cs : list json),
    data !! "citations" = Some (JList (c :: cs)).
Proof.
  intros Hr Ha. rewrite answer_eq, Hr in Ha.
  inversion Ha as [[Hw Hd]]. clear Ha.
  destruct (generate _) as [r|e]; [|discriminate].
  cbn in Hd. eapply assemble_citations. exact Hd.
Qed.

End AnswerClaims.

(** C1, as stated, fails on the reply [{"compliance_status": " Compliant"}]:
    retrieval is not empty, the record returned keeps the status with its
    blank, which differs from [Compliant], yet supervision is not required. *)
Lemma padded_status_needs_no_supervision :
  LabRuns.returned
    (answer (L := LabRuns.libs_replying LabRuns.padded_status_text
                    LabRuns.padded_status)
       "Is plasma export permitted?" 1 LabRuns.one_row)
    !! "compliance_status" = Some (JStr " Compliant") /\
  String.eqb " Compliant" "Compliant" = false /\
  LabRuns.returned
    (answer (L := LabRuns.libs_replying LabRuns.padded_status_text
                    LabRuns.padded_status)
       "Is plasma export permitted?" 1 LabRuns.one_row)
    !! "human_supervision_required" = Some (JBool false).
Proof. repeat split; vm_compute; reflexivity. Qed.

Lemma answer_supervision_follows_stripped_status_witness :
  LabRuns.returned
    (answer (L := LabRuns.libs_replying LabRuns.compliant_text LabRuns.compliant)
       "Is plasma export permitted?" 1 LabRuns.one_row)
    !! "human_supervision_required" = Some (JBool false).
Proof.
  refine (proj2
    (answer_supervision_follows_stripped_status
       (L := LabRuns.libs_replying LabRuns.compliant_text LabRuns.compliant)
       "Is plasma export permitted?" 1 LabRuns.one_row
       (answer (L := LabRuns.libs_replying LabRuns.compliant_text LabRuns.compliant)
          "Is plasma export permitted?" 1 LabRuns.one_row).1
       (LabRuns.returned
          (answer (L := LabRuns.libs_replying LabRuns.compliant_text LabRuns.compliant)
             "Is plasma export permitted?" 1 LabRuns.one_row))
       _) "Compliant" _ _).
  - vm_compute. reflexivity.
  - vm_compute. reflexivity.
  - left. reflexivity.
Defined.

(** C2 fails on the reply [{"citations": ["TGO 109 p.3"]}]: retrieval
    returns a passage, the reply parses, and [answer] raises
    [AttributeError] on the first citation instead of returning a record. *)
Lemma string_citations_make_answer_raise :
  (retrieve (L := LabRuns.libs_replying LabRuns.string_citations_text
                    LabRuns.string_citations)
     "Is plasma export permitted?" 1 LabRuns.one_row).2
  = Ok [with_bm25 (with_score Lab.p0 1) 0] /\
  (answer (L := LabRuns.libs_replying LabRuns.string_citations_text
                  LabRuns.string_citations)
     "Is plasma export permitted?" 1 LabRuns.one_row).2
  = Raise AttributeError.
Proof. split; vm_compute; reflexivity. Qed.

(** ** Bounded, row-distinct retrieval *)

Section Picking.

Lemma rmap_Forall2 {A B : Type} (f : A -> result B) (xs : list A) (ys : list B) :
  rmap f xs = Ok ys -> Forall2 (fun x y => f x = Ok y) xs ys.
Proof.
  revert ys. induction xs as [|x xs IH]; intros ys H; simpl in H.
  - inversion H. constructor.
  - destruct (f x) as [y|e] eqn:Hx; [|discriminate]. cbn in H.
    destruct (rmap f xs) as [ys'|e]; [|discriminate]. cbn in H.
    inversion H. constructor; [exact Hx | apply IH; reflexivity].
Qed.

Lemma py_slice_prefix {A : Type} (l : list A) (k : Z) :
  0 <= k -> py_slice l 0 k = firstn (Z.to_nat k) l.
Proof.
  intros Hk. unfold py_slice.
  rewrite !slice_bound_nonneg by lia.
  change (Z.to_nat 0) with 0%nat. rewrite Nat.min_0_r. cbn [drop].
  destruct (le_lt_dec (length l) (Z.to_nat k)) as [Hle|Hlt].
  - rewrite Nat.min_l by lia. rewrite !firstn_all2 by lia. reflexivity.
  - rewrite Nat.min_r by lia. reflexivity.
Qed.


End Picking.

Section RetrievalClaims.
Context {L : Libs}.

Lemma chunk_key_with_score (m : passage) (sc : float) :
  chunk_key (with_score m sc) = chunk_key m.
Proof. reflexivity. Qed.

Lemma chunk_key_with_bm25 (m : passage) (sc : float) :
  chunk_key (with_bm25 m sc) = chunk_key m.
Proof. reflexivity. Qed.






Lemma no_vectors_search (qvec : ndarray) (top_k : Z) (w : world) :
  no_vectors w -> aligned w -> search qvec top_k w = (loaded w, Ok []).
Proof.
  intros [Hu Hv] Ha. rewrite search_eq, Hu.
  unfold aligned in Ha.
  destruct (live_index w) as [ix|]; [|reflexivity].
  destruct (live_meta w) as [|m ms]; [reflexivity|].
  rewrite Hv in Ha. discriminate.
Qed.




End RetrievalClaims.

(** ** The library behaviours of [Lab] meet the contracts *)

Section LabFacts.

Lemma place_perm (h : Z * float) (ranked : list (Z * float)) :
  Lab.place h ranked ≡ₚ h :: ranked.
Proof.
  induction ranked as [|r rest IH]; cbn [Lab.place]; [reflexivity|].
  destruct (Lab.below h r); [|reflexivity].
  rewrite IH. apply Permutation_swap.
Qed.

Lemma removelast_sublist {A : Type} (l : list A) : sublist (removelast l) l.
Proof.
  induction l as [|x [|y l] IH]; cbn; [constructor | | ].
  - apply sublist_cons. constructor.
  - apply sublist_skip. exact IH.
Qed.

Lemma offer_sub (k : nat) (kept : list (Z * float)) (h : Z * float) :
  Lab.offer k kept h ⊆+ h :: kept.
Proof.
  unfold Lab.offer.
  destruct (PrimFloat.ltb _ h.2); [|apply submseteq_cons; reflexivity].
  destruct (length kept <? k)%nat;
    [apply Permutation_submseteq, place_perm|].
  destruct (last kept) as [l|]; [|apply submseteq_cons; reflexivity].
  destruct (PrimFloat.ltb l.2 h.2); [|apply submseteq_cons; reflexivity].
  rewrite place_perm. apply submseteq_skip, sublist_submseteq.
  apply removelast_sublist.
Qed.

Lemma offers_sub (k : nat) (rows : list (Z * float)) :
  forall kept, fold_left (Lab.offer k) rows kept ⊆+ kept ++ rows.
Proof.
  induction rows as [|h rows IH]; intros kept; cbn [fold_left].
  - rewrite app_nil_r. reflexivity.
  - etransitivity; [apply IH|].
    etransitivity; [apply submseteq_app; [apply offer_sub | reflexivity]|].
    apply Permutation_submseteq. cbn [app].
    apply Permutation_middle.
Qed.

(** The rows FAISS found are rows of the index, each at most once. *)
Lemma flat_ip_found (ix : faiss_index) (q : list float) (k : Z) :
  exists found : list (Z * float),
    Lab.flat_ip ix q k
    = found ++ replicate (Z.to_nat k - length found)%nat
                 (-1, PrimFloat.neg_infinity) /\
    map fst found ⊆+ map Z.of_nat (seq 0 (length (xb ix))).
Proof.
  eexists. split; [reflexivity|].
  rewrite (offers_sub (Z.to_nat k) _ []). cbn [app].
  rewrite fmap_imap.
  rewrite (imap_ext _ (fun i _ => Z.of_nat i)) by reflexivity.
  rewrite imap_seq_0. reflexivity.
Qed.





Lemma lab_labels_in_range (order : list float -> list nat) (r : result reply) :
  labels_in_range (L := Lab.libs order r).
Proof.
  intros ix q k hits. cbn.
  destruct (k <=? 0); [discriminate|].
  intros [= <-].
  destruct (flat_ip_found ix q k) as (found & -> & Hsub).
  apply Forall_app. split.
  - apply Forall_forall. intros h Hh.
    assert (Hin : h.1 ∈ map fst found)
      by (apply list_elem_of_fmap; exists h; split; [reflexivity | exact Hh]).
    eapply elem_of_submseteq in Hin; [|exact Hsub].
    apply list_elem_of_fmap in Hin as (i & -> & Hi).
    apply elem_of_seq in Hi. lia.
  - apply Forall_forall. intros h Hh.
    apply elem_of_replicate in Hh as [-> _]. cbn [fst]. lia.
Qed.


End LabFacts.





(** ** Lexical rerank *)

Section Rerank.
Context {L : Libs}.






End Rerank.



(** ** Registration *)

Section Registration.
Context {E : Env}.

Lemma register_known (manifest : gmap string (list (string * version)))
    (s : source_item) (st : ingest_state) :
  known manifest s ->
  register manifest s st
  = {| manifest_file := manifest_file st; unterminated := unterminated st;
       clock := S (clock st); added_versions := added_versions st |}.
Proof.
  unfold known, holds, item_hash, register. intros H. rewrite H. reflexivity.
Qed.

Lemma register_all_known (manifest : gmap string (list (string * version)))
    (sources : list source_item) :
  (forall s, In s sources -> known manifest s) ->
  forall st : ingest_state,
    manifest_file (fold_left (fun st s => register manifest s st) sources st)
    = manifest_file st /\
    added_versions (fold_left (fun st s => register manifest s st) sources st)
    = added_versions st.
Proof.
  induction sources as [|s sources IH]; intros Hk st; [split; reflexivity|].
  cbn [fold_left]. rewrite register_known by (apply Hk; left; reflexivity).
  destruct (IH (fun s' Hs' => Hk s' (or_intror Hs'))
              {| manifest_file := manifest_file st;
                 unterminated := unterminated st; clock := S (clock st);
                 added_versions := added_versions st |}) as [Hm Ha].
  split; [exact Hm | exact Ha].
Qed.

(** Loading leaves the file as it is. *)
Lemma load_manifest_file (st st1 : ingest_state)
    (manifest : gmap string (list (string * version))) :
  _load_manifest st = Ok (manifest, st1) ->
  manifest_file st1 = manifest_file st /\
  unterminated st1 = unterminated st.
Proof.
  unfold _load_manifest. destruct (manifest_file st) as [lines|] eqn:Hf.
  - destruct (load_manifest_lines lines ∅ (clock st)) as [[d tick]|e];
      [|discriminate].
    cbn. intros [= _ <-]. cbn. split; reflexivity || exact Hf.
  - intros [= _ <-]. split; reflexivity || exact Hf.
Qed.

(** What [scan_and_index] does once the manifest is loaded. *)
Lemma scan_and_index_eq (sources : list source_item) (st st1 : ingest_state)
    (manifest : gmap string (list (string * version))) :
  _load_manifest st = Ok (manifest, st1) ->
  scan_and_index sources st
  = Ok (fold_left (fun st s => register manifest s st) sources
          {| manifest_file := manifest_file st1;
             unterminated := unterminated st1; clock := clock st1;
             added_versions := 0 |}).
Proof. unfold scan_and_index. intros ->. reflexivity. Qed.

(** C6: the version hash is a function of the text ([sha256_text] of equal
    texts is equal, call after call); registering a source whose hash the
    loaded manifest already holds for its document appends no row; and a run
    of [scan_and_index] over sources that are all unchanged returns, leaves
    the manifest file, hence its row count, as it was, and reports no new
    version. *)
Theorem reregistration_appends_no_row :
  (forall t1 t2 : string, t1 = t2 -> sha256_text t1 = sha256_text t2) /\
  (forall (manifest : gmap string (list (string * version)))
          (s : source_item) (st : ingest_state),
     known manifest s ->
     manifest_file (register manifest s st) = manifest_file st /\
     manifest_rows (register manifest s st) = manifest_rows st) /\
  (forall (sources : list source_item) (st st1 : ingest_state)
          (manifest : gmap string (list (string * version))),
     _load_manifest st = Ok (manifest, st1) ->
     (forall s, In s sources -> known manifest s) ->
     exists st' : ingest_state,
       scan_and_index sources st = Ok st' /\
       manifest_file st' = manifest_file st /\
       unterminated st' = unterminated st /\
       manifest_rows st' = manifest_rows st /\
       added_versions st' = 0).
Proof.
  split; [intros t1 t2 ->; reflexivity|].
  split.
  - intros manifest s st Hk. rewrite register_known by exact Hk.
    split; reflexivity.
  - intros sources st st1 manifest Hload Hk.
    rewrite (scan_and_index_eq sources st st1 manifest Hload).
    eexists. split; [reflexivity|].
    destruct (load_manifest_file st st1 manifest Hload) as [Hl Hu].
    destruct (register_all_known manifest sources Hk
                {| manifest_file := manifest_file st1;
                   unterminated := unterminated st1; clock := clock st1;
                   added_versions := 0 |}) as [Hm Ha].
    cbn [manifest_file added_versions] in Hm, Ha.
    assert (Hf : manifest_file
                   (fold_left (fun st s => register manifest s st) sources
                      {| manifest_file := manifest_file st1;
                         unterminated := unterminated st1;
                         clock := clock st1; added_versions := 0 |})
                 = manifest_file st) by (rewrite Hm; exact Hl).
    split; [exact Hf|]. split; [|split; [|exact Ha]].
    + clear Hm Ha Hf. rewrite <- Hu.
      generalize (clock st1) at 1. generalize 0 at 1.
      induction sources as [|s sources IH]; intros a c; [reflexivity|].
      cbn [fold_left].
      rewrite register_known by (apply Hk; left; reflexivity).
      apply (IH (fun s' Hs' => Hk s' (or_intror Hs'))).
    + unfold manifest_rows. rewrite Hf. reflexivity.
Qed.

End Registration.

Lemma reregistration_appends_no_row_witness :
  exists st' : ingest_state,
    scan_and_index (E := LabIngest.env) LabIngest.sources LabIngest.after
    = Ok st' /\
    manifest_file st' = manifest_file LabIngest.after.
Proof.
  edestruct (proj2 (proj2 (reregistration_appends_no_row (E := LabIngest.env)))
               LabIngest.sources LabIngest.after) as (st' & Hs & Hf & _).
  - vm_compute. reflexivity.
  - intros s [<-|[]]. vm_compute. reflexivity.
  - exists st'. split; [exact Hs | exact Hf].
Defined.

Example first_ingestion_appends_one_row :
  manifest_rows LabIngest.before = 0%nat /\
  manifest_rows LabIngest.after = 1%nat /\
  added_versions LabIngest.after = 1.
Proof. repeat split; vm_compute; reflexivity. Qed.

Lemma answer_without_evidence_witness :
  answer (L := LabStores.quiet) "Can plasma be shipped at 2-8 C?" 6
    LabStores.never_built
  = (loaded LabStores.never_built,
     Ok (no_evidence_record "Can plasma be shipped at 2-8 C?")) /\
  no_evidence_record "Can plasma be shipped at 2-8 C?"
    !! "violations_or_risks"
  = Some (str_list
      ["Risk of temperature excursion during transport leading to product quality compromise.";
       "Potential non-compliance with storage/transport clauses if 2–8 °C cannot be maintained for full transit."]) /\
  no_evidence_record "Can plasma be shipped at 2-8 C?"
    !! "alternative_suggestions"
  = Some (str_list
      ["Use a validated 2–8 °C shipper with lane qualification and pre-conditioned gel packs.";
       "Include a calibrated temperature logger and define acceptance criteria; review on receipt.";
       "Reduce transit time or split shipments; ensure monitored handover at each leg."]).
Proof.
  pose proof (answer_without_evidence (L := LabStores.quiet)
                "Can plasma be shipped at 2-8 C?" 6 LabStores.never_built
                (loaded LabStores.never_built)) as H.
  cbv zeta in H.
  destruct H as (Ha & _ & _ & _ & _ & Hrisks & Halts & _);
    [vm_compute; reflexivity|].
  split; [exact Ha|]. split; [exact Hrisks | exact Halts].
Defined.

Lemma build_checks_row_alignment_witness :
  exists (w' : world) (ix : faiss_index),
    build (L := LabStores.quiet) {| rows := [Lab.ray 1]; dim := 2 |} [Lab.p0]
      LabStores.never_built = (w', Ok tt) /\
    index_path w' = IndexOnDisk ix /\
    meta_path w' = Some (map Row [Lab.p0]) /\
    length (xb ix) = length (map Row [Lab.p0]) /\
    load_rows (map Row [Lab.p0]) = [Lab.p0] /\
    index w' = Some ix /\
    _meta_cache w' = Some [Lab.p0].
Proof.
  refine (proj2 (proj2
    (build_checks_row_alignment (L := LabStores.quiet)
       {| rows := [Lab.ray 1]; dim := 2 |} [Lab.p0] LabStores.never_built)) _).
  reflexivity.
Defined.

(** ** Replies that do not parse *)

Section Fallback.
Context {L : Libs}.

Lemma rmap_cons {A B : Type} (f : A -> result B) (x : A) (xs : list A) :
  rmap f (x :: xs) = (y ← f x; ys ← rmap f xs; Ok (y :: ys)).
Proof. reflexivity. Qed.

Lemma short_name_of_str (s : string) :
  exists name : string, _short_name_of (JStr s) = Ok name.
Proof. unfold _short_name_of. destruct (negb _); eauto. Qed.

(** A citation whose source is a string is normalised without error. *)
Lemma normalise_str_source (first_src : string) (first_page : Z)
    (c : gmap string json) (s : string) :
  c !! "source" = Some (JStr s) ->
  exists c' : gmap string json,
    normalise_citation first_src first_page (JDict c) = Ok (JDict c').
Proof.
  intros Hs. unfold normalise_citation. cbv zeta.
  replace (dict_get c "source") with (JStr s)
    by (unfold dict_get; rewrite Hs; reflexivity).
  assert (Hsrc : exists t : string,
             (if is_placeholder (py_or (JStr s) (JStr first_src))
              then JStr first_src
              else py_or (JStr s) (JStr first_src)) = JStr t).
  { unfold py_or. destruct (truthy (JStr s)).
    - destruct (is_placeholder (JStr s)); eauto.
    - destruct (is_placeholder (JStr first_src)); eauto. }
  destruct Hsrc as [t ->].
  destruct (short_name_of_str t) as [name ->].
  cbn [mbind result_bind]. eauto.
Qed.

Lemma normalise_own_citations (first_src : string) (first_page : Z)
    (n : nat) (ps : list passage) :
  exists cs : list json,
    rmap (normalise_citation first_src first_page)
      (map (passage_citation n) ps) = Ok cs /\
    length cs = length ps.
Proof.
  induction ps as [|p ps (cs & Hcs & Hlen)]; [exists []; split; reflexivity|].
  assert (Hc : exists c' : gmap string json,
             normalise_citation first_src first_page (passage_citation n p)
             = Ok (JDict c'))
    by (unfold passage_citation; eapply normalise_str_source; reflexivity).
  destruct Hc as [c' Hc'].
  exists (JDict c' :: cs). split; [|simpl; f_equal; exact Hlen].
  change (map (passage_citation n) (p :: ps))
    with (passage_citation n p :: map (passage_citation n) ps).
  rewrite rmap_cons, Hc'.
  cbn [mbind result_bind]. rewrite Hcs. reflexivity.
Qed.

(** When the reply does not parse, [assemble] returns the fallback record:
    status [Unclear], the reply cut to 600 characters as rationale, one
    citation per passage among the first four, the risk and mitigation lists
    of the rule table, supervision required. *)
Lemma assemble_malformed (question text : string) (p : passage)
    (ps : list passage) :
  exists (data : gmap string json) (cs : list json),
    assemble question (p :: ps) (Malformed text) = Ok data /\
    data !! "compliance_status" = Some (JStr "Unclear") /\
    data !! "rationale" = Some (JStr (PyStr.take 600 text)) /\
    data !! "citations" = Some (JList cs) /\
    length cs = length (firstn 4 (p :: ps)) /\
    data !! "violations_or_risks"
    = Some (str_list (risks (_backfill_risks_suggestions question))) /\
    data !! "alternative_suggestions"
    = Some (str_list (alts (_backfill_risks_suggestions question))) /\
    data !! "human_supervision_required" = Some (JBool true).
Proof.
  destruct (normalise_own_citations (_short_name (source p)) (page p) 300
              (firstn 4 (p :: ps))) as (cs & Hcs & Hlen).
  set (rf := _backfill_risks_suggestions question).
  exists (<["human_supervision_required" := JBool true]>
            (<["alternative_suggestions" := str_list (alts rf)]>
               (<["violations_or_risks" := str_list (risks rf)]>
                  (<["citations" := JList cs]>
                     (fallback_record text (p :: ps)))))), cs.
  split.
  - unfold assemble.
    replace (dict_get (fallback_record text (p :: ps)) "citations")
      with (JList (map (passage_citation 300) (firstn 4 (p :: ps))))
      by reflexivity.
    cbn [firstn map truthy negb py_iter mbind result_bind].
    cbn [firstn map] in Hcs. rewrite Hcs.
    cbn [mbind result_bind]. fold rf.
    replace (dict_get (<["citations" := JList cs]>
                         (fallback_record text (p :: ps)))
               "violations_or_risks")
      with (JList []) by reflexivity.
    cbn [truthy negb].
    replace (dict_get
               (<["violations_or_risks" := str_list (risks rf)]>
                  (<["citations" := JList cs]>
                     (fallback_record text (p :: ps))))
               "alternative_suggestions")
      with (JList []) by reflexivity.
    cbn [truthy negb].
    replace (final_status
               (<["alternative_suggestions" := str_list (alts rf)]>
                  (<["violations_or_risks" := str_list (risks rf)]>
                     (<["citations" := JList cs]>
                        (fallback_record text (p :: ps))))))
      with (Ok "Unclear" : result string) by reflexivity.
    reflexivity.
  - repeat split; try reflexivity. exact Hlen.
Qed.

(** Extra: a reply that does not parse is never fatal. After a non-empty
    retrieval [answer] returns the fallback record: status [Unclear],
    citations drawn from the first four retrieved passages (so not empty),
    the rule table's risks and mitigations, supervision required; the prompt
    was sent once. *)
Theorem unparseable_reply_gives_fallback
    (question : string) (top_k : Z) (w w1 : world)
    (p : passage) (ps : list passage) (text : string) :
  retrieve question top_k w = (w1, Ok (p :: ps)) ->
  generate (format_prompt question (p :: ps)) = Ok (Malformed text) ->
  exists (data : gmap string json) (cs : list json),
    answer question top_k w
    = (add_prompt (format_prompt question (p :: ps)) w1, Ok data) /\
    data !! "compliance_status" = Some (JStr "Unclear") /\
    data !! "rationale" = Some (JStr (PyStr.take 600 text)) /\
    data !! "citations" = Some (JList cs) /\
    length cs = length (firstn 4 (p :: ps)) /\
    data !! "violations_or_risks"
    = Some (str_list (risks (_backfill_risks_suggestions question))) /\
    data !! "alternative_suggestions"
    = Some (str_list (alts (_backfill_risks_suggestions question))) /\
    data !! "human_supervision_required" = Some (JBool true).
Proof.
  intros Hr Hg.
  destruct (assemble_malformed question text p ps) as (data & cs & Ha & H).
  exists data, cs. split; [|exact H].
  rewrite answer_eq, Hr, Hg. cbn [mbind result_bind]. rewrite Ha. reflexivity.
Qed.

End Fallback.

Lemma unparseable_reply_gives_fallback_witness :
  exists (data : gmap string json) (cs : list json),
    answer (L := LabRuns.libs_rambling) "Is plasma export permitted?" 1
      LabRuns.one_row
    = (add_prompt
         (format_prompt "Is plasma export permitted?"
            [with_bm25 (with_score Lab.p0 1) 0])
         (loaded LabRuns.one_row),
       Ok data) /\
    data !! "citations" = Some (JList cs) /\
    length cs = 1%nat.
Proof.
  destruct (unparseable_reply_gives_fallback (L := LabRuns.libs_rambling)
              "Is plasma export permitted?" 1 LabRuns.one_row
              (loaded LabRuns.one_row) (with_bm25 (with_score Lab.p0 1) 0) []
              "I cannot answer that.")
    as (data & cs & Ha & _ & _ & Hc & Hl & _).
  - vm_compute. reflexivity.
  - reflexivity.
  - exists data, cs. split; [exact Ha|]. split; [exact Hc | exact Hl].
Defined.

(** ** Two ingestions in a row *)

Section Idempotence.
Context {E : Env}.

















Lemma register_new (manifest : gmap string (list (string * version)))
    (s : source_item) (st : ingest_state) :
  odict_mem (item_hash s) (default [] (manifest !! item_id s)) = false ->
  register manifest s st
  = {| manifest_file :=
         Some (appended (default [] (manifest_file st)) (unterminated st)
                 (rec_meta s (item_hash s) (now_iso_at (clock st))));
       unterminated := false;
       clock := S (clock st);
       added_versions := added_versions st + 1 |}.
Proof.
  unfold item_hash, register. intros H. rewrite H. reflexivity.
Qed.


Lemma appended_complete (lines : list manifest_line) (open_end : bool)
    (rec : gmap string string) :
  exists x : manifest_line,
    appended lines open_end rec
    = (if open_end then removelast lines else lines) ++ [x] /\
    (length lines <= length (appended lines open_end rec))%nat.
Proof.
  unfold appended. destruct open_end.
  - destruct (last lines) as [l|] eqn:Hl.
    + exists (joined l rec). split; [reflexivity|].
      rewrite length_app. cbn [length].
      destruct lines as [|y lines]; [discriminate|].
      pose proof (removelast_sublist (y :: lines)) as Hs.
      assert (Hlen : length (y :: lines)
                     = S (length (removelast (y :: lines)))).
      { clear. revert y. induction lines as [|z lines IH]; intros y;
          [reflexivity|].
        change (removelast (y :: z :: lines)) with (y :: removelast (z :: lines)).
        cbn [length]. rewrite <- IH. reflexivity. }
      lia.
    + destruct lines as [|y lines]; [|apply last_None in Hl; discriminate].
      exists (MRow rec). split; [reflexivity | cbn; lia].
  - exists (MRow rec). split; [reflexivity|]. rewrite length_app. lia.
Qed.

(** Whatever the file ends with, the lines that end with a newline stay in
    place, and the file never gets shorter. *)
Lemma register_all_complete (manifest : gmap string (list (string * version)))
    (sources : list source_item) :
  forall st : ingest_state,
    exists extra : list manifest_line,
      default [] (manifest_file
                    (fold_left (fun st s => register manifest s st) sources st))
      = complete_lines st ++ extra /\
      (manifest_rows st
       <= manifest_rows
            (fold_left (fun st s => register manifest s st) sources st))%nat.
Proof.
  induction sources as [|s sources IH]; intros st.
  - cbn [fold_left]. unfold complete_lines, manifest_rows.
    destruct (unterminated st);
      [|exists []; rewrite app_nil_r; split; [reflexivity | lia]].
    generalize (default [] (manifest_file st)). intros l.
    induction l as [|y l _] using rev_ind.
    + exists []. split; [reflexivity | lia].
    + exists [y]. rewrite removelast_last. split; [reflexivity | lia].
  - cbn [fold_left].
    destruct (IH (register manifest s st)) as (extra & Hfile & Hlen).
    destruct (odict_mem (item_hash s) (default [] (manifest !! item_id s)))
      eqn:Hk.
    + rewrite (register_known manifest s st Hk) in Hfile, Hlen |- *.
      exists extra. split; [exact Hfile | exact Hlen].
    + destruct (appended_complete (default [] (manifest_file st))
                  (unterminated st)
                  (rec_meta s (item_hash s) (now_iso_at (clock st))))
        as (x & Hx & Hxl).
      assert (Hc : complete_lines (register manifest s st)
                   = complete_lines st ++ [x]).
      { rewrite (register_new manifest s st Hk). unfold complete_lines.
        cbn [unterminated manifest_file default id]. exact Hx. }
      assert (Hr : (manifest_rows st
                    <= manifest_rows (register manifest s st))%nat).
      { rewrite (register_new manifest s st Hk). unfold manifest_rows.
        cbn [manifest_file default id]. exact Hxl. }
      rewrite Hc in Hfile.
      exists (x :: extra). split.
      * rewrite Hfile, <- app_assoc. reflexivity.
      * etransitivity; [exact Hr | exact Hlen].
Qed.


(** Extra: the manifest is append-only as far as its complete lines go. A
    run of [scan_and_index] that returns keeps every line that ends with a
    newline in place and only adds lines after them; so it keeps every line
    of a file that ends with a newline. A last line without newline is the
    one line a run can change. The row count never decreases. *)
Theorem scan_and_index_appends_only
    (sources : list source_item) (st st' : ingest_state) :
  scan_and_index sources st = Ok st' ->
  exists extra : list manifest_line,
    default [] (manifest_file st') = complete_lines st ++ extra /\
    (unterminated st = false ->
     default [] (manifest_file st') = default [] (manifest_file st) ++ extra) /\
    (manifest_rows st <= manifest_rows st')%nat.
Proof.
  intros Hscan.
  destruct (_load_manifest st) as [[manifest st0]|e] eqn:Hload;
    [|unfold scan_and_index in Hscan; rewrite Hload in Hscan; discriminate].
  rewrite (scan_and_index_eq sources st st0 manifest Hload) in Hscan.
  injection Hscan as Hst'.
  destruct (load_manifest_file st st0 manifest Hload) as [Hl Hu].
  destruct (register_all_complete manifest sources
              {| manifest_file := manifest_file st0;
                 unterminated := unterminated st0; clock := clock st0;
                 added_versions := 0 |}) as (extra & Hfile & Hlen).
  rewrite Hst' in Hfile, Hlen.
  unfold complete_lines in Hfile. unfold manifest_rows in Hlen at 1.
  cbn [manifest_file unterminated] in Hfile, Hlen.
  rewrite Hl, Hu in Hfile. rewrite Hl in Hlen.
  exists extra. split; [exact Hfile|]. split; [|exact Hlen].
  intros Hclosed. rewrite Hfile. unfold complete_lines.
  rewrite Hclosed. reflexivity.
Qed.

End Idempotence.


Lemma scan_and_index_appends_only_witness :
  exists extra : list manifest_line,
    default [] (manifest_file LabIngest.after)
    = default [] (manifest_file LabIngest.before) ++ extra.
Proof.
  destruct (scan_and_index_appends_only (E := LabIngest.env)
              LabIngest.sources LabIngest.before LabIngest.after)
    as (extra & _ & Hf & _); [vm_compute; reflexivity|].
  exists extra. apply Hf. reflexivity.
Defined.

Lemma answer_citations_when_it_returns_witness :
  exists (c : json) (cs : list json),
    LabRuns.returned
      (answer (L := LabRuns.libs_replying LabRuns.compliant_text LabRuns.compliant)
         "Is plasma export permitted?" 1 LabRuns.one_row)
      !! "citations" = Some (JList (c :: cs)).
Proof.
  refine (answer_citations_when_it_returns
            (L := LabRuns.libs_replying LabRuns.compliant_text LabRuns.compliant)
            "Is plasma export permitted?" 1 LabRuns.one_row
            (loaded LabRuns.one_row)
            (answer (L := LabRuns.libs_replying LabRuns.compliant_text
                             LabRuns.compliant)
               "Is plasma export permitted?" 1 LabRuns.one_row).1
            (with_bm25 (with_score Lab.p0 1) 0) [] _ _ _).
  - vm_compute. reflexivity.
  - vm_compute. reflexivity.
Defined.

(* ===================================================================== *)
(** * Part III. Further properties of the code *)
(* ===================================================================== *)

(** ** The chunker: what the chunks are *)

Section ChunkShape.

Lemma flush_nonempty (cur : string) (out : list string) :
  Forall (fun t => t <> EmptyString) out ->
  Forall (fun t => t <> EmptyString) (PyStr.flush cur out).
Proof.
  intros H. destruct cur; [exact H|]. constructor; [discriminate | exact H].
Qed.

Lemma split_from_nonempty (s : string) :
  forall (skip : nat) (cur : string),
    Forall (fun t => t <> EmptyString) (PyStr.split_from s skip cur).
Proof.
  induction s as [|c s IH]; intros skip cur; cbn [PyStr.split_from].
  - apply flush_nonempty. constructor.
  - destruct skip as [|k]; [|apply IH].
    destruct (PyStr.ws_len (String c s)); [apply IH|].
    apply flush_nonempty. apply IH.
Qed.

(** No token of [text.split()] is empty. *)
Lemma split_nonempty (s : string) :
  Forall (fun t => t <> EmptyString) (PyStr.split s).
Proof. apply split_from_nonempty. Qed.

Lemma append_nonempty (a b : string) :
  a <> EmptyString -> a +:+ b <> EmptyString.
Proof. destruct a; [contradiction | discriminate]. Qed.

Lemma join_nonempty (sep : string) (parts : list string) :
  parts <> [] -> Forall (fun t => t <> EmptyString) parts ->
  PyStr.join sep parts <> EmptyString.
Proof.
  intros Hne Hall. destruct parts as [|p parts]; [contradiction|].
  apply Forall_cons in Hall as [Hp _].
  destruct parts as [|p' parts]; [exact Hp|].
  cbn [PyStr.join]. apply append_nonempty. exact Hp.
Qed.

Lemma py_slice_length {A : Type} (l : list A) (i m : Z) :
  0 <= i -> 0 <= m -> Z.of_nat (length (py_slice l i (i + m))) <= m.
Proof.
  intros Hi Hm. unfold py_slice.
  rewrite !slice_bound_nonneg by lia.
  rewrite length_drop, length_firstn. lia.
Qed.

Lemma py_slice_sub {A : Type} (l : list A) (start stop : Z) (x : A) :
  In x (py_slice l start stop) -> In x l.
Proof.
  unfold py_slice. intros H.
  apply list_elem_of_In in H. apply list_elem_of_In.
  eapply elem_of_sublist; [|apply sublist_take].
  eapply elem_of_sublist; [exact H | apply sublist_drop].
Qed.

Lemma chunk_loop_windows (words : list string) (max_tokens overlap : Z) (c : string) :
  forall chunks i,
    In c (chunk_loop words max_tokens overlap chunks i) ->
    In c chunks \/ window_chunk words max_tokens overlap i c.
Proof.
  apply (chunk_loop_ind
           (fun chunks i =>
              In c (chunk_loop words max_tokens overlap chunks i) ->
              In c chunks \/ window_chunk words max_tokens overlap i c)
           words max_tokens overlap).
  intros chunks i IH. rewrite chunk_loop_eq.
  destruct (Z_lt_dec i (Z.of_nat (length words))) as [Hlt|Hge];
    [|intros H; left; exact H].
  pose proof (chunk_step_pos max_tokens overlap) as Hs.
  intros H. apply IH in H; [|lia|lia].
  destruct H as [H|(k & Hk)].
  - destruct (py_slice words i (i + max_tokens)) as [|w ws] eqn:Hsl;
      [left; exact H|].
    apply in_app_or in H as [H|[<-|[]]]; [left; exact H|].
    right. exists 0%nat. cbv zeta.
    replace (i + Z.of_nat 0 * chunk_step max_tokens overlap) with i by lia.
    rewrite Hsl. repeat split; [exact Hlt | discriminate].
  - right. exists (S k). cbv zeta in Hk |- *.
    replace (i + Z.of_nat (S k) * chunk_step max_tokens overlap)
      with (i + chunk_step max_tokens overlap
            + Z.of_nat k * chunk_step max_tokens overlap) by lia.
    exact Hk.
Qed.

Lemma window_nonempty {A : Type} (l : list A) (i m : Z) :
  0 <= i < Z.of_nat (length l) -> 1 <= m -> py_slice l i (i + m) <> [].
Proof.
  intros Hi Hm Hnil.
  pose proof (py_slice_lookup l i m (Z.to_nat i)) as H.
  rewrite Hnil, lookup_nil in H.
  destruct (lookup_lt_is_Some_2 l (Z.to_nat i)) as [x Hx]; [lia|].
  rewrite Hx in H. discriminate H; lia.
Qed.

(** A window of tokens joins to a text that is not empty. *)
Lemma window_text_nonempty (text : string) (i j : Z) :
  py_slice (PyStr.split text) i j <> [] ->
  PyStr.join " " (py_slice (PyStr.split text) i j) <> EmptyString.
Proof.
  intros Hne. apply join_nonempty; [exact Hne|].
  apply Forall_forall. intros t Ht.
  pose proof (split_nonempty text) as Hall.
  rewrite Forall_forall in Hall. apply Hall.
  apply list_elem_of_In. eapply py_slice_sub. apply list_elem_of_In. exact Ht.
Qed.


(** Extra: every chunk [split_into_chunks] returns is the text of a window
    of the token list that starts at a multiple of the step inside the
    text; the window holds at least one token and, for [max_tokens >= 0], at
    most [max_tokens]; all its words are tokens of the text; and the chunk
    is not the empty string. *)
Theorem chunks_are_windows
    (text : string) (max_tokens overlap : Z) (c : string) :
  In c (split_into_chunks text max_tokens overlap) ->
  exists k : nat,
    let i := Z.of_nat k * chunk_step max_tokens overlap in
    let window := py_slice (PyStr.split text) i (i + max_tokens) in
    i < Z.of_nat (length (PyStr.split text)) /\
    c = PyStr.join " " window /\
    window <> [] /\
    (0 <= max_tokens -> Z.of_nat (length window) <= max_tokens) /\
    (forall t, In t window -> In t (PyStr.split text)) /\
    c <> EmptyString.
Proof.
  unfold split_into_chunks. intros H.
  apply chunk_loop_windows in H as [[]|(k & Hlt & Hne & Hc)].
  cbv zeta in Hlt, Hne, Hc. rewrite Z.add_0_l in Hlt, Hne, Hc.
  exists k. cbv zeta.
  pose proof (chunk_step_pos max_tokens overlap) as Hs.
  split; [exact Hlt|]. split; [exact Hc|]. split; [exact Hne|].
  split; [intros Hm; apply py_slice_length; nia|].
  split; [intros t Ht; eapply py_slice_sub; exact Ht|].
  subst c. apply window_text_nonempty. exact Hne.
Qed.

Lemma chunk_loop_count (words : list string) (max_tokens overlap : Z) :
  1 <= max_tokens ->
  forall chunks i,
    0 <= i ->
    Z.of_nat (length (chunk_loop words max_tokens overlap chunks i))
    = Z.of_nat (length chunks)
      + (if i <? Z.of_nat (length words)
         then (Z.of_nat (length words) - i - 1)
                / chunk_step max_tokens overlap + 1
         else 0).
Proof.
  intros Hm.
  apply (chunk_loop_ind
           (fun chunks i =>
              0 <= i ->
              Z.of_nat (length (chunk_loop words max_tokens overlap chunks i))
              = Z.of_nat (length chunks)
                + (if i <? Z.of_nat (length words)
                   then (Z.of_nat (length words) - i - 1)
                          / chunk_step max_tokens overlap + 1
                   else 0))
           words max_tokens overlap).
  intros chunks i IH Hi. rewrite chunk_loop_eq.
  pose proof (chunk_step_pos max_tokens overlap) as Hs.
  set (step := chunk_step max_tokens overlap) in *.
  set (n := Z.of_nat (length words)) in *.
  destruct (Z_lt_dec i n) as [Hlt|Hge].
  - destruct (Z.ltb_spec i n); [|lia].
    rewrite IH by lia.
    pose proof (window_nonempty words i max_tokens (conj Hi Hlt) Hm) as Hne.
    destruct (py_slice words i (i + max_tokens)) as [|w ws] eqn:Hsl;
      [contradiction|]. clear Hne.
    rewrite length_app. cbn [length].
    destruct (Z.ltb_spec (i + step) n) as [Hin|Hout].
    + replace (n - i - 1) with (n - (i + step) - 1 + 1 * step) by lia.
      rewrite Z.div_add by lia. lia.
    + rewrite (Z.div_small (n - i - 1)) by lia. lia.
  - destruct (Z.ltb_spec i n); lia.
Qed.

(** Extra: for [max_tokens >= 1] the number of chunks is the number of
    steps it takes to pass the last token: none for a text without tokens,
    else [(n - 1) // step + 1] for [n] tokens and
    [step = max(1, max_tokens - overlap)]. *)
Theorem chunk_count
    (text : string) (max_tokens overlap : Z) :
  1 <= max_tokens ->
  Z.of_nat (length (split_into_chunks text max_tokens overlap))
  = match PyStr.split text with
    | [] => 0
    | _ :: _ =>
        (Z.of_nat (length (PyStr.split text)) - 1)
          / chunk_step max_tokens overlap + 1
    end.
Proof.
  intros Hm. unfold split_into_chunks.
  rewrite chunk_loop_count by lia. cbn [length].
  destruct (PyStr.split text) as [|w ws]; [reflexivity|].
  destruct (Z.ltb_spec 0 (Z.of_nat (length (w :: ws)))) as [_|H];
    [|cbn [length] in H; lia].
  rewrite Z.sub_0_r. lia.
Qed.

(** Extra: a text whose tokens fit both the window and the step comes back
    as one chunk, its tokens joined by single blanks. With the defaults
    (420, 60) that is every page of at most 360 tokens. *)
Theorem short_text_is_one_chunk
    (text : string) (max_tokens overlap : Z) :
  PyStr.split text <> [] ->
  Z.of_nat (length (PyStr.split text)) <= max_tokens ->
  Z.of_nat (length (PyStr.split text)) <= chunk_step max_tokens overlap ->
  split_into_chunks text max_tokens overlap
  = [PyStr.join " " (PyStr.split text)].
Proof.
  intros Hne Hm Hs. unfold split_into_chunks.
  set (words := PyStr.split text) in *.
  rewrite chunk_loop_eq.
  destruct (Z_lt_dec 0 (Z.of_nat (length words))) as [Hlt|Hge];
    [|destruct words; [contradiction | cbn [length] in Hge; lia]].
  assert (Hall : py_slice words 0 (0 + max_tokens) = words).
  { rewrite Z.add_0_l, py_slice_prefix by lia. apply firstn_all2. lia. }
  rewrite Hall. destruct words as [|w ws]; [contradiction|].
  rewrite chunk_loop_eq.
  destruct (Z_lt_dec _ _) as [Hlt'|_]; [lia | reflexivity].
Qed.

Lemma chunks_are_windows_witness :
  In "c d e" (split_into_chunks "a b  c d e" 3 1) /\
  exists k : nat,
    "c d e"
    = PyStr.join " "
        (py_slice (PyStr.split "a b  c d e")
           (Z.of_nat k * chunk_step 3 1)
           (Z.of_nat k * chunk_step 3 1 + 3)).
Proof.
  assert (H : In "c d e" (split_into_chunks "a b  c d e" 3 1))
    by (vm_compute; auto).
  split; [exact H|].
  destruct (chunks_are_windows "a b  c d e" 3 1 "c d e" H)
    as (k & _ & Hc & _).
  exists k. exact Hc.
Defined.

Lemma chunk_count_witness :
  Z.of_nat (length (split_into_chunks "a b  c d e" 3 1)) = 3.
Proof.
  rewrite (chunk_count "a b  c d e" 3 1); [reflexivity | lia].
Defined.

Lemma short_text_is_one_chunk_witness :
  split_into_chunks "  a b  c " 420 60 = ["a b c"].
Proof.
  rewrite (short_text_is_one_chunk "  a b  c " 420 60).
  - reflexivity.
  - discriminate.
  - vm_compute. discriminate.
  - vm_compute. discriminate.
Defined.

End ChunkShape.

(** ** Query expansion *)

Section Expansion.

Lemma dedup_seen_spec (xs : list string) :
  forall seen : list string,
    NoDup (dedup_seen seen xs) /\
    (forall x, x ∈ dedup_seen seen xs <-> x ∈ xs /\ x ∉ seen).
Proof.
  induction xs as [|x xs IH]; intros seen; cbn [dedup_seen].
  - split; [constructor|]. intros y. split; [intros H|intros [H _]];
      inversion H.
  - destruct (bool_decide_reflect (x ∈ seen)) as [Hin|Hout].
    + destruct (IH seen) as [Hnd Hiff]. split; [exact Hnd|].
      intros y. rewrite Hiff, elem_of_cons. split; [tauto|].
      intros [[->|Hy] Hs]; [contradiction | tauto].
    + destruct (IH (x :: seen)) as [Hnd Hiff]. split.
      * constructor; [|exact Hnd].
        rewrite Hiff, elem_of_cons. tauto.
      * intros y. rewrite !elem_of_cons, Hiff, elem_of_cons.
        destruct (decide (y = x)) as [->|Hne]; tauto.
Qed.

(** Extra: [_expand_query] never alters the question. It returns it as it
    is, or followed by one blank and a blank-separated list of at least one
    and at most 12 pairwise distinct terms, every one of them from the three
    synonym tables. *)
Theorem expand_query_appends_known_terms (q : string) :
  _expand_query q = q \/
  exists extra : list string,
    _expand_query q = q +:+ " " +:+ PyStr.join " " extra /\
    extra <> [] /\
    (length extra <= 12)%nat /\
    NoDup extra /\
    (forall t, t ∈ extra ->
       t ∈ _TEMP_SYNONYMS ++ _MALARIA_SYNONYMS ++ _DEFERRAL_SYNONYMS).
Proof.
  unfold _expand_query. cbv zeta.
  set (t := if PyStr.any_in _ _ then _TEMP_SYNONYMS else []).
  set (m := if (_ || _)%bool then _MALARIA_SYNONYMS else []).
  set (e := if PyStr.any_in _ _ then _DEFERRAL_SYNONYMS else []).
  destruct (t ++ m ++ e) as [|x xs] eqn:Hx; [left; reflexivity|].
  right. exists (firstn 12 (dedup_seen [] (x :: xs))).
  destruct (dedup_seen_spec (x :: xs) []) as [Hnd Hiff].
  split; [reflexivity|]. split; [|split; [|split]].
  - cbn [dedup_seen]. rewrite bool_decide_eq_false_2 by apply not_elem_of_nil.
    discriminate.
  - rewrite length_firstn. lia.
  - eapply sublist_NoDup; [exact Hnd | apply sublist_take].
  - intros y Hy. apply elem_of_take in Hy as (i & Hy & _).
    apply list_elem_of_lookup_2 in Hy. apply Hiff in Hy as [Hy _].
    rewrite <- Hx in Hy.
    rewrite !elem_of_app in Hy. rewrite !elem_of_app.
    subst t m e.
    destruct Hy as [Hy|[Hy|Hy]];
      [left | right; left | right; right];
      match type of Hy with
      | _ ∈ (if ?b then _ else _) =>
          destruct b; [exact Hy | inversion Hy]
      end.
Qed.

(** Extra: the cut at 12 terms lets the temperature table crowd out the
    others. Whenever a question holds one of the temperature keywords, the
    terms appended are the first 12 of [_TEMP_SYNONYMS], whatever else the
    question is about: the thirteenth ([TGO 109]) and every malaria and
    deferral synonym are dropped. *)
Theorem temperature_terms_crowd_out_the_rest (q : string) :
  PyStr.any_in ["2–8"; "2-8"; "2 to 8"; "refriger"; "cold chain";
                "transport"; "shipping"; "storage"] (PyStr.lower q) = true ->
  _expand_query q
  = q +:+ " " +:+ PyStr.join " " (firstn 12 _TEMP_SYNONYMS).
Proof.
  intros H. unfold _expand_query. cbv zeta. rewrite H.
  destruct (_ || _)%bool, (PyStr.any_in _ _);
    (etransitivity; [|reflexivity]); f_equal; vm_compute; reflexivity.
Qed.

End Expansion.

Lemma temperature_terms_crowd_out_the_rest_witness :
  _expand_query "Malaria deferral for donors after cold chain transport?"
  = "Malaria deferral for donors after cold chain transport?"
    +:+ " " +:+ PyStr.join " " (firstn 12 _TEMP_SYNONYMS).
Proof.
  apply temperature_terms_crowd_out_the_rest. reflexivity.
Defined.

(** ** File names *)

Section ShortName.

Lemma contains_slash_cons (c : ascii) (s : string) :
  PyStr.contains "/" (String c s)
  = (Ascii.eqb "/"%char c || PyStr.contains "/" s)%bool.
Proof.
  cbn [PyStr.contains PyStr.starts_with]. rewrite andb_true_r. reflexivity.
Qed.

Lemma after_last_slash_spec (s : string) :
  exists dir : string,
    s = dir +:+ PyStr.after_last_slash s /\
    PyStr.contains "/" (PyStr.after_last_slash s) = false /\
    (if PyStr.contains "/" s
     then exists d : string, dir = d +:+ "/"
     else dir = EmptyString).
Proof.
  induction s as [|c s IH]; [exists EmptyString; repeat split|].
  cbn [PyStr.after_last_slash]. rewrite contains_slash_cons.
  destruct (PyStr.contains "/" s) eqn:Hs.
  - destruct IH as (dir & Heq & Hno & d & Hd).
    exists (String c dir).
    split.
    { change (String c s = String c (dir +:+ PyStr.after_last_slash s)).
      f_equal. exact Heq. }
    split; [exact Hno|].
    rewrite orb_true_r. exists (String c d).
    change (String c dir = String c (d +:+ "/")). f_equal. exact Hd.
  - rewrite orb_false_r.
    destruct (Ascii.eqb_spec c "/"%char) as [->|Hne].
    + exists "/". split; [reflexivity|]. split; [exact Hs|].
      cbn. exists EmptyString. reflexivity.
    + exists EmptyString. split; [reflexivity|].
      destruct (Ascii.eqb_spec "/"%char c) as [Heq|_]; [congruence|].
      split; [|reflexivity].
      rewrite contains_slash_cons.
      destruct (Ascii.eqb_spec "/"%char c); [congruence | exact Hs].
Qed.

(** Extra: [_short_name] splits a path at its last slash. The path is a
    directory part followed by the name; the name holds no slash; the
    directory part ends with a slash when the path holds one and is empty
    otherwise, in which case the name is the whole path. Applying
    [_short_name] twice changes nothing more. *)
Theorem short_name_splits_at_last_slash (path : string) :
  (exists dir : string,
     path = dir +:+ _short_name path /\
     PyStr.contains "/" (_short_name path) = false /\
     (if PyStr.contains "/" path
      then exists d : string, dir = d +:+ "/"
      else dir = EmptyString /\ _short_name path = path)) /\
  _short_name (_short_name path) = _short_name path.
Proof.
  assert (Hsn : forall p, _short_name p = PyStr.after_last_slash p)
    by (intros [|c p]; reflexivity).
  assert (Hspec : forall p, exists dir : string,
     p = dir +:+ _short_name p /\
     PyStr.contains "/" (_short_name p) = false /\
     (if PyStr.contains "/" p
      then exists d : string, dir = d +:+ "/"
      else dir = EmptyString /\ _short_name p = p)).
  { intros p. rewrite Hsn.
    destruct (after_last_slash_spec p) as (dir & Heq & Hno & Hdir).
    exists dir. split; [exact Heq|]. split; [exact Hno|].
    destruct (PyStr.contains "/" p); [exact Hdir|].
    split; [exact Hdir|]. subst dir. symmetry. exact Heq. }
  split; [apply Hspec|].
  destruct (Hspec path) as (_ & _ & Hno & _).
  destruct (Hspec (_short_name path)) as (dir & _ & _ & H).
  rewrite Hno in H. apply H.
Qed.

End ShortName.

(** ** The dense store: files, caches and reloads *)

Section StoreFrame.
Context {L : Libs}.

Lemma loaded_frame (w : world) :
  same_files w (loaded w) /\ keeps_cache w (loaded w) /\
  prompts (loaded w) = prompts w.
Proof.
  unfold same_files, keeps_cache, loaded, live_index, live_meta.
  destruct w as [ip mp ix mc v ps]. cbn.
  repeat split; intros x ->; reflexivity.
Qed.

Lemma frame_refl (w : world) :
  same_files w w /\ keeps_cache w w /\ prompts w = prompts w.
Proof. unfold same_files, keeps_cache. repeat split; auto. Qed.

Lemma search_frame (qvec : ndarray) (top_k : Z) (w : world) :
  same_files w (search qvec top_k w).1 /\
  keeps_cache w (search qvec top_k w).1 /\
  prompts (search qvec top_k w).1 = prompts w.
Proof.
  rewrite search_eq.
  destruct (unreadable w); [apply frame_refl|].
  destruct (live_index w), (live_meta w); try apply loaded_frame.
  destruct (rows _); apply loaded_frame.
Qed.

Lemma retrieve_frame (question : string) (top_k : Z) (w : world) :
  same_files w (retrieve question top_k w).1 /\
  keeps_cache w (retrieve question top_k w).1 /\
  prompts (retrieve question top_k w).1 = prompts w.
Proof.
  rewrite retrieve_eq.
  destruct (vec w) as [v|]; [|apply frame_refl].
  pose proof (search_frame (tfidf_transform v [_expand_query question])
                (top_k * 2) w) as H.
  destruct (search _ _ w) as [w' [[|h hs]|e]]; exact H.
Qed.

(** Extra: answering writes nothing. [search], [retrieve] and [answer],
    whether they return or raise, leave the index file, the metadata file
    and the vectorizer as they were and keep what the store had cached;
    [search] and [retrieve] send nothing to the generation backend and
    [answer] sends at most one prompt. *)
Theorem queries_write_no_file
    (question : string) (qvec : ndarray) (top_k : Z) (w : world) :
  (same_files w (search qvec top_k w).1 /\
   keeps_cache w (search qvec top_k w).1 /\
   prompts (search qvec top_k w).1 = prompts w) /\
  (same_files w (retrieve question top_k w).1 /\
   keeps_cache w (retrieve question top_k w).1 /\
   prompts (retrieve question top_k w).1 = prompts w) /\
  (same_files w (answer question top_k w).1 /\
   keeps_cache w (answer question top_k w).1 /\
   (prompts (answer question top_k w).1 = prompts w \/
    exists p : string,
      prompts (answer question top_k w).1 = prompts w ++ [p])).
Proof.
  split; [apply search_frame|]. split; [apply retrieve_frame|].
  rewrite answer_eq.
  destruct (retrieve_frame question top_k w) as (Hf & Hc & Hp).
  destruct (retrieve question top_k w) as [w' [[|p ps]|e]]; cbn [fst] in *;
    try (split; [exact Hf|]; split; [exact Hc|]; left; exact Hp).
  split; [exact Hf|]. split; [exact Hc|].
  right. exists (format_prompt question (p :: ps)). cbn. rewrite Hp.
  reflexivity.
Qed.

Lemma retrieve_snd (question : string) (top_k : Z) (w : world) :
  (retrieve question top_k w).2 =
  match vec w with
  | None => Ok []
  | Some v =>
      match (search (tfidf_transform v [_expand_query question])
               (top_k * 2) w).2 with
      | Ok [] => Ok []
      | Ok (h :: hs) => rerank (_expand_query question) top_k (h :: hs)
      | Raise e => Raise e
      end
  end.
Proof.
  rewrite retrieve_eq. destruct (vec w) as [v|]; [|reflexivity].
  destruct (search _ _ w) as [w' [[|h hs]|e]]; reflexivity.
Qed.

Lemma answer_snd (question : string) (top_k : Z) (w : world) :
  (answer question top_k w).2 =
  match (retrieve question top_k w).2 with
  | Ok [] => Ok (no_evidence_record question)
  | Ok (p :: ps) =>
      r ← generate (format_prompt question (p :: ps));
      assemble question (p :: ps) r
  | Raise e => Raise e
  end.
Proof.
  rewrite answer_eq.
  destruct (retrieve question top_k w) as [w' [[|p ps]|e]]; reflexivity.
Qed.

(** What [search] returns is determined by what a reload serves. *)
Lemma search_snd_live (qvec : ndarray) (top_k : Z) (w1 w2 : world) :
  unreadable w1 = unreadable w2 ->
  live_index w1 = live_index w2 ->
  live_meta w1 = live_meta w2 ->
  (search qvec top_k w1).2 = (search qvec top_k w2).2.
Proof.
  intros Hu Hi Hm. rewrite !search_eq, Hu, Hi, Hm.
  destruct (unreadable w2); [reflexivity|].
  destruct (live_index w2), (live_meta w2); try reflexivity.
  destruct (rows _); reflexivity.
Qed.

Lemma answers_follow_search (question : string) (top_k : Z) (w1 w2 : world) :
  vec w1 = vec w2 ->
  (forall qvec k, (search qvec k w1).2 = (search qvec k w2).2) ->
  (retrieve question top_k w1).2 = (retrieve question top_k w2).2 /\
  (answer question top_k w1).2 = (answer question top_k w2).2.
Proof.
  intros Hv Hs.
  assert (Hr : (retrieve question top_k w1).2 = (retrieve question top_k w2).2)
    by (rewrite !retrieve_snd, Hv; destruct (vec w2); [rewrite Hs|];
        reflexivity).
  split; [exact Hr|]. rewrite !answer_snd, Hr. reflexivity.
Qed.

(** Extra: a store that has loaded its index and metadata never looks at
    the files again. Whatever is written to the index directory afterwards,
    [search], [retrieve] and [answer] give what they gave before. *)
Theorem loaded_store_ignores_the_files
    (w : world) (ix : faiss_index) (m : list passage)
    (f : index_file) (g : option (list meta_line))
    (question : string) (qvec : ndarray) (top_k : Z) :
  index w = Some ix ->
  _meta_cache w = Some m ->
  let w' := set_index_path f (set_meta_path g w) in
  (search qvec top_k w').2 = (search qvec top_k w).2 /\
  (retrieve question top_k w').2 = (retrieve question top_k w).2 /\
  (answer question top_k w').2 = (answer question top_k w).2.
Proof.
  intros Hi Hm w'.
  assert (Hs : forall qvec k, (search qvec k w').2 = (search qvec k w).2).
  { intros q k. apply search_snd_live;
      unfold unreadable, live_index, live_meta; subst w'; cbn;
      rewrite ?Hi, ?Hm; reflexivity. }
  split; [apply Hs|].
  apply answers_follow_search; [reflexivity | exact Hs].
Qed.

(** Extra: what [build] writes is what a reload reads. After a successful
    [build], a new store over the same directory gives for every query what
    the store that built the index gives: [search], and [retrieve] and
    [answer] on top of it. *)
Theorem rebuilt_index_reloads
    (vectors : ndarray) (meta : list passage) (w w1 : world)
    (question : string) (qvec : ndarray) (top_k : Z) :
  build vectors meta w = (w1, Ok tt) ->
  (search qvec top_k (new_store w1)).2 = (search qvec top_k w1).2 /\
  (retrieve question top_k (new_store w1)).2 = (retrieve question top_k w1).2 /\
  (answer question top_k (new_store w1)).2 = (answer question top_k w1).2.
Proof.
  unfold build.
  destruct (negb _); [discriminate|].
  run_M. intros [= <-].
  set (w1 := set_meta_cache _ _).
  assert (Hs : forall qvec k,
             (search qvec k (new_store w1)).2 = (search qvec k w1).2).
  { intros q k. apply search_snd_live; subst w1;
      unfold unreadable, live_index, live_meta, new_store; cbn;
      rewrite ?load_rows_map_Row; reflexivity. }
  split; [apply Hs|].
  apply answers_follow_search; [subst w1; reflexivity | exact Hs].
Qed.

(** Extra: on a store whose index and metadata are row-aligned, as [build]
    leaves them, [search] finds a metadata row for every label FAISS
    reports: it returns one copy per label that is no padding, in the order
    of the labels, each the row at that label with the score FAISS gave it.
    No [IndexError] comes from the metadata lookup. *)
Theorem aligned_store_serves_every_label
    (qvec : ndarray) (top_k : Z) (w : world) (ix : faiss_index)
    (q0 : list float) (hits : list (Z * float)) :
  labels_in_range ->
  aligned w ->
  unreadable w = false ->
  live_index w = Some ix ->
  live_meta w <> [] ->
  head (rows (_l2_normalize qvec)) = Some q0 ->
  flat_ip_search ix q0 (Z.min top_k (Z.of_nat (length (live_meta w))))
  = Ok hits ->
  exists out : list passage,
    (search qvec top_k w).2 = Ok out /\
    Forall2 (fun (h : Z * float) (p : passage) =>
               exists m : passage,
                 live_meta w !! Z.to_nat h.1 = Some m /\
                 p = with_score m h.2)
      (found hits) out.
Proof.
  intros Hrange Ha Hu Hix Hne Hq Hhits.
  rewrite search_eq, Hu, Hix.
  unfold aligned in Ha. rewrite Hix in Ha.
  destruct (live_meta w) as [|m ms] eqn:Hm; [contradiction|].
  destruct (rows (_l2_normalize qvec)) as [|q qs]; [discriminate|].
  cbn in Hq. inversion Hq; subst q.
  cbn [snd]. rewrite Hhits. cbn [mbind result_bind].
  apply collect_hits_in_range. rewrite <- Ha.
  eapply Hrange. exact Hhits.
Qed.

End StoreFrame.

Lemma loaded_store_ignores_the_files_witness :
  (search (L := LabStores.quiet) Lab.query 2 LabCache.emptied).2
  = Ok [with_score Lab.p0 1].
Proof.
  transitivity (search (L := LabStores.quiet) Lab.query 2 LabCache.warm).2;
    [|reflexivity].
  refine (proj1
    (loaded_store_ignores_the_files (L := LabStores.quiet) LabCache.warm
       (Lab.unit_index 1) [Lab.p0] IndexMissing None
       "Is plasma export permitted?" Lab.query 2 _ _));
    reflexivity.
Defined.

Lemma rebuilt_index_reloads_witness :
  (search (L := LabStores.quiet) Lab.query 2 (new_store LabCache.built)).2
  = Ok [with_score Lab.p0 1; with_score Lab.p1 0.5].
Proof.
  transitivity (search (L := LabStores.quiet) Lab.query 2 LabCache.built).2;
    [|reflexivity].
  refine (proj1
    (rebuilt_index_reloads (L := LabStores.quiet)
       {| rows := [Lab.ray 1; Lab.ray 0.5]; dim := 2 |} [Lab.p0; Lab.p1]
       LabStores.never_built LabCache.built
       "Is plasma export permitted?" Lab.query 2 _)).
  reflexivity.
Defined.

Lemma aligned_store_serves_every_label_witness :
  exists out : list passage,
    (search (L := LabStores.quiet) Lab.query 5 LabStores.two_rows).2 = Ok out /\
    length out = 2%nat.
Proof.
  destruct
    (aligned_store_serves_every_label (L := LabStores.quiet) Lab.query 5
       LabStores.two_rows (Lab.rays [1%float; 0.5%float])
       [1%float; 0%float] [(0, 1%float); (1, 0.5%float)]
       (lab_labels_in_range Lab.in_order (Raise BackendError))
       eq_refl eq_refl eq_refl ltac:(discriminate) eq_refl eq_refl)
    as (out & Hs & Hf).
  exists out. split; [exact Hs|].
  apply Forall2_length in Hf. rewrite <- Hf. reflexivity.
Defined.

(** ** Retrieval: where the passages come from *)

Section RetrievedRows.
Context {L : Libs}.

Lemma collect_hits_rows (meta : list passage) (hits : list (Z * float))
    (out : list passage) :
  collect_hits meta hits = Ok out ->
  Forall (fun p => exists (m : passage) (sc : float),
                     m ∈ meta /\ p = with_score m sc) out.
Proof.
  revert out. induction hits as [|[i sc] hits IH]; intros out H; simpl in H.
  - inversion H. constructor.
  - destruct (i <? 0); [apply IH; exact H|].
    destruct (meta !! Z.to_nat i) as [m|] eqn:Hm; [|discriminate].
    destruct (collect_hits meta hits) as [out'|e]; [|discriminate].
    cbn in H. inversion H; subst out; clear H.
    constructor; [|apply IH; reflexivity].
    exists m, sc. split; [|reflexivity].
    eapply list_elem_of_lookup_2. exact Hm.
Qed.

Lemma search_rows (qvec : ndarray) (top_k : Z) (w w' : world)
    (out : list passage) :
  search qvec top_k w = (w', Ok out) ->
  Forall (fun p => exists (m : passage) (sc : float),
                     m ∈ live_meta w /\ p = with_score m sc) out.
Proof.
  rewrite search_eq.
  destruct (unreadable w); [discriminate|].
  destruct (live_index w) as [ix|];
    [|intros H; inversion H; constructor].
  destruct (live_meta w) as [|m ms] eqn:Hlm;
    [intros H; inversion H; constructor|].
  destruct (rows (_l2_normalize qvec)) as [|q0 qs]; [discriminate|].
  destruct (flat_ip_search ix q0 _) as [hits|e]; [|discriminate].
  cbn [mbind result_bind]. intros H. inversion H as [[Hw Hc]].
  eapply collect_hits_rows. exact Hc.
Qed.

Lemma rerank_rows (q_expanded : string) (top_k : Z)
    (dense_hits out : list passage) :
  rerank q_expanded top_k dense_hits = Ok out ->
  Forall (fun p => exists (h : passage) (s : float),
                     h ∈ dense_hits /\ p = with_bm25 h s) out.
Proof.
  unfold rerank. intros H. apply rmap_Forall2 in H.
  revert H. generalize (py_slice
       (argsort (map PrimFloat.opp
                   (build_bm25 (map text dense_hits)
                      (PyStr.split (PyStr.lower q_expanded)))))
       0 top_k).
  intros order H. induction H as [|i p order out Hp _ IH]; constructor;
    [|exact IH].
  cbn in Hp. unfold item in Hp.
  destruct (dense_hits !! i) as [h|] eqn:Hh; [|discriminate].
  cbn in Hp. destruct (build_bm25 _ _ !! i) as [s|]; [|discriminate].
  cbn in Hp. inversion Hp. exists h, s. split; [|reflexivity].
  eapply list_elem_of_lookup_2. exact Hh.
Qed.

(** Extra: every passage [retrieve] returns is a row of the store's
    metadata with two keys set, [score] and [_bm25]; document id, version
    hash, page, chunk id, text, source and clause are those of the row.
    Retrieval invents no passage and alters no text. *)
Theorem retrieve_returns_store_rows
    (question : string) (top_k : Z) (w w' : world) (out : list passage) :
  retrieve question top_k w = (w', Ok out) ->
  Forall (fun p =>
            exists (m : passage) (sc s : float),
              m ∈ live_meta w /\
              p = with_bm25 (with_score m sc) s /\
              text p = text m /\ source p = source m /\ page p = page m /\
              clause p = clause m /\ chunk_key p = chunk_key m)
    out.
Proof.
  rewrite retrieve_eq.
  destruct (vec w) as [v|]; [|intros H; inversion H; constructor].
  destruct (search _ _ w) as [w1 [[|h hs]|e]] eqn:Hs;
    [intros H; inversion H; constructor | | discriminate].
  intros H. inversion H as [[Hw Hr]]. clear H.
  apply search_rows in Hs. apply rerank_rows in Hr.
  rewrite Forall_forall in Hs. eapply Forall_impl; [exact Hr|].
  intros p (h' & s & Hin & ->). cbn beta.
  destruct (Hs h' Hin) as (m & sc & Hm & ->).
  exists m, sc, s. repeat split. exact Hm.
Qed.

End RetrievedRows.

Lemma retrieve_returns_store_rows_witness :
  Forall (fun p => exists m : passage,
                     m ∈ [Lab.p0; Lab.p1] /\ text p = text m)
    [with_bm25 (with_score Lab.p0 1) 0; with_bm25 (with_score Lab.p1 0.5) 0].
Proof.
  eapply Forall_impl.
  - apply (retrieve_returns_store_rows (L := LabStores.quiet)
             "Is plasma export permitted?" 2 LabStores.two_rows
             (loaded LabStores.two_rows)).
    vm_compute. reflexivity.
  - intros p (m & _ & _ & Hm & _ & Ht & _). exists m.
    split; [exact Hm | exact Ht].
Defined.

(** ** The manifest: what is loaded and what is counted *)

Section ManifestMore.
Context {E : Env}.





End ManifestMore.


(** ** The chunk records of a run *)

Section Numerals.

Lemma uint_digits (d : Decimal.uint) :
  Forall digit (list_ascii_of_string (NilEmpty.string_of_uint d)).
Proof.
  induction d; cbn [NilEmpty.string_of_uint list_ascii_of_string];
    constructor; try exact IHd; unfold digit; cbn; tauto.
Qed.

Lemma str_of_nat_digits (i : nat) :
  Forall digit (list_ascii_of_string (str_of_int (Z.of_nat i))).
Proof.
  unfold str_of_int.
  destruct (Z.of_nat i) as [|p|p] eqn:Hi; [| |lia].
  - exact (uint_digits (Decimal.D0 Decimal.Nil)).
  - cbn [Z.to_int NilZero.string_of_int NilZero.string_of_uint].
    pose proof (DecimalPos.Unsigned.to_uint_nonnil p) as Hn.
    destruct (Pos.to_uint p) eqn:Hp; [contradiction| ..];
      cbn [NilZero.string_of_uint]; apply uint_digits.
Qed.

Lemma str_of_int_inj (a b : Z) : str_of_int a = str_of_int b -> a = b.
Proof.
  unfold str_of_int. intros H.
  assert (Hisi : forall n, NilZero.int_of_string
                             (NilZero.string_of_int (Z.to_int n))
                           = Some (Z.to_int n)).
  { intros n. apply NilZero.isi; destruct n as [|p|p]; cbn;
      try discriminate; intros [= Hp];
      exact (DecimalPos.Unsigned.to_uint_nonnil p Hp). }
  apply DecimalZ.to_int_inj.
  pose proof (Hisi a) as Ha. rewrite H, Hisi in Ha. congruence.
Qed.

Lemma dash_not_digit : ~ digit "-"%char.
Proof. unfold digit. cbn. intuition discriminate. Qed.

Lemma append_empty (s : string) : EmptyString +:+ s = s.
Proof. reflexivity. Qed.

Lemma append_String (c : ascii) (s t : string) :
  String c s +:+ t = String c (s +:+ t).
Proof. reflexivity. Qed.

Lemma digits_hold_no_dash (t : string) :
  forall z u : string,
    Forall digit (list_ascii_of_string z) -> z <> t +:+ "-" +:+ u.
Proof.
  induction t as [|c t IH]; intros z u Hz ->.
  - rewrite append_empty, append_String in Hz.
    cbn [list_ascii_of_string] in Hz.
    inversion Hz as [|? ? Hd _]. exact (dash_not_digit Hd).
  - rewrite append_String in Hz. cbn [list_ascii_of_string] in Hz.
    inversion Hz as [|? ? _ Hrest].
    eapply IH; [exact Hrest | reflexivity].
Qed.

(** A text that ends in a dash and a numeral is cut in one way only. *)
Lemma dash_split_inj (x x' y y' : string) :
  Forall digit (list_ascii_of_string y) ->
  Forall digit (list_ascii_of_string y') ->
  x +:+ "-" +:+ y = x' +:+ "-" +:+ y' ->
  x = x' /\ y = y'.
Proof.
  intros Hy Hy'. revert x'.
  induction x as [|c x IH]; intros [|c' x'] H;
    rewrite ?append_empty, ?append_String in H.
  - injection H as H. split; [reflexivity | exact H].
  - injection H as Hc Hrest. exfalso.
    eapply digits_hold_no_dash; [exact Hy | exact Hrest].
  - injection H as Hc Hrest. exfalso.
    eapply digits_hold_no_dash; [exact Hy' | symmetry; exact Hrest].
  - injection H as Hc Hrest.
    destruct (IH x' Hrest) as [-> ->]. subst c'. split; reflexivity.
Qed.

Lemma chunk_id_inj (pg pg' : Z) (i i' : nat) :
  str_of_int pg +:+ "-" +:+ str_of_int (Z.of_nat i)
  = str_of_int pg' +:+ "-" +:+ str_of_int (Z.of_nat i') ->
  pg = pg' /\ i = i'.
Proof.
  intros H.
  apply dash_split_inj in H as [Hp Hi]; try apply str_of_nat_digits.
  apply str_of_int_inj in Hp, Hi. split; lia.
Qed.

End Numerals.

Section Records.
Context {E : Env}.
Variable guess_clause_label : string -> option string.

Lemma newest_in (rest : list version) :
  forall best : version, In (newest best rest) (best :: rest).
Proof.
  induction rest as [|v rest IH]; intros best; cbn [newest];
    [left; reflexivity|].
  destruct (String.ltb _ _).
  - right. apply IH.
  - destruct (IH best) as [H|H]; [left; exact H | right; right; exact H].
Qed.

Lemma newest_last (new : version) (rest : list version) :
  forall best : version,
    (forall v, In v (best :: rest) ->
       String.ltb (v_created_at v) (v_created_at new) = true) ->
    newest best (rest ++ [new]) = new.
Proof.
  induction rest as [|v rest IH]; intros best H; cbn [newest app].
  - rewrite (H best) by (left; reflexivity). reflexivity.
  - destruct (String.ltb _ _); apply IH; intros x [<-|Hx]; apply H;
      cbn; auto.
Qed.

Lemma odict_mem_nonempty {V : Type} (k : string) (d : list (string * V)) :
  odict_mem k d = true -> d <> [].
Proof. intros H ->. discriminate. Qed.

Lemma source_records_eq (manifest : gmap string (list (string * version)))
    (s : source_item) (now : string) :
  exists v : version,
    latest (map snd (default [] (manifest !! item_id s))
            ++ (if negb (odict_mem (item_hash s)
                           (default [] (manifest !! item_id s)))
                then [rec_version s (item_hash s) now] else []))
    = Ok v /\
    source_records guess_clause_label manifest s now
    = Ok (flat_map
            (page_records guess_clause_label (item_id s) (v_version_hash v))
            (if negb (String.eqb (v_version_hash v) (item_hash s))
             then reread s v else item_pages s)).
Proof.
  unfold source_records, item_hash. cbv zeta.
  set (old := default [] (manifest !! item_id s)).
  set (vhash := sha256_text (full_text (item_pages s))).
  destruct (map snd old ++ _) as [|v0 rest] eqn:Hv.
  - exfalso. destruct (odict_mem vhash old) eqn:Hk; cbn [negb] in Hv.
    + apply odict_mem_nonempty in Hk. destruct old; [congruence|discriminate].
    + destruct (map snd old); discriminate.
  - exists (newest v0 rest). split; reflexivity.
Qed.

Lemma page_records_spec (doc vhash : string) (pg : Z * string) (r : passage) :
  r ∈ page_records guess_clause_label doc vhash pg ->
  exists (i : nat) (chunk : string),
    split_into_chunks pg.2 420 60 !! i = Some chunk /\
    doc_id r = doc /\ source r = doc /\ version_hash r = vhash /\
    page r = pg.1 /\ text r = chunk /\
    chunk_id r = str_of_int pg.1 +:+ "-" +:+ str_of_int (Z.of_nat i) /\
    clause r = guess_clause_label chunk /\
    score r = None /\ _bm25 r = None.
Proof.
  unfold page_records. intros H.
  apply elem_of_lookup_imap_1 in H as (i & chunk & -> & Hi).
  exists i, chunk. cbn. repeat split. exact Hi.
Qed.


Lemma page_ids_NoDup (doc vhash : string) (pages : list (Z * string)) :
  NoDup (map fst pages) ->
  NoDup (map chunk_id
           (flat_map (page_records guess_clause_label doc vhash) pages)).
Proof.
  induction pages as [|pg pages IH]; intros Hnd; [constructor|].
  cbn [flat_map map] in *. rewrite map_app.
  apply NoDup_cons in Hnd as [Hpg Hnd].
  apply NoDup_app. split; [|split; [|apply IH; exact Hnd]].
  - apply NoDup_alt. intros i j x Hi Hj.
    rewrite list_lookup_fmap in Hi, Hj. 
    unfold page_records in Hi, Hj.
    rewrite list_lookup_imap in Hi, Hj.
    destruct (split_into_chunks pg.2 420 60 !! i); [|discriminate].
    destruct (split_into_chunks pg.2 420 60 !! j); [|discriminate].
    cbn in Hi, Hj. rewrite <- Hj in Hi. inversion Hi as [Hid].
    apply chunk_id_inj in Hid as [_ Hij]. exact Hij.
  - intros x Hx Hx'.
    apply list_elem_of_fmap in Hx as (r & -> & Hr).
    apply list_elem_of_fmap in Hx' as (r' & Heq & Hr').
    apply page_records_spec in Hr as (i & c & _ & _ & _ & _ & Hp & _ & Hc & _).
    apply list_elem_of_In, in_flat_map in Hr' as (pg' & Hpg' & Hr').
    apply list_elem_of_In, page_records_spec in Hr'
      as (i' & c' & _ & _ & _ & _ & Hp' & _ & Hc' & _).
    rewrite Hc, Hc' in Heq. apply chunk_id_inj in Heq as [Heq _].
    apply Hpg. rewrite Heq. apply list_elem_of_In, in_map. exact Hpg'.
Qed.

Lemma scan_records_docs (manifest : gmap string (list (string * version)))
    (sources : list source_item) :
  forall (st : ingest_state) (recs : list passage),
    scan_records guess_clause_label manifest sources st = Ok recs ->
    Forall (fun r => In (doc_id r) (map item_id sources)) recs.
Proof.
  induction sources as [|s sources IH]; intros st recs H; cbn in H.
  - inversion H. constructor.
  - destruct (source_records_eq manifest s (now_iso_at (clock st)))
      as (v & _ & Hs).
    rewrite Hs in H. cbn in H.
    destruct (scan_records guess_clause_label manifest sources _)
      as [more|e] eqn:Hm;
      [|discriminate].
    cbn in H. inversion H; subst recs. apply Forall_app. split.
    + apply Forall_forall. intros r Hr.
      apply list_elem_of_In, in_flat_map in Hr as (pg & _ & Hr).
      apply list_elem_of_In, page_records_spec in Hr as (_ & _ & _ & Hd & _).
      left. symmetry. exact Hd.
    + eapply Forall_impl; [eapply IH; exact Hm|]. intros r Hr. right.
      exact Hr.
Qed.

(** Extra: the chunk records of a run are pairwise distinct in their
    [(doc_id, version_hash, chunk_id)], and so are the rows of the metadata
    built from them, provided no source is listed twice and the readers
    number the pages of a document without repetition. *)
Theorem scan_records_keys_distinct
    (manifest : gmap string (list (string * version)))
    (sources : list source_item) (st : ingest_state) (recs : list passage) :
  NoDup (map item_id sources) ->
  pages_numbered_once ->
  scan_records guess_clause_label manifest sources st = Ok recs ->
  NoDup (map chunk_key recs).
Proof.
  intros Hsrc [Hfile Hweb]. revert st recs.
  induction sources as [|s sources IH]; intros st recs H; cbn in H.
  - inversion H. constructor.
  - apply NoDup_cons in Hsrc as [Hs Hsrc].
    destruct (source_records_eq manifest s (now_iso_at (clock st)))
      as (v & _ & Heq).
    rewrite Heq in H. cbn in H.
    destruct (scan_records guess_clause_label manifest sources _)
      as [more|e] eqn:Hm;
      [|discriminate].
    cbn in H. inversion H; subst recs. clear H.
    rewrite map_app. apply NoDup_app. split; [|split].
    + set (pages := if negb _ then _ else _).
      assert (Hpages : NoDup (map fst pages)).
      { subst pages. destruct (negb _); destruct s; cbn;
          [apply Hfile | apply Hweb | apply Hfile | apply Hweb]. }
      pose proof (page_ids_NoDup (item_id s) (v_version_hash v) pages Hpages)
        as Hids.
      eapply (NoDup_fmap_1 (fun k : string * string * string => k.2)).
      rewrite <- list_fmap_compose. exact Hids.
    + intros k Hk Hk'.
      apply list_elem_of_fmap in Hk as (r & -> & Hr).
      apply list_elem_of_fmap in Hk' as (r' & Hkey & Hr').
      apply list_elem_of_In, in_flat_map in Hr as (pg & _ & Hr).
      apply list_elem_of_In, page_records_spec in Hr as (_ & _ & _ & Hd & _).
      pose proof (scan_records_docs manifest sources _ _ Hm) as Hdocs.
      rewrite Forall_forall in Hdocs. apply Hdocs in Hr'.
      apply Hs. apply list_elem_of_In.
      replace (item_id s) with (doc_id r'); [exact Hr'|].
      rewrite <- Hd. unfold chunk_key in Hkey. congruence.
    + eapply IH; [exact Hsrc | exact Hm].
Qed.

(** Extra: a version that is new and stamped later than every version the
    manifest holds for the document is the latest one: the chunks written
    are those of the pages just read, under the hash of their text. *)
Theorem new_version_is_indexed_under_its_hash
    (manifest : gmap string (list (string * version)))
    (s : source_item) (now : string) :
  odict_mem (item_hash s) (default [] (manifest !! item_id s)) = false ->
  Forall (fun kv : string * version =>
            String.ltb (v_created_at kv.2) now = true)
    (default [] (manifest !! item_id s)) ->
  source_records guess_clause_label manifest s now
  = Ok (flat_map (page_records guess_clause_label (item_id s) (item_hash s))
          (item_pages s)).
Proof.
  intros Hnew Hlater.
  destruct (source_records_eq manifest s now) as (v & Hv & ->).
  rewrite Hnew in Hv. cbn [negb] in Hv.
  assert (v = rec_version s (item_hash s) now) as ->.
  { destruct (default [] (manifest !! item_id s)) as [|kv old];
      cbn in Hv; [congruence|].
    inversion Hv as [Hn]. apply newest_last.
    intros x Hx.
    replace (v_created_at (rec_version s (item_hash s) now)) with now
      by (destruct s; reflexivity).
    change (In x (map snd (kv :: old))) in Hx.
    apply in_map_iff in Hx as (kv' & <- & Hin).
    rewrite Forall_forall in Hlater. apply Hlater.
    apply list_elem_of_In. exact Hin. }
  replace (v_version_hash (rec_version s (item_hash s) now))
    with (item_hash s) by (destruct s; reflexivity).
  rewrite String.eqb_refl. reflexivity.
Qed.

(** Extra: when the text read from a file has a hash the manifest holds,
    but another version of the document is the latest and its path is this
    file, the file is read again and the chunks of its current text are
    written under the hash of that other version: the [version_hash] of the
    records is not the hash of the text they were cut from. *)
Theorem reverted_file_is_indexed_under_another_hash
    (manifest : gmap string (list (string * version)))
    (path now : string) (v : version) :
  odict_mem (item_hash (FileItem path))
    (default [] (manifest !! basename path)) = true ->
  latest (map snd (default [] (manifest !! basename path))) = Ok v ->
  v_version_hash v <> item_hash (FileItem path) ->
  v_path v = path ->
  source_records guess_clause_label manifest (FileItem path) now
  = Ok (flat_map
          (page_records guess_clause_label (basename path) (v_version_hash v))
          (_read_local_file path)) /\
  v_version_hash v <> sha256_text (full_text (_read_local_file path)).
Proof.
  intros Hheld Hv Hne Hpath. split; [|exact Hne].
  destruct (source_records_eq manifest (FileItem path) now)
    as (v' & Hv' & ->).
  cbn [item_id] in Hv'. rewrite Hheld in Hv'. cbn [negb] in Hv'.
  rewrite app_nil_r, Hv in Hv'. inversion Hv'; subst v'.
  destruct (String.eqb_spec (v_version_hash v) (item_hash (FileItem path)))
    as [Heq|_]; [contradiction|].
  cbn [negb reread item_id]. rewrite Hpath. reflexivity.
Qed.

End Records.

Lemma lab_pages_numbered_once : pages_numbered_once (E := LabIngest.env).
Proof.
  split; intros x; cbn; [apply NoDup_singleton | constructor].
Qed.

Lemma lab_shelf_numbered_once : pages_numbered_once (E := LabRecords.shelf).
Proof.
  split; intros x; cbn; [|constructor].
  destruct (String.eqb x "data/raw/a.txt"); cbn.
  - constructor; [|apply NoDup_singleton].
    intros H. apply list_elem_of_singleton in H. discriminate H.
  - apply NoDup_singleton.
Qed.

(** Two files, three pages, four chunks: the two chunks of a long page
    differ in their index, the chunks of two pages in the page number, and
    those of two files in the document id. *)
Lemma scan_records_keys_distinct_witness :
  exists recs : list passage,
    scan_records (E := LabRecords.shelf) LabRecords.no_clause ∅
      LabRecords.shelf_sources LabIngest.before = Ok recs /\
    map (fun r => (doc_id r, chunk_id r)) recs
    = [("a.txt", "1-0"); ("a.txt", "1-1"); ("a.txt", "2-0");
       ("b.txt", "1-0")] /\
    NoDup (map chunk_key recs).
Proof.
  eexists. split; [vm_compute; reflexivity|]. split; [reflexivity|].
  apply (scan_records_keys_distinct (E := LabRecords.shelf)
           LabRecords.no_clause ∅ LabRecords.shelf_sources LabIngest.before).
  - cbn. constructor; [|apply NoDup_singleton].
    intros H. apply list_elem_of_singleton in H. discriminate H.
  - exact lab_shelf_numbered_once.
  - vm_compute. reflexivity.
Defined.

Lemma new_version_is_indexed_under_its_hash_witness :
  source_records (E := LabIngest.env) LabRecords.no_clause
    LabRecords.changed_once
    (FileItem "data/raw/tgo109.txt") "2025-03-01T00:00:00+00:00"
  = Ok (flat_map
          (page_records LabRecords.no_clause "tgo109.txt"
             "sha256:Section 5 requires storage at 2-8 C.")
          [(1, "Section 5 requires storage at 2-8 C.")]).
Proof.
  apply (new_version_is_indexed_under_its_hash (E := LabIngest.env)
           LabRecords.no_clause LabRecords.changed_once
           (FileItem "data/raw/tgo109.txt")).
  - vm_compute. reflexivity.
  - vm_compute. constructor; [reflexivity | constructor].
Defined.

Lemma reverted_file_is_indexed_under_another_hash_witness :
  source_records (E := LabIngest.env) LabRecords.no_clause LabRecords.reverted
    (FileItem "data/raw/tgo109.txt") "2025-03-01T00:00:00+00:00"
  = Ok (flat_map
          (page_records LabRecords.no_clause "tgo109.txt"
             "sha256:Section 5 requires storage at 2-6 C.")
          [(1, "Section 5 requires storage at 2-8 C.")]).
Proof.
  refine (proj1
    (reverted_file_is_indexed_under_another_hash (E := LabIngest.env)
       LabRecords.no_clause LabRecords.reverted "data/raw/tgo109.txt"
       "2025-03-01T00:00:00+00:00" LabRecords.second_version _ _ _ _)).
  - vm_compute. reflexivity.
  - vm_compute. reflexivity.
  - discriminate.
  - reflexivity.
Defined.

(** ** The answers that use no model *)

Section Lengths.

Lemma len_nonneg (s : string) : 0 <= PyStr.len s.
Proof.
  induction s as [|c s IH]; cbn [PyStr.len]; [lia|].
  destruct (PyStr.is_cont c); lia.
Qed.

Lemma len_append (a b : string) :
  PyStr.len (a +:+ b) = PyStr.len a + PyStr.len b.
Proof.
  induction a as [|c a IH]; [reflexivity|].
  rewrite append_String. cbn [PyStr.len]. rewrite IH. lia.
Qed.

Lemma len_take (n : nat) (s : string) :
  PyStr.len (PyStr.take n s) <= Z.of_nat n.
Proof.
  revert n. induction s as [|c s IH]; intros n; cbn [PyStr.take PyStr.len];
    [lia|].
  destruct (PyStr.is_cont c) eqn:Hc.
  - cbn [PyStr.len]. rewrite Hc. specialize (IH n). lia.
  - destruct n as [|k]; cbn [PyStr.len]; [lia|].
    rewrite Hc. specialize (IH k). lia.
Qed.

Lemma len_rstrip (chars : list ascii) (s : string) :
  PyStr.len (str_rstrip chars s) <= PyStr.len s.
Proof.
  induction s as [|c s IH]; cbn [str_rstrip PyStr.len]; [lia|].
  pose proof (len_nonneg s) as Hs.
  destruct (str_rstrip chars s) as [|c' r] eqn:Hr.
  - destruct (existsb _ chars); cbn [PyStr.len] in *;
      destruct (PyStr.is_cont c); lia.
  - cbn [PyStr.len] in *. lia.
Qed.

Lemma short_len (s : string) (n : nat) :
  PyStr.len (_short s n) <= Z.of_nat n + 2.
Proof.
  unfold _short. cbv zeta.
  destruct (Z.leb_spec (PyStr.len (PyStr.join " " (PyStr.split s)))
              (Z.of_nat n)) as [Hfit|Hlong]; [lia|].
  rewrite len_append. replace (PyStr.len " …") with 2 by reflexivity.
  pose proof (len_rstrip (list_ascii_of_string " ,;:.")
                (PyStr.take n (PyStr.join " " (PyStr.split s)))).
  pose proof (len_take n (PyStr.join " " (PyStr.split s))).
  lia.
Qed.

(** Extra: [_short(s, n)] returns the text with its whitespace runs
    collapsed when that has at most [n] characters, and otherwise a cut of
    at most [n] characters followed by a blank and an ellipsis: never more
    than [n + 2] characters. *)
Theorem short_is_bounded (s : string) (n : nat) :
  PyStr.len (_short s n) <= Z.of_nat n + 2 /\
  (_short s n = PyStr.join " " (PyStr.split s) /\
   PyStr.len (_short s n) <= Z.of_nat n
   \/
   Z.of_nat n < PyStr.len (PyStr.join " " (PyStr.split s)) /\
   exists cut : string,
     _short s n = cut +:+ " …" /\ PyStr.len cut <= Z.of_nat n).
Proof.
  unfold _short. cbv zeta.
  set (t := PyStr.join " " (PyStr.split s)).
  destruct (Z.leb_spec (PyStr.len t) (Z.of_nat n)) as [Hfit|Hlong].
  - split; [lia|]. left. split; [reflexivity | exact Hfit].
  - set (cut := str_rstrip _ (PyStr.take n t)).
    assert (Hcut : PyStr.len cut <= Z.of_nat n).
    { subst cut. etransitivity; [apply len_rstrip | apply len_take]. }
    split.
    + rewrite len_append.
      replace (PyStr.len " …") with 2 by reflexivity. lia.
    + right. split; [exact Hlong|]. exists cut. split; [reflexivity|exact Hcut].
Qed.

End Lengths.

Section DeterministicAnswers.
Context {L : Libs}.

Lemma answer_exact_eq (question : string) (top_k : Z) (w : world) :
  answer_exact question top_k w =
  match retrieve question top_k w with
  | (w', Ok []) => (w', Ok EXACT_NOTHING)
  | (w', Ok (p :: ps)) => (w', Ok (exact_text (p :: ps)))
  | (w', Raise e) => (w', Raise e)
  end.
Proof.
  unfold answer_exact. unfold mbind, M_bind.
  destruct (retrieve question top_k w) as [w' [[|p ps]|e]]; reflexivity.
Qed.

Lemma answer_concise_eq (question : string) (top_k : Z) (w : world) :
  answer_concise question top_k w =
  match retrieve question top_k w with
  | (w', Ok []) => (w', Ok CONCISE_NOTHING)
  | (w', Ok (p :: ps)) => (w', Ok (concise_text p (p :: ps)))
  | (w', Raise e) => (w', Raise e)
  end.
Proof.
  unfold answer_concise. unfold mbind, M_bind.
  destruct (retrieve question top_k w) as [w' [[|p ps]|e]]; reflexivity.
Qed.

(** Extra: [answer_exact] and [answer_concise] are retrieval and nothing
    else. They leave the store as [retrieve] leaves it, so they send
    nothing to the generation backend and write no file; they raise exactly
    when [retrieve] raises, with its error; and on an empty retrieval each
    returns its fixed message. *)
Theorem exact_and_concise_use_no_backend
    (question : string) (top_k : Z) (w : world) :
  (answer_exact question top_k w).1 = (retrieve question top_k w).1 /\
  (answer_concise question top_k w).1 = (retrieve question top_k w).1 /\
  prompts (answer_exact question top_k w).1 = prompts w /\
  prompts (answer_concise question top_k w).1 = prompts w /\
  (forall e : exn,
     (retrieve question top_k w).2 = Raise e <->
     (answer_exact question top_k w).2 = Raise e) /\
  (forall e : exn,
     (retrieve question top_k w).2 = Raise e <->
     (answer_concise question top_k w).2 = Raise e) /\
  ((retrieve question top_k w).2 = Ok [] ->
   (answer_exact question top_k w).2 = Ok EXACT_NOTHING /\
   (answer_concise question top_k w).2 = Ok CONCISE_NOTHING).
Proof.
  rewrite answer_exact_eq, answer_concise_eq.
  pose proof (retrieve_prompts question top_k w) as Hp.
  destruct (retrieve question top_k w) as [w' [[|p ps]|e]]; cbn [fst snd] in *;
    repeat split; try exact Hp; try discriminate; auto;
    intros [= ->]; reflexivity.
Qed.

Lemma exact_keys_spec (passages : list passage) :
  forall seen : list (string * string),
    NoDup (exact_keys seen passages) /\
    (length (exact_keys seen passages) <= length passages)%nat /\
    (forall k, k ∈ exact_keys seen passages ->
       (k ∉ seen) /\
       exists p, p ∈ passages /\ k = (_short (text p) 360, _cite_label p)).
Proof.
  induction passages as [|p ps IH]; intros seen; cbn [exact_keys].
  - split; [constructor|]. split; [cbn; lia|]. intros k Hk. inversion Hk.
  - cbv zeta. set (key := (_short (text p) 360, _cite_label p)).
    destruct (bool_decide_reflect (key ∈ seen)) as [Hin|Hout].
    + destruct (IH seen) as (Hnd & Hlen & Hk). split; [exact Hnd|].
      split; [cbn [length]; lia|].
      intros k Hkin. destruct (Hk k Hkin) as (Hs & q & Hq & Heq).
      split; [exact Hs|]. exists q. split; [right; exact Hq | exact Heq].
    + destruct (IH (key :: seen)) as (Hnd & Hlen & Hk). split; [|split].
      * constructor; [|exact Hnd]. intros Hkin.
        destruct (Hk key Hkin) as (Hs & _). apply Hs. left.
      * cbn [length]. lia.
      * intros k Hkin. apply elem_of_cons in Hkin as [->|Hkin].
        -- split; [exact Hout|]. exists p. split; [left | reflexivity].
        -- destruct (Hk k Hkin) as (Hs & q & Hq & Heq).
           split; [intros Hks; apply Hs; right; exact Hks|].
           exists q. split; [right; exact Hq | exact Heq].
Qed.

(** Extra: on a non-empty retrieval [answer_exact] returns its heading, one
    bullet line per pair of shortened text and citation label, and the
    closing line. The pairs listed are pairwise distinct, each comes from a
    retrieved passage, every text has at most 362 characters, and there are
    at least one and at most 8 bullets, never more than passages. *)
Theorem answer_exact_lists_distinct_bullets
    (question : string) (top_k : Z) (w w' : world)
    (p : passage) (ps : list passage) :
  retrieve question top_k w = (w', Ok (p :: ps)) ->
  exists keys : list (string * string),
    answer_exact question top_k w
    = (w', Ok ("Exact clauses & citations (review before use):" +:+ nl +:+ nl
               +:+ PyStr.join nl (map bullet keys)
               +:+ nl +:+ nl +:+ "Human supervision required.")) /\
    NoDup keys /\
    (1 <= length keys <= 8)%nat /\
    (length keys <= length (p :: ps))%nat /\
    Forall (fun k =>
              PyStr.len k.1 <= 362 /\
              exists q, q ∈ p :: ps /\
                        k = (_short (text q) 360, _cite_label q))
      keys.
Proof.
  intros Hr. rewrite answer_exact_eq, Hr.
  destruct (exact_keys_spec (p :: ps) []) as (Hnd & Hlen & Hk).
  exists (firstn 8 (exact_keys [] (p :: ps))).
  split; [|split; [|split; [|split]]].
  - unfold exact_text. rewrite py_slice_prefix by lia.
    change (Z.to_nat 8) with 8%nat. rewrite <- firstn_map. reflexivity.
  - eapply sublist_NoDup; [exact Hnd | apply sublist_take].
  - rewrite length_firstn. split; [|lia].
    cbn [exact_keys]. rewrite bool_decide_eq_false_2 by apply not_elem_of_nil.
    cbn [length]. lia.
  - rewrite length_firstn. lia.
  - apply Forall_forall. intros k Hkin.
    apply elem_of_take in Hkin as (i & Hkin & _).
    apply list_elem_of_lookup_2 in Hkin.
    destruct (Hk k Hkin) as (_ & q & Hq & ->). split.
    + cbn [fst]. pose proof (short_len (text q) 360). lia.
    + exists q. split; [exact Hq | reflexivity].
Qed.

Lemma concise_loop_spec (passages : list passage) :
  forall snippets cites : list string,
    NoDup snippets ->
    NoDup (concise_loop snippets cites passages).1 /\
    (snippets <> [] \/ passages <> [] ->
     (concise_loop snippets cites passages).1 <> []) /\
    (concise_loop snippets cites passages).2
    = cites ++ map _cite_label passages /\
    (forall t, t ∈ (concise_loop snippets cites passages).1 ->
       t ∈ snippets \/ exists p, p ∈ passages /\ t = snippet p).
Proof.
  induction passages as [|p ps IH]; intros snippets cites Hnd;
    cbn [concise_loop].
  - cbn [fst snd map]. rewrite app_nil_r.
    split; [exact Hnd|]. split; [intros [H|H]; [exact H | contradiction]|].
    split; [reflexivity|]. intros t Ht. left. exact Ht.
  - cbv zeta.
    set (sn := if bool_decide (snippet p ∈ snippets) then snippets
               else snippets ++ [snippet p]).
    assert (Hsn : NoDup sn /\ sn <> [] /\
                  forall t, t ∈ sn -> t ∈ snippets \/ t = snippet p).
    { subst sn. destruct (bool_decide_reflect (snippet p ∈ snippets)) as [Hi|Ho].
      - split; [exact Hnd|]. split; [intros ->; inversion Hi|].
        intros t Ht. left. exact Ht.
      - split; [|split].
        + apply NoDup_app. split; [exact Hnd|]. split; [|apply NoDup_singleton].
          intros x Hx Hx'. apply list_elem_of_singleton in Hx'. subst x.
          contradiction.
        + destruct snippets; discriminate.
        + intros t Ht. apply elem_of_app in Ht as [Ht|Ht]; [left; exact Ht|].
          apply list_elem_of_singleton in Ht. right. exact Ht. }
    destruct Hsn as (Hnd' & Hne & Hin).
    destruct (IH sn (cites ++ [_cite_label p]) Hnd') as (H1 & H2 & H3 & H4).
    split; [exact H1|]. split; [intros _; apply H2; left; exact Hne|].
    split; [rewrite H3, <- app_assoc; reflexivity|].
    intros t Ht. destruct (H4 t Ht) as [Hs|(q & Hq & Heq)].
    + destruct (Hin t Hs) as [Hs'|Hs']; [left; exact Hs'|].
      right. exists p. split; [left | exact Hs'].
    + right. exists q. split; [right; exact Hq | exact Heq].
Qed.

Lemma verdict_cases (first : string) :
  verdict first = "Not compliant (likely)" \/
  verdict first = "Possibly compliant (depends on specifics)" \/
  verdict first = "Unclear".
Proof.
  unfold verdict. destruct (PyStr.any_in _ first); [auto|].
  destruct (PyStr.any_in _ first); auto.
Qed.

Lemma snippet_len (p : passage) : PyStr.len (snippet p) <= 181.
Proof.
  unfold snippet. rewrite len_append.
  replace (PyStr.len ".") with 1 by reflexivity.
  pose proof (len_rstrip (list_ascii_of_string " ,;:")
                (PyStr.take 180 (PyStr.join " " (PyStr.split (text p))))).
  pose proof (len_take 180 (PyStr.join " " (PyStr.split (text p)))).
  lia.
Qed.

(** Extra: on a non-empty retrieval [answer_concise] returns one of its
    three verdicts, none of which is a plain [Compliant], followed by one or
    two snippets, the citation labels and the request for human
    supervision. The snippets are distinct, each is the start of one of the
    first four passages, at most 181 characters long, and the labels are
    those of the first four passages, each listed once. *)
Theorem answer_concise_shape
    (question : string) (top_k : Z) (w w' : world)
    (p : passage) (ps : list passage) :
  retrieve question top_k w = (w', Ok (p :: ps)) ->
  exists (v : string) (snippets cites : list string),
    answer_concise question top_k w
    = (w', Ok (v +:+ ": " +:+ PyStr.join " " snippets
               +:+ " [Citations: " +:+ PyStr.join "; " cites
               +:+ "]. Human supervision required.")) /\
    (v = "Not compliant (likely)" \/
     v = "Possibly compliant (depends on specifics)" \/
     v = "Unclear") /\
    (1 <= length snippets <= 2)%nat /\
    NoDup snippets /\
    Forall (fun t => PyStr.len t <= 181 /\
                     exists q, q ∈ firstn 4 (p :: ps) /\ t = snippet q)
      snippets /\
    NoDup cites /\
    (forall c, c ∈ cites <-> c ∈ map _cite_label (firstn 4 (p :: ps))).
Proof.
  intros Hr. rewrite answer_concise_eq, Hr. unfold concise_text.
  rewrite (py_slice_prefix (p :: ps)) by lia. change (Z.to_nat 4) with 4%nat.
  destruct (concise_loop_spec (firstn 4 (p :: ps)) [] [] (NoDup_nil_2))
    as (Hnd & Hne & Hc & Hin).
  destruct (concise_loop [] [] (firstn 4 (p :: ps))) as [sn cs] eqn:Hloop.
  cbn [fst snd] in *. cbn [app] in Hc.
  rewrite py_slice_prefix by lia. change (Z.to_nat 2) with 2%nat.
  destruct (dedup_seen_spec cs []) as [Hdn Hdi].
  eexists _, (firstn 2 sn), (dedup_seen [] cs).
  split; [reflexivity|]. split; [apply verdict_cases|].
  split; [|split; [|split; [|split]]].
  - rewrite length_firstn.
    assert (sn <> []) by (apply Hne; right; discriminate).
    destruct sn; [contradiction|]. cbn [length]. lia.
  - eapply sublist_NoDup; [exact Hnd | apply sublist_take].
  - apply Forall_forall. intros t Ht.
    apply elem_of_take in Ht as (i & Ht & _).
    apply list_elem_of_lookup_2 in Ht.
    destruct (Hin t Ht) as [Hnil|(q & Hq & ->)]; [inversion Hnil|].
    split; [apply snippet_len|]. exists q. split; [exact Hq | reflexivity].
  - exact Hdn.
  - intros c. rewrite Hdi, Hc. split; [intros [H _]; exact H|].
    intros H. split; [exact H | apply not_elem_of_nil].
Qed.

End DeterministicAnswers.

Lemma answer_exact_lists_distinct_bullets_witness :
  exists keys : list (string * string),
    (answer_exact (L := LabStores.quiet) "Is plasma export permitted?" 2
       LabStores.two_rows).2
    = Ok ("Exact clauses & citations (review before use):" +:+ nl +:+ nl
          +:+ PyStr.join nl (map bullet keys)
          +:+ nl +:+ nl +:+ "Human supervision required.") /\
    NoDup keys.
Proof.
  destruct (answer_exact_lists_distinct_bullets (L := LabStores.quiet)
              "Is plasma export permitted?" 2 LabStores.two_rows
              (loaded LabStores.two_rows)
              (with_bm25 (with_score Lab.p0 1) 0)
              [with_bm25 (with_score Lab.p1 0.5) 0])
    as (keys & Heq & Hnd & _); [vm_compute; reflexivity|].
  exists keys. split; [rewrite Heq; reflexivity | exact Hnd].
Defined.

Lemma answer_concise_shape_witness :
  exists (v : string) (snippets cites : list string),
    (answer_concise (L := LabStores.quiet) "Is plasma export permitted?" 2
       LabStores.two_rows).2
    = Ok (v +:+ ": " +:+ PyStr.join " " snippets
          +:+ " [Citations: " +:+ PyStr.join "; " cites
          +:+ "]. Human supervision required.") /\
    NoDup cites.
Proof.
  destruct (answer_concise_shape (L := LabStores.quiet)
              "Is plasma export permitted?" 2 LabStores.two_rows
              (loaded LabStores.two_rows)
              (with_bm25 (with_score Lab.p0 1) 0)
              [with_bm25 (with_score Lab.p1 0.5) 0])
    as (v & sn & cs & Heq & _ & _ & _ & _ & Hnd & _); [vm_compute; reflexivity|].
  exists v, sn, cs. split; [rewrite Heq; reflexivity | exact Hnd].
Defined.

(** The two answers on a store of two chunks of one document. A snippet
    that ends in a full stop gets a second one: [rstrip] in
    [answer_concise] does not strip full stops. *)
Example deterministic_answers_run :
  (answer_exact (L := LabStores.quiet) "Is plasma export permitted?" 2
     LabStores.two_rows).2
  = Ok ("Exact clauses & citations (review before use):" +:+ nl +:+ nl
        +:+ "• Section 5 requires storage at 2-8 C.  [tgo109 (Section 5, p.1)]"
        +:+ nl
        +:+ "• Records are kept for ten years.  [tgo109 (Section 5, p.1)]"
        +:+ nl +:+ nl +:+ "Human supervision required.") /\
  (answer_concise (L := LabStores.quiet) "Is plasma export permitted?" 2
     LabStores.two_rows).2
  = Ok ("Unclear: Section 5 requires storage at 2-8 C.. "
        +:+ "Records are kept for ten years.. "
        +:+ "[Citations: tgo109 (Section 5, p.1)]. Human supervision required.").
Proof. split; vm_compute; reflexivity. Qed.

(** ** The request loop *)

Section Requests.
Import Llm.
Local Open Scope nat_scope.

Lemma attempts_retried (net : nat -> outcome) (remaining attempt : nat)
    (last_err : option error) (tr : trace) :
  retried (net attempt) = true ->
  attempts net (S remaining) attempt last_err tr
  = attempts net remaining (S attempt) (Some (error_of (net attempt)))
      (slept attempt (requested tr)).
Proof.
  cbn [attempts]. destruct (net attempt) as [c| |code|e]; cbn [retried error_of];
    try discriminate; [reflexivity|].
  intros ->. reflexivity.
Qed.

Lemma attempts_settled (net : nat -> outcome) (remaining attempt : nat)
    (last_err : option error) (tr : trace) :
  retried (net attempt) = false ->
  attempts net (S remaining) attempt last_err tr
  = (requested tr,
     match net attempt with
     | Replied content => Content (PyStr.strip content)
     | o => Failure (error_of o)
     end).
Proof.
  cbn [attempts]. destruct (net attempt) as [c| |code|e]; cbn [retried error_of];
    try discriminate; try reflexivity.
  intros ->. reflexivity.
Qed.

Lemma attempts_bounded (net : nat -> outcome) (remaining : nat) :
  forall (attempt : nat) (last_err : option error) (tr : trace),
    sleeps tr = seq 0 attempt ->
    requests tr = attempt ->
    let out := attempts net remaining attempt last_err tr in
    (requests out.1 <= attempt + remaining)%nat /\
    (length (sleeps out.1) <= requests out.1)%nat /\
    (requests out.1 <= S (length (sleeps out.1)))%nat /\
    sleeps out.1 = seq 0 (length (sleeps out.1)).
Proof.
  induction remaining as [|remaining IH]; intros attempt last_err tr Hs Hr.
  - cbn. rewrite Hs, length_seq. repeat split; lia.
  - destruct (retried (net attempt)) eqn:Hret.
    + rewrite attempts_retried by exact Hret.
      destruct (IH (S attempt) (Some (error_of (net attempt)))
                  (slept attempt (requested tr))) as (H1 & H2 & H3 & H4).
      * unfold slept, requested. cbn [sleeps]. rewrite Hs, seq_S. reflexivity.
      * cbn. lia.
      * cbv zeta. repeat split; try assumption. lia.
    + rewrite attempts_settled by exact Hret. cbn.
      rewrite Hs, length_seq. repeat split; lia.
Qed.

(** Extra: [_post_chat] sends at most [retries] requests, and none without
    an API key. It sleeps only after a request, in attempt order, and at
    most one request is not followed by a sleep. [generate] therefore sends
    at most three requests for a prompt. *)
Theorem post_chat_sends_at_most_retries
    (key : string) (net : nat -> outcome) (retries : nat) :
  let tr := (_post_chat key net retries).1 in
  (requests tr <= retries)%nat /\
  (length (sleeps tr) <= requests tr <= S (length (sleeps tr)))%nat /\
  sleeps tr = seq 0 (length (sleeps tr)) /\
  (key = EmptyString <->
   (_post_chat key net retries).2 = Failure NoKey) /\
  ((_post_chat key net retries).2 = Failure NoKey -> requests tr = 0%nat) /\
  (requests (generate key net).1 <= 3)%nat.
Proof.
  assert (Hb : forall r,
             let out := attempts net r 0 None {| requests := 0; sleeps := [] |} in
             (requests out.1 <= r)%nat /\
             (length (sleeps out.1) <= requests out.1)%nat /\
             (requests out.1 <= S (length (sleeps out.1)))%nat /\
             sleeps out.1 = seq 0 (length (sleeps out.1))).
  { intros r. apply (attempts_bounded net r 0 None); reflexivity. }
  assert (Hk : forall r last tr a,
             last <> Some NoKey ->
             (attempts net r a last tr).2 <> Failure NoKey).
  { induction r as [|r IH]; intros last tr a Hl.
    - cbn. destruct last as [e|]; cbn; [|discriminate].
      intros [= ->]. contradiction.
    - destruct (retried (net a)) eqn:Hret.
      + rewrite attempts_retried by exact Hret. apply IH.
        destruct (net a); discriminate.
      + rewrite attempts_settled by exact Hret. cbn.
        destruct (net a); discriminate. }
  unfold generate, _post_chat. destruct key as [|c key].
  - cbn. repeat split; try lia; try discriminate; auto.
  - cbv zeta. destruct (Hb retries) as (H1 & H2 & H3 & H4).
    destruct (Hb 3%nat) as (H5 & _).
    split; [exact H1|]. split; [split; [exact H2 | exact H3]|].
    split; [exact H4|]. split; [|split; [|exact H5]].
    + split; [discriminate|]. intros H. exfalso.
      eapply Hk; [|exact H]. discriminate.
    + intros H. exfalso. eapply Hk; [|exact H]. discriminate.
Qed.

Lemma attempts_run (net : nat -> outcome) (k : nat) :
  forall (remaining attempt : nat) (last_err : option error) (tr : trace),
    (forall i, (i < k)%nat -> retried (net (attempt + i)) = true) ->
    sleeps tr = seq 0 attempt ->
    requests tr = attempt ->
    attempts net (k + remaining) attempt last_err tr
    = attempts net remaining (attempt + k)
        (match k with
         | O => last_err
         | S j => Some (error_of (net (attempt + j)))
         end)
        {| requests := attempt + k; sleeps := seq 0 (attempt + k) |}.
Proof.
  induction k as [|k IH]; intros remaining attempt last_err tr Hret Hs Hr.
  - rewrite Nat.add_0_r. destruct tr as [rq sl]. cbn in *. subst. reflexivity.
  - cbn [Nat.add]. rewrite attempts_retried
      by (specialize (Hret 0%nat); rewrite Nat.add_0_r in Hret; apply Hret; lia).
    rewrite IH.
    + replace (attempt + S k) with (S attempt + k) by lia.
      f_equal. destruct k as [|j]; [rewrite Nat.add_0_r; reflexivity|].
      replace (attempt + S j) with (S attempt + j) by lia.
      reflexivity.
    + intros i Hi. replace (S attempt + i)%nat with (attempt + S i)%nat by lia.
      apply Hret. lia.
    + unfold slept, requested. cbn [sleeps]. rewrite Hs, seq_S. reflexivity.
    + cbn. lia.
Qed.

(** Extra: the first request whose outcome is not a timeout and not one of
    the statuses 429, 500, 502, 503, 504 settles the call. If it is request
    [k] (counted from 0, with [k < retries]), [k + 1] requests were sent and
    the loop slept after each of the first [k]; the call returns the
    stripped content of a reply, and raises the error otherwise, a status
    such as 400 or 401 at once. *)
Theorem first_settled_request_decides
    (key : string) (net : nat -> outcome) (retries k : nat) :
  key <> EmptyString ->
  (k < retries)%nat ->
  (forall i, (i < k)%nat -> retried (net i) = true) ->
  retried (net k) = false ->
  _post_chat key net retries
  = ({| requests := S k; sleeps := seq 0 k |},
     match net k with
     | Replied content => Content (PyStr.strip content)
     | o => Failure (error_of o)
     end).
Proof.
  intros Hkey Hk Hret Hset. unfold _post_chat.
  destruct key as [|c key]; [contradiction|].
  replace retries with (k + S (retries - S k))%nat by lia.
  rewrite attempts_run; [|exact Hret|reflexivity|reflexivity].
  cbn [Nat.add]. rewrite attempts_settled by exact Hset. reflexivity.
Qed.

(** Extra: when every one of the [retries] requests times out or meets a
    retried status, [_post_chat] raises the error of the last request,
    having sent exactly [retries] requests and slept after each of them,
    the last one included; with [retries = 0] it sends nothing and raises
    [RuntimeError]. *)
Theorem exhausted_retries_raise_last_error
    (key : string) (net : nat -> outcome) (retries : nat) :
  key <> EmptyString ->
  (forall i, (i < retries)%nat -> retried (net i) = true) ->
  _post_chat key net retries
  = ({| requests := retries; sleeps := seq 0 retries |},
     Failure (match retries with
              | O => RequestFailed
              | S j => error_of (net j)
              end)).
Proof.
  intros Hkey Hret. unfold _post_chat.
  destruct key as [|c key]; [contradiction|].
  replace retries with (retries + 0)%nat at 1 by lia.
  rewrite attempts_run; [|exact Hret|reflexivity|reflexivity].
  cbn [Nat.add attempts]. destruct retries; reflexivity.
Qed.

End Requests.

Lemma first_settled_request_decides_witness :
  Llm.generate "sk-test" Llm.busy_twice
  = ({| Llm.requests := 3; Llm.sleeps := [0; 1]%nat |}, Llm.Content "{}").
Proof.
  refine (first_settled_request_decides "sk-test" Llm.busy_twice 3 2 _ _ _ _).
  - discriminate.
  - lia.
  - intros [|[|i]] Hi; [reflexivity | reflexivity | lia].
  - reflexivity.
Defined.

Lemma exhausted_retries_raise_last_error_witness :
  Llm.generate "sk-test" Llm.always_busy
  = ({| Llm.requests := 3; Llm.sleeps := [0; 1; 2]%nat |},
     Llm.Failure (Llm.HTTPStatus 503)).
Proof.
  refine (exhausted_retries_raise_last_error "sk-test" Llm.always_busy 3 _ _).
  - discriminate.
  - intros i _. reflexivity.
Defined.

(** ** The readers *)

Section Readers.

Lemma imap_fst_seq {A B C : Type} (f : nat -> A) (g : nat -> B -> A * C)
    (l : list B) :
  (forall i x, (g i x).1 = f i) ->
  map fst (imap g l) = map f (seq 0 (length l)).
Proof.
  intros Hg. revert f g Hg.
  induction l as [|x l IH]; intros f g Hg; [reflexivity|].
  cbn [imap length seq map]. rewrite Hg. f_equal.
  rewrite <- seq_shift, map_map.
  apply (IH (fun i => f (S i))). intros i y. apply Hg.
Qed.

(** Extra: the readers number the pages of a document from 1, without gap
    or repetition: [read_pdf] returns one entry per page of the reader,
    numbered 1, 2, 3 and so on, and the other readers a single page numbered
    1. The page numbers of a document are therefore pairwise distinct. *)
Theorem readers_number_pages_from_one
    (texts : list (option string)) (paragraphs : list string)
    (t body : string) :
  map fst (read_pdf texts)
  = map (fun i : nat => Z.of_nat i + 1) (seq 0 (length texts)) /\
  NoDup (map fst (read_pdf texts)) /\
  map fst (read_docx paragraphs) = [1] /\
  map fst (read_txt t) = [1] /\
  map fst (read_web_text body) = [1].
Proof.
  assert (H : map fst (read_pdf texts)
              = map (fun i : nat => Z.of_nat i + 1) (seq 0 (length texts)))
    by (apply imap_fst_seq; reflexivity).
  split; [exact H|]. split; [|repeat split].
  rewrite H. apply NoDup_fmap_2; [|apply NoDup_seq].
  intros i j Hij. lia.
Qed.

End Readers.

(** ** Reindexing *)

Section Reindex.
Context {L : Libs}.

(** Extra: after [reindex] the pipeline answers from the files of the index
    directory and from nothing the old store had loaded, but with the
    vectorizer it loaded when it was constructed: two pipelines with the same
    vectorizer answer alike, whatever their stores held, and a pipeline
    constructed before there was a vectorizer still returns the no-evidence
    record for every question. *)
Theorem reindex_replaces_the_store_only
    (f : index_file) (g : option (list meta_line)) (w1 w2 : world)
    (question : string) (qvec : ndarray) (top_k : Z) :
  vec (reindex f g w1) = vec w1 /\
  (search qvec top_k (reindex f g w1)).2
  = (search qvec top_k (reindex f g w2)).2 /\
  (vec w1 = vec w2 ->
   (retrieve question top_k (reindex f g w1)).2
   = (retrieve question top_k (reindex f g w2)).2 /\
   (answer question top_k (reindex f g w1)).2
   = (answer question top_k (reindex f g w2)).2) /\
  (vec w1 = None ->
   (answer question top_k (reindex f g w1)).2
   = Ok (no_evidence_record question)).
Proof.
  split; [reflexivity|].
  assert (Hs : forall qvec k,
             (search qvec k (reindex f g w1)).2
             = (search qvec k (reindex f g w2)).2)
    by (intros q k; apply search_snd_live; reflexivity).
  split; [apply Hs|]. split.
  - intros Hv. apply answers_follow_search; [exact Hv | exact Hs].
  - intros Hv. rewrite answer_snd, retrieve_snd.
    change (vec (reindex f g w1)) with (vec w1). rewrite Hv. reflexivity.
Qed.

End Reindex.
